(** * Master Scheduler: shift parsing and labor-cost allocation

    A shallow embedding of [scheduler.py] ([parse_shift_hours],
    [calculate_labor_costs]) and of the two upserts of [database.py]
    ([save_schedule], [save_labor_cost]), with the properties of the
    specification stated over it.

    Conventions of the embedding.
    - Texts are ASCII strings.
    - Python [float] values are exact rationals ([Q]); binary rounding and
      overflow are not modelled.  Equalities between amounts are stated
      with [==].
    - A [date] object is its ordinal day number ([Z]).
    - An exception is a value of [pyexc] carried by [res].
    - Calls to the storage module are recorded, in program order, as a list
      of [DbCall]; [exec_calls] runs them against the tables. *)

From Stdlib Require Import List String Ascii Bool ZArith QArith Qround Qminmax Lia Lqa.
From Stdlib Require Import DecimalString Permutation Sorted.
Import ListNotations.

Local Open Scope string_scope.
Local Open Scope Z_scope.

(** ** Exceptions *)

Inductive pyexc : Type :=
| ValueError
| OverflowError
| IndexError
| NameError.

Inductive res (A : Type) : Type :=
| Ok (a : A)
| Raise (e : pyexc).
Arguments Ok {A} a.
Arguments Raise {A} e.

Definition bind {A B : Type} (m : res A) (k : A -> res B) : res B :=
  match m with
  | Ok a => k a
  | Raise e => Raise e
  end.

Notation "x <- m ;; k" := (bind m (fun x => k))
  (at level 61, m at next level, right associativity).

(** ** Python string operations used by the parser *)

Module PyStr.

(** ASCII characters for which [str.isspace] holds. *)
Definition is_space (c : ascii) : bool :=
  let n := nat_of_ascii c in
  (((9 <=? n) && (n <=? 13)) || ((28 <=? n) && (n <=? 32)))%nat.

Fixpoint lstrip_by (p : ascii -> bool) (s : string) : string :=
  match s with
  | EmptyString => EmptyString
  | String c s' => if p c then lstrip_by p s' else s
  end.

Fixpoint rstrip_by (p : ascii -> bool) (s : string) : string :=
  match s with
  | EmptyString => EmptyString
  | String c s' =>
      match rstrip_by p s' with
      | EmptyString => if p c then EmptyString else String c EmptyString
      | r => String c r
      end
  end.

Definition strip_by (p : ascii -> bool) (s : string) : string :=
  rstrip_by p (lstrip_by p s).

(** [str.strip()] *)
Definition strip (s : string) : string := strip_by is_space s.

Definition lower_char (c : ascii) : ascii :=
  let n := nat_of_ascii c in
  if ((65 <=? n) && (n <=? 90))%nat then ascii_of_nat (n + 32) else c.

(** [str.lower()] *)
Fixpoint lower (s : string) : string :=
  match s with
  | EmptyString => EmptyString
  | String c s' => String (lower_char c) (lower s')
  end.

(** [sub in s] *)
Fixpoint contains (sub s : string) : bool :=
  prefix sub s ||
  match s with
  | EmptyString => false
  | String _ s' => contains sub s'
  end.

Fixpoint replace_from (old new : string) (skip : nat) (s : string) : string :=
  match s with
  | EmptyString => EmptyString
  | String c s' =>
      match skip with
      | S k => replace_from old new k s'
      | O =>
          if prefix old s
          then new ++ replace_from old new (String.length old - 1) s'
          else String c (replace_from old new 0 s')
      end
  end.

(** [s.replace(old, new)] for a non-empty [old]: occurrences are replaced
    from left to right without overlap. *)
Definition replace (old new s : string) : string := replace_from old new 0 s.

(** [s.split(sep)] for a one-character separator. *)
Fixpoint split (sep : ascii) (s : string) : list string :=
  match s with
  | EmptyString => [EmptyString]
  | String c s' =>
      if Ascii.eqb c sep then EmptyString :: split sep s'
      else match split sep s' with
           | h :: t => String c h :: t
           | [] => [String c EmptyString]
           end
  end.

(** [s.count(c)] for one character. *)
Fixpoint count_char (c : ascii) (s : string) : nat :=
  match s with
  | EmptyString => O
  | String c' s' => if Ascii.eqb c' c then S (count_char c s') else count_char c s'
  end.

Definition is_digit (c : ascii) : bool :=
  let n := nat_of_ascii c in ((48 <=? n) && (n <=? 57))%nat.

Definition digit_val (c : ascii) : Z := Z.of_nat (nat_of_ascii c) - 48.

(** [str(z)] for an integer. *)
Definition of_Z (z : Z) : string := NilZero.string_of_int (Z.to_int z).

(** [f"{z:02d}"]: zero padded to width two, the sign counting for the width. *)
Definition format_02d (z : Z) : string :=
  let s := of_Z z in
  if (String.length s <? 2)%nat then "0" ++ s else s.

End PyStr.

(** ** [float(str)]

    The grammar is CPython's: surrounding white space (C's, a smaller set
    than [str.isspace]) is dropped, an underscore may stand between two
    digits only, then an optional sign and either [inf], [infinity], [nan]
    (any case) or a decimal literal with an optional exponent.  Anything
    else raises [ValueError].

    [float] itself returns a non-finite value for [inf] and [nan].  In
    [parse_shift_hours] such a value is only added to, compared and passed
    to [int()], which raises on it (lines 73 and 74), so the try block fails
    whenever a token is non-finite.  The embedding raises at the conversion
    instead of carrying the non-finite value to [int()]. *)

Module PyFloat.
Import PyStr.

(** The characters [float] skips at both ends: tab to carriage return, and
    the space. *)
Definition is_c_space (c : ascii) : bool :=
  let n := nat_of_ascii c in
  (((9 <=? n) && (n <=? 13)) || (n =? 32))%nat.

Fixpoint underscores_ok (prev_digit : bool) (s : string) : bool :=
  match s with
  | EmptyString => true
  | String c s' =>
      if Ascii.eqb c "_"
      then prev_digit
           && match s' with
              | String d _ => is_digit d
              | EmptyString => false
              end
           && underscores_ok false s'
      else underscores_ok (is_digit c) s'
  end.

Fixpoint remove_underscores (s : string) : string :=
  match s with
  | EmptyString => EmptyString
  | String c s' =>
      if Ascii.eqb c "_" then remove_underscores s'
      else String c (remove_underscores s')
  end.

(** Reads a maximal run of digits: accumulated value, number of digits
    read, rest of the string. *)
Fixpoint take_digits (acc : Z) (n : nat) (s : string) : Z * nat * string :=
  match s with
  | String c s' =>
      if is_digit c then take_digits (10 * acc + digit_val c) (S n) s'
      else (acc, n, s)
  | EmptyString => (acc, n, s)
  end.

Definition take_sign (s : string) : bool * string :=
  match s with
  | String c s' =>
      if Ascii.eqb c "-" then (true, s')
      else if Ascii.eqb c "+" then (false, s')
      else (false, s)
  | EmptyString => (false, s)
  end.

Definition pow10 (e : Z) : Q := Qpower (10 # 1) e.

Definition parse_exponent (s : string) : option Z :=
  let '(neg, r) := take_sign s in
  let '(e, ne, r') := take_digits 0 0 r in
  match ne, r' with
  | S _, EmptyString => Some (if neg then - e else e)
  | _, _ => None
  end.

(** An unsigned decimal literal: digits, optional point and digits (one
    digit at least), optional exponent. *)
Definition parse_decimal (s : string) : option Q :=
  let '(ip, ni, r1) := take_digits 0 0 s in
  let '(m, nf, r2) :=
    match r1 with
    | String "." r => take_digits ip 0 r
    | _ => (ip, 0%nat, r1)
    end in
  if (ni + nf =? 0)%nat then None
  else
    let mant := (inject_Z m * pow10 (- Z.of_nat nf))%Q in
    match r2 with
    | EmptyString => Some mant
    | String c r3 =>
        if Ascii.eqb c "e" || Ascii.eqb c "E"
        then match parse_exponent r3 with
             | Some e => Some (mant * pow10 e)%Q
             | None => None
             end
        else None
    end.

Definition is_inf_or_nan (s : string) : bool :=
  let l := lower s in
  String.eqb l "inf" || String.eqb l "infinity" || String.eqb l "nan".

Definition float (s : string) : res Q :=
  let s1 := strip_by is_c_space s in
  if negb (underscores_ok false s1) then Raise ValueError
  else
    let '(neg, body) := take_sign (remove_underscores s1) in
    if is_inf_or_nan body then Raise OverflowError
    else match parse_decimal body with
         | Some q => Ok (if neg then (- q)%Q else q)
         | None => Raise ValueError
         end.

End PyFloat.

(** ** Numbers *)

Definition Qlt_bool (x y : Q) : bool := negb (Qle_bool y x).

(** [int(x)] on a float: truncation towards zero. *)
Definition py_int (x : Q) : Z := Z.quot (Qnum x) (Zpos (Qden x)).

(** [x % m] on floats, for a positive [m]: the result has the sign of [m]. *)
Definition py_mod (x m : Q) : Q := (x - m * inject_Z (Qfloor (x / m)))%Q.

(** ** The shift parser ([scheduler.py], lines 32 to 83) *)

(** The tuple [(start_time, end_time, hours)]; [None] is Python's [None]. *)
Definition Shift : Type := (option string * option string * Q)%type.

Definition zero_shift : Shift := (None, None, 0%Q).

Definition shift_start (s : Shift) : option string := fst (fst s).
Definition shift_end (s : Shift) : option string := snd (fst s).
Definition shift_hours (s : Shift) : Q := snd s.

Section Parser.
Import PyStr.
Local Open Scope Q_scope.

(** The inner function [parse_time] (lines 42 to 60). *)
Definition parse_time (time_str : string) : res Q :=
  let time_str := strip time_str in
  if contains "am" (lower time_str) then
    time_val <- PyFloat.float (replace "am" "" (lower time_str)) ;;
    Ok (if negb (Qeq_bool time_val 12) then time_val else 0)
  else if contains "pm" (lower time_str) then
    time_val <- PyFloat.float (replace "pm" "" (lower time_str)) ;;
    Ok (if negb (Qeq_bool time_val 12) then time_val + 12 else 12)
  else
    time_val <- PyFloat.float time_str ;;
    if Qlt_bool time_val 12
    then Ok (if Qle_bool 5 time_val then time_val else time_val + 12)
    else Ok time_val.

(** The text [parse_time] hands to [float] for a token (lines 48, 51
    and 55). *)
Definition float_text (time_str : string) : string :=
  let t := strip time_str in
  if contains "am" (lower t) then replace "am" "" (lower t)
  else if contains "pm" (lower t) then replace "pm" "" (lower t)
  else t.

(** A token without suffix: the [else] branch of line 53. *)
Definition bare_token (time_str : string) : bool :=
  negb (contains "am" (lower (strip time_str)))
  && negb (contains "pm" (lower (strip time_str))).

(** Lines 66 to 76, once both tokens are converted. *)
Definition shift_of_hours (start_hour end_hour : Q) : Shift :=
  let end_hour :=
    if Qle_bool end_hour start_hour then end_hour + 24 else end_hour in
  let hours := end_hour - start_hour in
  let formatted_start := (format_02d (py_int start_hour) ++ ":00:00")%string in
  let formatted_end :=
    (format_02d (py_int (py_mod end_hour 24)) ++ ":00:00")%string in
  (Some formatted_start, Some formatted_end, hours).

(** The body of the [try] block (lines 38 to 79).  Unpacking the result of
    [split] into two names raises [ValueError] unless it has two items. *)
Definition parse_try (shift_str : string) : res Shift :=
  if contains "-" shift_str then
    match split "-" shift_str with
    | [start_time; end_time] =>
        start_hour <- parse_time start_time ;;
        end_hour <- parse_time end_time ;;
        Ok (shift_of_hours start_hour end_hour)
    | _ => Raise ValueError
    end
  else Ok zero_shift.

(** [parse_shift_hours] with its effect: the second component lists the
    texts for which [st.warning] was called. *)
Definition parse_shift_hours_io (shift_str : string) : Shift * list string :=
  if String.eqb shift_str "" || String.eqb shift_str "CLOSED"
  then (zero_shift, [])
  else match parse_try shift_str with
       | Ok r => (r, [])
       | Raise _ => (zero_shift, [shift_str])
       end.

Definition parse_shift_hours (shift_str : string) : Shift :=
  fst (parse_shift_hours_io shift_str).

End Parser.

(** ** Data of one calculation *)

(** An active employee as [get_all_employees] returns it; [pay_type] is the
    text of the column, compared with ['Hourly'] at line 316. *)
Record Employee : Type := {
  id : Z;
  pay_type : string;
  pay_rate : Q
}.

(** A row of the edited schedule frame: [row['Employee ID']] and the cell
    [row[date_str]] of each day column.  The frame has a text column for
    every label of [date_strs] (lines 134 to 138), so [cell] is total. *)
Record ScheduleRow : Type := {
  employee_id : Z;
  cell : string -> string
}.

(** The three parallel lists [dates], [date_strs] and [date_closed], which
    the caller builds over the same [range(7)] (lines 113 to 115), zipped:
    [dates[i]], [date_strs[i]], [date_closed[i]]. *)
Record Day : Type := {
  date_obj : Z;
  date_str : string;
  closed : bool
}.

(** A value of the dictionary [daily_labor]. *)
Record Labor : Type := {
  total_hours : Q;
  regular_hours : Q;
  overtime_hours : Q;
  total_cost : Q
}.

(** The arguments of one [db.save_schedule] call, and a row of the table
    [schedules] (row id and time stamps left out). *)
Record ScheduleEntry : Type := {
  s_employee_id : Z;
  s_date : Z;
  s_start_time : option string;
  s_end_time : option string;
  s_hours : option Q;
  s_cost : option Q;
  s_overtime : bool
}.

(** The arguments of one [db.save_labor_cost] call, and a row of the table
    [labor_costs]. *)
Record LaborCostEntry : Type := {
  l_date : Z;
  l_total_hours : Q;
  l_regular_hours : Q;
  l_overtime_hours : Q;
  l_total_cost : Q;
  l_labor_goal_percentage : option Q;
  l_required_sales : option Q;
  l_actual_sales : option Q
}.

Inductive DbCall : Type :=
| SaveSchedule (e : ScheduleEntry)
| SaveLaborCost (e : LaborCostEntry).

(** ** The dictionary [daily_labor]: keys in insertion order *)

Definition Dict : Type := list (Z * Labor).

Definition zero_labor : Labor :=
  {| total_hours := 0; regular_hours := 0; overtime_hours := 0; total_cost := 0 |}.

(** [d[k] = v] *)
Fixpoint dict_set (k : Z) (v : Labor) (d : Dict) : Dict :=
  match d with
  | [] => [(k, v)]
  | (k', v') :: d' =>
      if Z.eqb k' k then (k', v) :: d' else (k', v') :: dict_set k v d'
  end.

(** An update in place of [d[k]].  The key is one of the dates the
    dictionary was built from, so Python's [KeyError] cannot occur. *)
Fixpoint dict_alter (f : Labor -> Labor) (k : Z) (d : Dict) : Dict :=
  match d with
  | [] => []
  | (k', v) :: d' =>
      if Z.eqb k' k then (k', f v) :: d' else (k', v) :: dict_alter f k d'
  end.

Definition dict_keys (d : Dict) : list Z := map fst d.

Definition dict_sum (f : Labor -> Q) (d : Dict) : Q :=
  fold_right (fun e acc => (f (snd e) + acc)%Q) 0%Q d.

(** The four [+=] of lines 353 to 356.  The loops of lines 385 to 387 and
    419 to 421 leave [overtime_hours] alone, which is adding 0 to it. *)
Definition add_labor (h r o c : Q) (l : Labor) : Labor :=
  {| total_hours := (total_hours l + h)%Q;
     regular_hours := (regular_hours l + r)%Q;
     overtime_hours := (overtime_hours l + o)%Q;
     total_cost := (total_cost l + c)%Q |}.

(** ** The state of [calculate_labor_costs]

    [times] holds the function's names [start_time] and [end_time], which
    are assigned by every call of the parser and are read in the overtime
    loop; [None] while they are unbound. *)

Definition Times : Type := option (option string * option string).

Record CalcState : Type := {
  daily_labor : Dict;
  calls : list DbCall;
  times : Times
}.

Definition record_shift (employee_id date_obj : Z)
    (start_time end_time : option string) (hours reg ot cost : Q)
    (overtime : bool) (tm : Times) (st : CalcState) : CalcState :=
  {| daily_labor := dict_alter (add_labor hours reg ot cost) date_obj (daily_labor st);
     calls := calls st ++
       [SaveSchedule {| s_employee_id := employee_id; s_date := date_obj;
                        s_start_time := start_time; s_end_time := end_time;
                        s_hours := Some hours; s_cost := Some cost;
                        s_overtime := overtime |}];
     times := tm |}.

Section Allocator.
Local Open Scope Q_scope.

(** [shift_str and shift_str != "CLOSED"] *)
Definition is_shift_text (shift_str : string) : bool :=
  negb (String.eqb shift_str "") && negb (String.eqb shift_str "CLOSED").

(** *** First pass (lines 299 to 313) *)

Definition first_pass_step (row : ScheduleRow)
    (acc : Q * list (Z * Q) * Times) (day : Day) : Q * list (Z * Q) * Times :=
  let '(weekly_hours, weekly_shifts, tm) := acc in
  if closed day then acc
  else
    let shift_str := cell row (date_str day) in
    if is_shift_text shift_str then
      let '(start_time, end_time, hours) := parse_shift_hours shift_str in
      if Qlt_bool 0 hours
      then (weekly_hours + hours,
            (weekly_shifts ++ [(date_obj day, hours)])%list,
            Some (start_time, end_time))
      else (weekly_hours, weekly_shifts, Some (start_time, end_time))
    else acc.

Definition first_pass (week : list Day) (row : ScheduleRow) (tm : Times)
  : Q * list (Z * Q) * Times :=
  fold_left (first_pass_step row) week (0, [], tm).

(** *** [weekly_shifts.sort(key=lambda x: x[0])]: a stable sort by date *)

Fixpoint insert_by_date (x : Z * Q) (l : list (Z * Q)) : list (Z * Q) :=
  match l with
  | [] => [x]
  | y :: l' =>
      if (fst x <=? fst y)%Z then x :: l else y :: insert_by_date x l'
  end.

Definition sort_by_date (l : list (Z * Q)) : list (Z * Q) :=
  fold_right insert_by_date [] l.

(** *** Overtime loop (lines 330 to 367) *)

(** Lines 331 to 345: [(reg_hours, ot_hours, regular_remaining)]. *)
Definition split_shift (regular_remaining shift_hours : Q) : Q * Q * Q :=
  if Qlt_bool 0 regular_remaining then
    if Qle_bool shift_hours regular_remaining
    then (shift_hours, 0, regular_remaining - shift_hours)
    else (regular_remaining, shift_hours - regular_remaining, 0)
  else (0, shift_hours, regular_remaining).

(** Lines 348 to 350. *)
Definition overtime_cost_of (pay_rate reg_hours ot_hours : Q) : Q :=
  let regular_cost := reg_hours * pay_rate in
  let overtime_cost := ot_hours * pay_rate * 1.5 in
  regular_cost + overtime_cost.

Definition overtime_step (employee_id : Z) (pay_rate : Q)
    (start_time end_time : option string)
    (acc : Q * CalcState) (shift : Z * Q) : Q * CalcState :=
  let '(regular_remaining, st) := acc in
  let '(date_obj, shift_hours) := shift in
  let '(reg_hours, ot_hours, regular_remaining) :=
    split_shift regular_remaining shift_hours in
  let total_cost := overtime_cost_of pay_rate reg_hours ot_hours in
  (regular_remaining,
   record_shift employee_id date_obj start_time end_time
     shift_hours reg_hours ot_hours total_cost (Qlt_bool 0 ot_hours)
     (times st) st).

Definition overtime_loop (employee_id : Z) (pay_rate : Q)
    (start_time end_time : option string)
    (weekly_shifts : list (Z * Q)) (st : CalcState) : Q * CalcState :=
  fold_left (overtime_step employee_id pay_rate start_time end_time)
    (sort_by_date weekly_shifts) (40, st).

(** *** Hourly employee without overtime (lines 370 to 398) *)

Definition regular_step (row : ScheduleRow) (pay_rate : Q)
    (st : CalcState) (day : Day) : CalcState :=
  if closed day then st
  else
    let shift_str := cell row (date_str day) in
    if is_shift_text shift_str then
      let '(start_time, end_time, hours) := parse_shift_hours shift_str in
      if Qlt_bool 0 hours then
        let cost := hours * pay_rate in
        record_shift (employee_id row) (date_obj day) start_time end_time
          hours hours 0 cost false (Some (start_time, end_time)) st
      else {| daily_labor := daily_labor st; calls := calls st;
              times := Some (start_time, end_time) |}
    else st.

(** *** Salaried employee (lines 400 to 432) *)

Definition working_days (week : list Day) (row : ScheduleRow) : nat :=
  List.length
    (filter (fun day => negb (closed day) && is_shift_text (cell row (date_str day)))
            week).

Definition salaried_step (row : ScheduleRow) (daily_salary : Q)
    (st : CalcState) (day : Day) : CalcState :=
  if closed day then st
  else
    let shift_str := cell row (date_str day) in
    if is_shift_text shift_str then
      let '(start_time, end_time, hours) := parse_shift_hours shift_str in
      record_shift (employee_id row) (date_obj day) start_time end_time
        hours hours 0 daily_salary false (Some (start_time, end_time)) st
    else st.

(** *** One iteration of the loop over the rows (lines 288 to 432) *)

Definition find_employee (employee_df : list Employee) (employee_id : Z)
  : res Employee :=
  match find (fun e => Z.eqb (id e) employee_id) employee_df with
  | Some e => Ok e
  | None => Raise IndexError
  end.

Definition process_employee (week : list Day) (employee_df : list Employee)
    (st : CalcState) (row : ScheduleRow) : res CalcState :=
  employee_data <- find_employee employee_df (employee_id row) ;;
  let pay_rate := pay_rate employee_data in
  let '(weekly_hours, weekly_shifts, tm) := first_pass week row (times st) in
  let st := {| daily_labor := daily_labor st; calls := calls st; times := tm |} in
  if String.eqb (pay_type employee_data) "Hourly" then
    if Qlt_bool 40 weekly_hours then
      match tm with
      | Some (start_time, end_time) =>
          Ok (snd (overtime_loop (employee_id row) pay_rate start_time end_time
                     weekly_shifts st))
      | None => Raise NameError
      end
    else Ok (fold_left (regular_step row pay_rate) week st)
  else
    let working_days := working_days week row in
    if (0 <? working_days)%nat then
      let daily_salary := pay_rate / inject_Z (Z.of_nat working_days) in
      Ok (fold_left (salaried_step row daily_salary) week st)
    else Ok st.

(** *** Saving the daily totals (lines 435 to 454) *)

Definition required_sales_of (labor_goal_pct total_cost : Q) : Q :=
  if Qlt_bool 0 labor_goal_pct then total_cost / (labor_goal_pct / 100) else 0.

Definition save_daily (labor_goal_pct : Q) (cs : list DbCall)
    (item : Z * Labor) : list DbCall :=
  let '(date_obj, labor_data) := item in
  if Qeq_bool (total_cost labor_data) 0 then cs
  else
    let required_sales := required_sales_of labor_goal_pct (total_cost labor_data) in
    (cs ++ [SaveLaborCost
             {| l_date := date_obj;
                l_total_hours := total_hours labor_data;
                l_regular_hours := regular_hours labor_data;
                l_overtime_hours := overtime_hours labor_data;
                l_total_cost := total_cost labor_data;
                l_labor_goal_percentage := Some labor_goal_pct;
                l_required_sales := Some required_sales;
                l_actual_sales := None |}])%list.

(** *** The whole function *)

(** The loop over the rows; an exception leaves it with the state reached. *)
Fixpoint process_rows (week : list Day) (employee_df : list Employee)
    (rows : list ScheduleRow) (st : CalcState) : CalcState * option pyexc :=
  match rows with
  | [] => (st, None)
  | row :: rest =>
      match process_employee week employee_df st row with
      | Ok st' => process_rows week employee_df rest st'
      | Raise e => (st, Some e)
      end
  end.

Definition init_state (week : list Day) : CalcState :=
  {| daily_labor :=
       fold_left (fun d day => dict_set (date_obj day) zero_labor d) week [];
     calls := [];
     times := None |}.

(** What one run leaves behind: the dictionary, the storage calls made,
    and the exception that ended it, if any. *)
Record Outcome : Type := {
  out_daily : Dict;
  out_calls : list DbCall;
  out_exc : option pyexc
}.

Definition calculate_labor_costs (schedule_df : list ScheduleRow)
    (week : list Day) (labor_goal_pct : Q) (employee_df : list Employee)
  : Outcome :=
  match process_rows week employee_df schedule_df (init_state week) with
  | (st, Some e) =>
      {| out_daily := daily_labor st; out_calls := calls st; out_exc := Some e |}
  | (st, None) =>
      {| out_daily := daily_labor st;
         out_calls := fold_left (save_daily labor_goal_pct) (daily_labor st) (calls st);
         out_exc := None |}
  end.

End Allocator.

(** ** The loops read as lists

    Descriptions of what the loops above go through; the lemmas
    [first_pass_spec], [overtime_loop_spec], [regular_loop_spec] and
    [salaried_loop_spec] tie them to the loops. *)

Section Traces.
Local Open Scope Q_scope.

(** The days on which a loop over the week calls the parser: the open
    days whose cell is neither empty nor the closed-day marker. *)
Definition shift_text_days (week : list Day) (row : ScheduleRow) : list Day :=
  filter (fun day => negb (closed day) && is_shift_text (cell row (date_str day)))
         week.

(** The same days with the parser's result. *)
Definition parsed_days (week : list Day) (row : ScheduleRow) : list (Day * Shift) :=
  map (fun day => (day, parse_shift_hours (cell row (date_str day))))
      (shift_text_days week row).

Definition last_opt {A : Type} (l : list A) : option A :=
  fold_left (fun _ x => Some x) l None.

(** The list [weekly_shifts] after the first pass. *)
Definition worked_shifts (week : list Day) (row : ScheduleRow) : list (Z * Q) :=
  map (fun dp => (date_obj (fst dp), shift_hours (snd dp)))
      (filter (fun dp => Qlt_bool 0 (shift_hours (snd dp))) (parsed_days week row)).

(** [start_time] and [end_time] after a loop that called the parser on
    [parsed_days]. *)
Definition last_times (week : list Day) (row : ScheduleRow) (tm : Times) : Times :=
  fold_left (fun _ dp => Some (shift_start (snd dp), shift_end (snd dp)))
            (parsed_days week row) tm.

Definition sum_hours (l : list (Z * Q)) : Q :=
  fold_right (fun x acc => snd x + acc) 0 l.

(** The variable [weekly_hours] after the first pass. *)
Definition weekly_hours_of (week : list Day) (row : ScheduleRow) (tm : Times) : Q :=
  fst (fst (first_pass week row tm)).

(** One iteration of the overtime loop: the shift, the budget
    [regular_remaining] before and after it, and the split. *)
Record Assigned : Type := {
  a_date : Z;
  a_hours : Q;
  a_before : Q;
  a_reg : Q;
  a_ot : Q;
  a_after : Q
}.

Fixpoint assign_hours (regular_remaining : Q) (shifts : list (Z * Q)) : list Assigned :=
  match shifts with
  | [] => []
  | (date_obj, shift_hours) :: rest =>
      let '(reg_hours, ot_hours, remaining) :=
        split_shift regular_remaining shift_hours in
      {| a_date := date_obj; a_hours := shift_hours;
         a_before := regular_remaining;
         a_reg := reg_hours; a_ot := ot_hours; a_after := remaining |}
      :: assign_hours remaining rest
  end.

(** The storage call of one iteration of the overtime loop. *)
Definition overtime_entry (employee_id : Z) (pay_rate : Q)
    (start_time end_time : option string) (a : Assigned) : ScheduleEntry :=
  {| s_employee_id := employee_id; s_date := a_date a;
     s_start_time := start_time; s_end_time := end_time;
     s_hours := Some (a_hours a);
     s_cost := Some (overtime_cost_of pay_rate (a_reg a) (a_ot a));
     s_overtime := Qlt_bool 0 (a_ot a) |}.

(** The budget is handed from one iteration to the next. *)
Fixpoint chained (budget : Q) (tr : list Assigned) : Prop :=
  match tr with
  | [] => True
  | a :: tr' => a_before a = budget /\ chained (a_after a) tr'
  end.

(** The storage call of one iteration of the salaried loop. *)
Definition salaried_entry (employee_id : Z) (daily_salary : Q)
    (dp : Day * Shift) : ScheduleEntry :=
  {| s_employee_id := employee_id; s_date := date_obj (fst dp);
     s_start_time := shift_start (snd dp); s_end_time := shift_end (snd dp);
     s_hours := Some (shift_hours (snd dp));
     s_cost := Some daily_salary;
     s_overtime := false |}.

(** The four amounts one iteration adds to [daily_labor[date]], kept as a
    [Labor] record next to the date. *)
Definition add_delta (x : Z * Labor) (d : Dict) : Dict :=
  dict_alter
    (add_labor (total_hours (snd x)) (regular_hours (snd x))
               (overtime_hours (snd x)) (total_cost (snd x)))
    (fst x) d.

Definition add_all (l : list (Z * Labor)) (d : Dict) : Dict :=
  fold_left (fun d x => add_delta x d) l d.

Definition sum_deltas (f : Labor -> Q) (l : list (Z * Labor)) : Q :=
  fold_right (fun x acc => f (snd x) + acc) 0 l.

Definition overtime_delta (pay_rate : Q) (a : Assigned) : Z * Labor :=
  (a_date a,
   {| total_hours := a_hours a; regular_hours := a_reg a;
      overtime_hours := a_ot a;
      total_cost := overtime_cost_of pay_rate (a_reg a) (a_ot a) |}).

(** The days of the no-overtime loop that pass [hours > 0]. *)
Definition worked_days (week : list Day) (row : ScheduleRow) : list (Day * Shift) :=
  filter (fun dp => Qlt_bool 0 (shift_hours (snd dp))) (parsed_days week row).

Definition regular_delta (pay_rate : Q) (dp : Day * Shift) : Z * Labor :=
  (date_obj (fst dp),
   {| total_hours := shift_hours (snd dp); regular_hours := shift_hours (snd dp);
      overtime_hours := 0;
      total_cost := shift_hours (snd dp) * pay_rate |}).

Definition regular_entry (employee_id : Z) (pay_rate : Q)
    (dp : Day * Shift) : ScheduleEntry :=
  {| s_employee_id := employee_id; s_date := date_obj (fst dp);
     s_start_time := shift_start (snd dp); s_end_time := shift_end (snd dp);
     s_hours := Some (shift_hours (snd dp));
     s_cost := Some (shift_hours (snd dp) * pay_rate);
     s_overtime := false |}.

Definition salaried_delta (daily_salary : Q) (dp : Day * Shift) : Z * Labor :=
  (date_obj (fst dp),
   {| total_hours := shift_hours (snd dp); regular_hours := shift_hours (snd dp);
      overtime_hours := 0;
      total_cost := daily_salary |}).

(** The greedy rule for one iteration of the overtime loop: a shift
    within the budget is regular and is taken off the budget; a shift
    above it is split at the budget, which is then used up. *)
Definition greedy_step (a : Assigned) : Prop :=
  0 <= a_before a /\
  (a_hours a <= a_before a ->
     a_reg a == a_hours a /\ a_ot a == 0 /\
     a_after a == a_before a - a_hours a) /\
  (a_before a < a_hours a ->
     a_reg a == a_before a /\ a_ot a == a_hours a - a_before a /\
     a_after a == 0).

(** A shift paid as overtime from its first hour. *)
Definition all_overtime (a : Assigned) : Prop :=
  a_reg a == 0 /\ a_ot a == a_hours a /\ a_after a == 0.

(** The iterations of the overtime loop for one row. *)
Definition overtime_trace (week : list Day) (row : ScheduleRow) : list Assigned :=
  assign_hours 40 (sort_by_date (worked_shifts week row)).

(** The count the specification gives for a salaried employee's working
    days: the open days whose cell parses to a duration other than 0.
    (The code's count is [working_days].) *)
Definition nonzero_duration_days (week : list Day) (row : ScheduleRow) : nat :=
  List.length
    (filter (fun dp => negb (Qeq_bool (shift_hours (snd dp)) 0))
            (parsed_days week row)).

(** The arguments of the [save_labor_cost] call for one item of
    [daily_labor] (lines 443 to 454). *)
Definition daily_entry (labor_goal_pct : Q) (item : Z * Labor) : LaborCostEntry :=
  {| l_date := fst item;
     l_total_hours := total_hours (snd item);
     l_regular_hours := regular_hours (snd item);
     l_overtime_hours := overtime_hours (snd item);
     l_total_cost := total_cost (snd item);
     l_labor_goal_percentage := Some labor_goal_pct;
     l_required_sales :=
       Some (required_sales_of labor_goal_pct (total_cost (snd item)));
     l_actual_sales := None |}.

(** The items the saving loop does not skip (line 439). *)
Definition has_cost (item : Z * Labor) : bool :=
  negb (Qeq_bool (total_cost (snd item)) 0).

(** The order of the sort. *)
Definition date_le (a b : Z * Q) : Prop := (fst a <= fst b)%Z.

(** A field of [Labor] to which [add_labor] adds its share. *)
Definition additive (f : Labor -> Q) : Prop :=
  forall x l, f (add_labor (total_hours x) (regular_hours x)
                           (overtime_hours x) (total_cost x) l) == f l + f x.

(** Every date of the week is a key of the dictionary. *)
Definition keys_cover (week : list Day) (d : Dict) : Prop :=
  forall day, In day week -> In (date_obj day) (dict_keys d).

(** The relation kept by every update of [daily_labor]. *)
Definition balanced (l : Labor) : Prop :=
  total_hours l == regular_hours l + overtime_hours l.

End Traces.

(** ** The storage module ([database.py]) *)

Section Upsert.
Context {K R : Type}.
Variable key : R -> K.
Variable key_eqb : K -> K -> bool.
(** [update old new]: the row [old] after the [UPDATE] with the values of
    the call [new]. *)
Variable update : R -> R -> R.

(** [SELECT id ... WHERE key = ?], [fetchone()], then [UPDATE ... WHERE
    id = ?] on the row found, or [INSERT] at the end of the table. *)
Fixpoint upsert (new : R) (table : list R) : list R :=
  match table with
  | [] => [new]
  | r :: table' =>
      if key_eqb (key r) (key new) then update r new :: table'
      else r :: upsert new table'
  end.

Definition upsert_all (news : list R) (table : list R) : list R :=
  fold_left (fun t n => upsert n t) news table.
End Upsert.

(** A row of the table [employees]. *)
Record EmployeeRow : Type := {
  e_data : Employee;
  e_active : bool
}.

Record Db : Type := {
  employees : list EmployeeRow;
  schedules : list ScheduleEntry;
  labor_costs : list LaborCostEntry
}.

(** [get_all_employees]: the rows with [active = 1].  ([id] is the primary
    key, so the [ORDER BY name] plays no role in the look-up by [id].) *)
Definition get_all_employees (db : Db) : list Employee :=
  map e_data (filter e_active (employees db)).

Definition schedule_key (e : ScheduleEntry) : Z * Z := (s_employee_id e, s_date e).

Definition schedule_key_eqb (a b : Z * Z) : bool :=
  Z.eqb (fst a) (fst b) && Z.eqb (snd a) (snd b).

(** [UPDATE schedules SET start_time, end_time, hours, cost, overtime]. *)
Definition schedule_update (old new : ScheduleEntry) : ScheduleEntry :=
  {| s_employee_id := s_employee_id old; s_date := s_date old;
     s_start_time := s_start_time new; s_end_time := s_end_time new;
     s_hours := s_hours new; s_cost := s_cost new;
     s_overtime := s_overtime new |}.

(** [UPDATE labor_costs SET total_hours, regular_hours, overtime_hours,
    total_cost, labor_goal_percentage, required_sales, actual_sales]. *)
Definition labor_cost_update (old new : LaborCostEntry) : LaborCostEntry :=
  {| l_date := l_date old;
     l_total_hours := l_total_hours new;
     l_regular_hours := l_regular_hours new;
     l_overtime_hours := l_overtime_hours new;
     l_total_cost := l_total_cost new;
     l_labor_goal_percentage := l_labor_goal_percentage new;
     l_required_sales := l_required_sales new;
     l_actual_sales := l_actual_sales new |}.

Definition save_schedule (e : ScheduleEntry) (db : Db) : Db :=
  {| employees := employees db;
     schedules := upsert schedule_key schedule_key_eqb schedule_update e (schedules db);
     labor_costs := labor_costs db |}.

Definition save_labor_cost (e : LaborCostEntry) (db : Db) : Db :=
  {| employees := employees db;
     schedules := schedules db;
     labor_costs := upsert l_date Z.eqb labor_cost_update e (labor_costs db) |}.

Definition exec_call (db : Db) (c : DbCall) : Db :=
  match c with
  | SaveSchedule e => save_schedule e db
  | SaveLaborCost e => save_labor_cost e db
  end.

Definition exec_calls (cs : list DbCall) (db : Db) : Db :=
  fold_left exec_call cs db.

(** One press of "Calculate Schedule Labor Cost": the employees are read
    from the store, the calculation runs, and its calls reach the store in
    program order. *)
Definition run_calculation (schedule_df : list ScheduleRow) (week : list Day)
    (labor_goal_pct : Q) (db : Db) : Db :=
  exec_calls
    (out_calls (calculate_labor_costs schedule_df week labor_goal_pct
                  (get_all_employees db)))
    db.

(** Projections of a list of calls. *)
Definition schedule_calls (cs : list DbCall) : list ScheduleEntry :=
  flat_map (fun c => match c with SaveSchedule e => [e] | _ => [] end) cs.

Definition labor_cost_calls (cs : list DbCall) : list LaborCostEntry :=
  flat_map (fun c => match c with SaveLaborCost e => [e] | _ => [] end) cs.

(** ** The schedule editor ([schedule_tab] and [save_schedule_to_db]) *)

(** Lines 154 and 155: the text shown for a stored hour, the [.hour] of a
    stored time. *)
Definition hour_label (hour : Z) : string :=
  (PyStr.of_Z (if (hour <=? 12)%Z then hour else (hour - 12)%Z)
   ++ (if (hour <? 12)%Z then "am" else "pm"))%string.

(** Line 156. *)
Definition shift_label (start_hour end_hour : Z) : string :=
  (hour_label start_hour ++ "-" ++ hour_label end_hour)%string.

(** The row [fetchone()] returns for [WHERE employee_id = ? AND date = ?]. *)
Definition find_schedule (employee_id date : Z) (table : list ScheduleEntry)
  : option ScheduleEntry :=
  find (fun s => schedule_key_eqb (schedule_key s) (employee_id, date)) table.

(** [SELECT id FROM labor_costs WHERE date = ?] with [fetchone()], the
    look-up of [save_labor_cost]. *)
Definition find_labor_cost (date : Z) (table : list LaborCostEntry)
  : option LaborCostEntry :=
  find (fun r => Z.eqb (l_date r) date) table.

(** [not get_schedule_by_employee(employee_id, date, date).empty]: a row of
    [schedules] for the employee and the date, joined with a row of
    [employees] of that id. *)
Definition schedule_exists (db : Db) (employee_id date : Z) : bool :=
  existsb (fun s =>
             schedule_key_eqb (schedule_key s) (employee_id, date)
             && existsb (fun e => Z.eqb (id (e_data e)) (s_employee_id s))
                        (employees db))
          (schedules db).

(** The call of lines 251 to 257: [cost] and [overtime] take the defaults of
    [save_schedule]. *)
Definition shift_entry (employee_id date : Z) (shift : Shift) : ScheduleEntry :=
  {| s_employee_id := employee_id; s_date := date;
     s_start_time := shift_start shift; s_end_time := shift_end shift;
     s_hours := Some (shift_hours shift); s_cost := None; s_overtime := false |}.

(** The call of lines 264 to 270. *)
Definition cleared_entry (employee_id date : Z) : ScheduleEntry :=
  {| s_employee_id := employee_id; s_date := date;
     s_start_time := None; s_end_time := None;
     s_hours := Some 0%Q; s_cost := None; s_overtime := false |}.

(** One iteration of the loop over the days (lines 239 to 270). *)
Definition save_day (row : ScheduleRow) (db : Db) (day : Day) : Db :=
  if closed day then db
  else
    let shift_str := cell row (date_str day) in
    if is_shift_text shift_str then
      save_schedule
        (shift_entry (employee_id row) (date_obj day) (parse_shift_hours shift_str))
        db
    else if schedule_exists db (employee_id row) (date_obj day) then
      save_schedule (cleared_entry (employee_id row) (date_obj day)) db
    else db.

(** [save_schedule_to_db] (lines 233 to 275); the storage calls of the
    embedding raise nothing, so the function returns [True]. *)
Definition save_schedule_to_db (schedule_df : list ScheduleRow) (week : list Day)
    (db : Db) : Db :=
  fold_left (fun db row => fold_left (save_day row) week db) schedule_df db.

(** The employee and date of every cell the editor holds a shift text for
    on an open day. *)
Definition scheduled_keys (schedule_df : list ScheduleRow) (week : list Day)
  : list (Z * Z) :=
  flat_map (fun row => map (fun day => (employee_id row, date_obj day))
                           (shift_text_days week row))
           schedule_df.

(** ** Reading the results of a run *)

(** [d[k]], for a key of the dictionary. *)
Definition dict_get (k : Z) (d : Dict) : option Labor :=
  option_map snd (find (fun e => Z.eqb (fst e) k) d).

Definition entry_hours (e : ScheduleEntry) : Q :=
  match s_hours e with Some h => h | None => 0%Q end.

Definition entry_cost (e : ScheduleEntry) : Q :=
  match s_cost e with Some c => c | None => 0%Q end.

(** The sum of [f] over the entries of one date. *)
Definition sum_on (f : ScheduleEntry -> Q) (date : Z) (l : list ScheduleEntry) : Q :=
  fold_right (fun e acc => (if Z.eqb (s_date e) date then f e + acc else acc)%Q) 0%Q l.

(** The same over the amounts added to the dictionary. *)
Definition sum_at (f : Labor -> Q) (date : Z) (l : list (Z * Labor)) : Q :=
  fold_right (fun x acc => (if Z.eqb (fst x) date then f (snd x) + acc else acc)%Q)
             0%Q l.

(** The dates of the open days of the week. *)
Definition open_dates (week : list Day) : list Z :=
  map date_obj (filter (fun day => negb (closed day)) week).

(** One iteration of a cost loop: the entry it saves and the amounts it adds
    to [daily_labor] at the entry's date. *)
Definition item_delta (it : ScheduleEntry * Labor) : Z * Labor :=
  (s_date (fst it), snd it).

(** How an iteration's entry and amounts agree, for the row of an employee. *)
Definition item_of_row (week : list Day) (row : ScheduleRow) (emp : Employee)
    (overtime_week : Prop) (it : ScheduleEntry * Labor) : Prop :=
  s_employee_id (fst it) = employee_id row /\
  s_hours (fst it) = Some (total_hours (snd it)) /\
  s_cost (fst it) = Some (total_cost (snd it)) /\
  In (s_date (fst it)) (map date_obj (shift_text_days week row)) /\
  (s_overtime (fst it) = true -> overtime_week) /\
  ((0 <= pay_rate emp)%Q -> (0 <= total_cost (snd it))%Q).

(** ** The summary of [calculate_labor_costs] (lines 463 to 558) *)

Record SummaryRow : Type := {
  sm_date : Z;
  sm_total_hours : Q;
  sm_labor_cost : Q;
  sm_required_sales : Q;
  sm_overtime_hours : Q
}.

(** Lines 464 to 479: a row for each item with a positive cost. *)
Definition summary_data (labor_goal_pct : Q) (d : Dict) : list SummaryRow :=
  map (fun item =>
         {| sm_date := fst item;
            sm_total_hours := total_hours (snd item);
            sm_labor_cost := total_cost (snd item);
            sm_required_sales :=
              required_sales_of labor_goal_pct (total_cost (snd item));
            sm_overtime_hours := overtime_hours (snd item) |})
      (filter (fun item => Qlt_bool 0 (total_cost (snd item))) d).

Definition column_sum (f : SummaryRow -> Q) (rows : list SummaryRow) : Q :=
  fold_right (fun r acc => (f r + acc)%Q) 0%Q rows.

(** Lines 547 and 551: the two weekly totals of the metrics. *)
Definition total_labor_cost (rows : list SummaryRow) : Q :=
  column_sum sm_labor_cost rows.

Definition total_required_sales (rows : list SummaryRow) : Q :=
  column_sum sm_required_sales rows.

(** Line 555. *)
Definition weekly_labor_pct (rows : list SummaryRow) : Q :=
  if Qlt_bool 0 (total_required_sales rows)
  then (total_labor_cost rows / total_required_sales rows * 100)%Q
  else 0%Q.

(** ** The reports ([reports.py]) *)

(** [ORDER BY date] of [get_labor_costs]; rows of one date, whose order SQL
    leaves open, are kept in the order of the table. *)
Fixpoint insert_labor_cost (x : LaborCostEntry) (l : list LaborCostEntry)
  : list LaborCostEntry :=
  match l with
  | [] => [x]
  | y :: l' =>
      if (l_date x <=? l_date y)%Z then x :: l else y :: insert_labor_cost x l'
  end.

Definition order_by_date (l : list LaborCostEntry) : list LaborCostEntry :=
  fold_right insert_labor_cost [] l.

(** [get_labor_costs]: [WHERE date BETWEEN ? AND ? ORDER BY date]. *)
Definition get_labor_costs (start_date end_date : Z) (db : Db)
  : list LaborCostEntry :=
  order_by_date
    (filter (fun r => (start_date <=? l_date r)%Z && (l_date r <=? end_date)%Z)
            (labor_costs db)).

(** Line 70 of [reports.py]. *)
Definition report_total_labor_cost (rows : list LaborCostEntry) : Q :=
  fold_right (fun r acc => (l_total_cost r + acc)%Q) 0%Q rows.

(** Line 71: the sum of a column skips its [NULL]s. *)
Definition report_total_required_sales (rows : list LaborCostEntry) : Q :=
  fold_right (fun r acc =>
                match l_required_sales r with
                | Some v => (v + acc)%Q
                | None => acc
                end) 0%Q rows.

(** Line 91, the value of the metric "Projected Labor %". *)
Definition report_projected_labor_pct (rows : list LaborCostEntry) : Q :=
  if Qlt_bool 0 (report_total_required_sales rows)
  then (report_total_labor_cost rows / report_total_required_sales rows * 100)%Q
  else 0%Q.

(** Line 165, the column "Projected Labor %" of the daily table; a [NULL]
    is read as NaN, and [NaN > 0] is false. *)
Definition daily_projected_pct (row : LaborCostEntry) : Q :=
  match l_required_sales row with
  | Some required_sales =>
      if Qlt_bool 0 required_sales
      then (l_total_cost row / required_sales * 100)%Q
      else 0%Q
  | None => 0%Q
  end.

(** A daily total as a run with the labor goal [labor_goal_pct] saves it
    when the cost is positive. *)
Definition saved_with_goal (labor_goal_pct : Q) (r : LaborCostEntry) : Prop :=
  (0 < l_total_cost r)%Q /\
  l_required_sales r = Some (l_total_cost r / (labor_goal_pct / 100))%Q.

(** Lines 435 to 443: the extra cost of the shifts flagged as overtime.
    A row of [schedule_data] is a row of [schedules] with the columns of
    its employee that the [JOIN] of [get_schedule] adds. *)
Definition overtime_shifts (schedule_data : list (ScheduleEntry * Employee))
  : list (ScheduleEntry * Employee) :=
  filter (fun r => s_overtime (fst r)) schedule_data.

Definition overtime_insight_cost (schedule_data : list (ScheduleEntry * Employee)) : Q :=
  let regular_cost :=
    fold_right (fun r acc => (entry_hours (fst r) * pay_rate (snd r) + acc)%Q) 0%Q
               (overtime_shifts schedule_data) in
  let actual_cost :=
    fold_right (fun r acc => (entry_cost (fst r) + acc)%Q) 0%Q
               (overtime_shifts schedule_data) in
  (actual_cost - regular_cost)%Q.

(** ** The employees ([update_employee] and [delete_employee])

    Of the columns of [employees] the ones the calculation reads are kept:
    [id], [pay_type], [pay_rate] and [active]. *)

Definition find_employee_row (employee_id : Z) (db : Db) : option EmployeeRow :=
  find (fun r => Z.eqb (id (e_data r)) employee_id) (employees db).

Definition or_else {A : Type} (v : option A) (old : A) : A :=
  match v with Some x => x | None => old end.

(** [update_employee]: [False] without a row of that id, else the [UPDATE]
    with the new values or the ones of the row found. *)
Definition update_employee (employee_id : Z) (new_pay_type : option string)
    (new_pay_rate : option Q) (db : Db) : Db * bool :=
  match find_employee_row employee_id db with
  | None => (db, false)
  | Some employee =>
      let pay_type := or_else new_pay_type (pay_type (e_data employee)) in
      let pay_rate := or_else new_pay_rate (pay_rate (e_data employee)) in
      ({| employees :=
            map (fun r =>
                   if Z.eqb (id (e_data r)) employee_id
                   then {| e_data := {| id := id (e_data r);
                                        pay_type := pay_type;
                                        pay_rate := pay_rate |};
                           e_active := e_active r |}
                   else r)
                (employees db);
          schedules := schedules db;
          labor_costs := labor_costs db |}, true)
  end.

(** [delete_employee]: [UPDATE employees SET active = 0 WHERE id = ?]. *)
Definition delete_employee (employee_id : Z) (db : Db) : Db * bool :=
  ({| employees :=
        map (fun r =>
               if Z.eqb (id (e_data r)) employee_id
               then {| e_data := e_data r; e_active := false |}
               else r)
            (employees db);
      schedules := schedules db;
      labor_costs := labor_costs db |}, true).

(** ** Sample data *)

Module Sample.
Local Open Scope Q_scope.

(** A week from Monday (day 0) to Sunday (day 6), closed on Sunday. *)
Definition week : list Day :=
  [ {| date_obj := 0; date_str := "Mon 01/05"; closed := false |};
    {| date_obj := 1; date_str := "Tue 01/06"; closed := false |};
    {| date_obj := 2; date_str := "Wed 01/07"; closed := false |};
    {| date_obj := 3; date_str := "Thu 01/08"; closed := false |};
    {| date_obj := 4; date_str := "Fri 01/09"; closed := false |};
    {| date_obj := 5; date_str := "Sat 01/10"; closed := false |};
    {| date_obj := 6; date_str := "Sun 01/11"; closed := true |} ].

Fixpoint lookup_cell (cells : list (string * string)) (label : string) : string :=
  match cells with
  | [] => ""
  | (l, c) :: cells' => if String.eqb l label then c else lookup_cell cells' label
  end.

(** A row of the frame: the cells from Monday on; Sunday reads [CLOSED]. *)
Definition row_of (employee : Z) (mon tue wed thu fri sat : string) : ScheduleRow :=
  {| employee_id := employee;
     cell := lookup_cell
       [("Mon 01/05", mon); ("Tue 01/06", tue); ("Wed 01/07", wed);
        ("Thu 01/08", thu); ("Fri 01/09", fri); ("Sat 01/10", sat);
        ("Sun 01/11", "CLOSED")]%string |}.

Definition cook : Employee := {| id := 1; pay_type := "Hourly"; pay_rate := 20 |}.
Definition manager : Employee := {| id := 2; pay_type := "Salary"; pay_rate := 700 |}.
Definition staff : list Employee := [cook; manager].

(** Five shifts of ten hours. *)
Definition cook_50h : ScheduleRow :=
  row_of 1 "9am-7pm" "9am-7pm" "9am-7pm" "9am-7pm" "9am-7pm" "".

(** The same with a short Saturday. *)
Definition cook_54h : ScheduleRow :=
  row_of 1 "9am-7pm" "9am-7pm" "9am-7pm" "9am-7pm" "9am-7pm" "10am-2pm".

Definition cook_32h : ScheduleRow :=
  row_of 1 "9am-5pm" "9am-5pm" "" "9am-5pm" "9am-5pm" "".

Definition manager_5_days : ScheduleRow :=
  row_of 2 "9am-5pm" "9am-5pm" "9am-5pm" "9am-5pm" "9am-5pm" "".

(** Tuesday's text has a colon, which [float] rejects. *)
Definition manager_bad_text : ScheduleRow :=
  row_of 2 "9am-5pm" "9:30am-5pm" "" "" "" "".

Definition manager_off : ScheduleRow := row_of 2 "" "" "" "" "" "".

Definition empty_db : Db :=
  {| employees := [ {| e_data := cook; e_active := true |};
                    {| e_data := manager; e_active := true |} ];
     schedules := [];
     labor_costs := [] |}.

End Sample.

(** * Properties *)

(** ** The parser *)

Section ParserFacts.
Import PyStr.
Local Open Scope Q_scope.

Lemma parse_io_closed_or_empty (s : string) :
  s = ""%string \/ s = "CLOSED"%string ->
  parse_shift_hours_io s = (zero_shift, []).
Proof.
  intros [-> | ->]; reflexivity.
Qed.

Lemma parse_io_raise (s : string) (e : pyexc) :
  s <> ""%string -> s <> "CLOSED"%string ->
  parse_try s = Raise e ->
  parse_shift_hours_io s = (zero_shift, [s]).
Proof.
  intros Hne Hnc Hr. unfold parse_shift_hours_io.
  apply String.eqb_neq in Hne, Hnc. rewrite Hne, Hnc. simpl.
  now rewrite Hr.
Qed.

Lemma split_length (c : ascii) (s : string) :
  List.length (split c s) = S (count_char c s).
Proof.
  induction s as [| a s IH]; simpl; [reflexivity |].
  destruct (Ascii.eqb a c); simpl; [now rewrite IH |].
  destruct (split c s) as [| h t]; simpl in *; [discriminate | exact IH].
Qed.

Lemma contains_char (c : ascii) (s : string) :
  contains (String c EmptyString) s = negb (Nat.eqb (count_char c s) 0).
Proof.
  induction s as [| a s IH]; [reflexivity |].
  cbn [contains count_char prefix].
  destruct (ascii_dec c a) as [-> | Hne].
  - rewrite Ascii.eqb_refl. now destruct s.
  - assert (Ha : Ascii.eqb a c = false) by (apply Ascii.eqb_neq; congruence).
    rewrite Ha. simpl. exact IH.
Qed.

Lemma parse_try_many_separators (s : string) :
  (2 <= count_char "-" s)%nat -> parse_try s = Raise ValueError.
Proof.
  intros Hc. unfold parse_try.
  rewrite contains_char.
  destruct (Nat.eqb_spec (count_char "-" s) 0) as [E | _]; [lia |]. simpl.
  pose proof (split_length "-" s) as Hl.
  destruct (split "-" s) as [| a [| b [| c l]]]; simpl in Hl; try reflexivity; lia.
Qed.

Lemma parse_try_no_separator (s : string) :
  count_char "-" s = O -> parse_try s = Ok zero_shift.
Proof.
  intros Hc. unfold parse_try. rewrite contains_char, Hc. reflexivity.
Qed.

Lemma parse_try_bad_token (s a b : string) (e : pyexc) :
  split "-" s = [a; b] ->
  parse_time a = Raise e \/ parse_time b = Raise e ->
  exists e', parse_try s = Raise e'.
Proof.
  intros Hs Hr. unfold parse_try. rewrite Hs.
  destruct (contains "-" s) eqn:Hc.
  - destruct Hr as [Hr | Hr].
    + rewrite Hr. now exists e.
    + rewrite Hr. destruct (parse_time a); simpl; eauto.
  - rewrite contains_char in Hc.
    pose proof (split_length "-" s) as Hl. rewrite Hs in Hl. simpl in Hl.
    destruct (Nat.eqb_spec (count_char "-" s) 0); simpl in Hc; [lia | discriminate].
Qed.

Lemma parse_time_raises_iff (t : string) (e : pyexc) :
  parse_time t = Raise e <-> PyFloat.float (float_text t) = Raise e.
Proof.
  unfold parse_time, float_text.
  destruct (contains "am" (lower (strip t))).
  - destruct (PyFloat.float _); simpl; split; congruence.
  - destruct (contains "pm" (lower (strip t))).
    + destruct (PyFloat.float _); simpl; split; congruence.
    + destruct (PyFloat.float _) as [v |]; simpl; [| split; congruence].
      destruct (Qlt_bool v 12); split; congruence.
Qed.

(** C6: [parse_shift_hours] returns for every text (the exceptions of the
    [try] block are all caught): the empty text and the closed-day marker
    give the zero shift; a text without ['-'] gives the zero shift; a text
    with more than one ['-'], or with a token that [float] rejects, gives
    the zero shift and one warning naming the text. *)
Theorem C6_parse_never_raises (s : string) :
  (exists r w, parse_shift_hours_io s = (r, w) /\
     (r = zero_shift \/ parse_try s = Ok r /\ w = [])) /\
  (s = ""%string \/ s = "CLOSED"%string ->
     parse_shift_hours_io s = (zero_shift, [])) /\
  (count_char "-" s = O -> parse_shift_hours_io s = (zero_shift, [])) /\
  (s <> "CLOSED"%string -> (2 <= count_char "-" s)%nat ->
     parse_shift_hours_io s = (zero_shift, [s])) /\
  (forall a b e, s <> "CLOSED"%string -> split "-" s = [a; b] ->
     PyFloat.float (float_text a) = Raise e \/
     PyFloat.float (float_text b) = Raise e ->
     parse_shift_hours_io s = (zero_shift, [s])).
Proof.
  repeat split.
  - unfold parse_shift_hours_io.
    destruct (String.eqb s "" || String.eqb s "CLOSED").
    + exists zero_shift, []. auto.
    + destruct (parse_try s) as [r | e].
      * exists r, []. auto.
      * exists zero_shift, [s]. auto.
  - apply parse_io_closed_or_empty.
  - intros Hc. unfold parse_shift_hours_io.
    rewrite (parse_try_no_separator s Hc).
    now destruct (String.eqb s "" || String.eqb s "CLOSED").
  - intros Hnc Hc.
    apply (parse_io_raise s ValueError); auto.
    + intros ->. simpl in Hc. lia.
    + now apply parse_try_many_separators.
  - intros a b e Hnc Hs Hr.
    assert (Hne : s <> ""%string) by (intros ->; discriminate).
    destruct (parse_try_bad_token s a b e Hs) as [e' He'].
    + destruct Hr as [Hr | Hr]; [left | right]; now apply parse_time_raises_iff.
    + now apply (parse_io_raise s e').
Qed.

Lemma C6_parse_never_raises_witness :
  parse_shift_hours_io "" = (zero_shift, []) /\
  parse_shift_hours_io "off" = (zero_shift, []) /\
  parse_shift_hours_io "9-5-6" = (zero_shift, ["9-5-6"%string]) /\
  parse_shift_hours_io "9am-noon" = (zero_shift, ["9am-noon"%string]).
Proof.
  split; [| split; [| split]].
  - apply (proj1 (proj2 (C6_parse_never_raises ""))). left. reflexivity.
  - apply (proj1 (proj2 (proj2 (C6_parse_never_raises "off")))). reflexivity.
  - apply (proj1 (proj2 (proj2 (proj2 (C6_parse_never_raises "9-5-6"))))).
    + discriminate.
    + simpl. lia.
  - apply (proj2 (proj2 (proj2 (proj2 (C6_parse_never_raises "9am-noon"))))
             "9am"%string "noon"%string ValueError).
    + discriminate.
    + reflexivity.
    + right. vm_compute. reflexivity.
Defined.

Lemma Qlt_bool_iff (x y : Q) : Qlt_bool x y = true <-> x < y.
Proof.
  unfold Qlt_bool. rewrite negb_true_iff.
  destruct (Qle_bool y x) eqn:E.
  - apply Qle_bool_iff in E. split; [discriminate | intros H; lra].
  - split; [intros _ | reflexivity].
    destruct (Qlt_le_dec x y) as [H | H]; [exact H |].
    apply Qle_bool_iff in H. congruence.
Qed.

Lemma Qlt_bool_false_iff (x y : Q) : Qlt_bool x y = false <-> y <= x.
Proof.
  unfold Qlt_bool. rewrite negb_false_iff. apply Qle_bool_iff.
Qed.

Lemma Qle_bool_false_iff (x y : Q) : Qle_bool x y = false <-> y < x.
Proof.
  rewrite <- Qlt_bool_iff. unfold Qlt_bool.
  destruct (Qle_bool x y); simpl; split; congruence.
Qed.

Lemma Qeq_bool_false_iff (x y : Q) : Qeq_bool x y = false <-> ~ x == y.
Proof.
  split; [apply Qeq_bool_neq |].
  intros H. destruct (Qeq_bool x y) eqn:E; [| reflexivity].
  apply Qeq_bool_iff in E. contradiction.
Qed.

Lemma parse_time_bare (t : string) (v : Q) :
  bare_token t = true ->
  PyFloat.float (float_text t) = Ok v ->
  (v < 5 -> parse_time t = Ok (v + 12)) /\
  (5 <= v -> parse_time t = Ok v).
Proof.
  unfold bare_token, float_text, parse_time.
  destruct (contains "am" (lower (strip t))); [discriminate |].
  destruct (contains "pm" (lower (strip t))); [discriminate |].
  intros _ ->. simpl. split; intros Hv.
  - assert (H12 : Qlt_bool v 12 = true) by (apply Qlt_bool_iff; lra).
    assert (H5 : Qle_bool 5 v = false) by (apply Qle_bool_false_iff; lra).
    now rewrite H12, H5.
  - destruct (Qlt_bool v 12); [| reflexivity].
    assert (H5 : Qle_bool 5 v = true) by (apply Qle_bool_iff; lra).
    now rewrite H5.
Qed.

(** C1: what the code does on two bare numbers.  A bare token below 5 gets
    12 added and a bare token from 5 on is kept, as specified; but
    then the 6 of ["10-6"] stays 6, is not above the start 10, and the
    overnight rule adds 24: the result is 10:00 to 06:00 and 20 hours, not
    10:00 to 18:00 and 8 hours.  Likewise ["2-10"] is 14:00 to 10:00 and
    20 hours. *)
Theorem C1_bare_numbers_actual :
  (forall t v, bare_token t = true -> PyFloat.float (float_text t) = Ok v ->
     (v < 5 -> parse_time t = Ok (v + 12)) /\
     (5 <= v -> parse_time t = Ok v)) /\
  parse_shift_hours_io "10-6"
    = (Some "10:00:00"%string, Some "06:00:00"%string, 20, []) /\
  parse_shift_hours_io "2-10"
    = (Some "14:00:00"%string, Some "10:00:00"%string, 20, []) /\
  shift_end (parse_shift_hours "10-6") <> Some "18:00:00"%string /\
  ~ shift_hours (parse_shift_hours "10-6") == 8.
Proof.
  split; [exact parse_time_bare |].
  repeat split; try reflexivity.
  - vm_compute. discriminate.
  - vm_compute. discriminate.
Qed.

Lemma C1_bare_numbers_actual_witness :
  parse_time "6" = Ok 6 /\ parse_time "2" = Ok (2 + 12).
Proof.
  split.
  - apply (proj1 C1_bare_numbers_actual "6"%string 6); try reflexivity.
    vm_compute. discriminate.
  - apply (proj1 C1_bare_numbers_actual "2"%string 2); reflexivity.
Defined.

Lemma Qfloor_unit (x : Q) : 0 <= x -> x < 1 -> Qfloor x = 0%Z.
Proof.
  intros H0 H1.
  pose proof (Qfloor_le x) as Hl. pose proof (Qlt_floor x) as Hu.
  assert (Ha : (Qfloor x < 1)%Z).
  { rewrite Zlt_Qlt. change (inject_Z 1) with 1. lra. }
  assert (Hb : (0 < Qfloor x + 1)%Z).
  { rewrite Zlt_Qlt. change (inject_Z 0) with 0. lra. }
  lia.
Qed.

Lemma py_mod_small (x m : Q) : 0 < m -> 0 <= x -> x < m -> py_mod x m == x.
Proof.
  intros Hm H0 H1. unfold py_mod.
  rewrite Qfloor_unit.
  - change (inject_Z 0) with 0. lra.
  - apply Qle_shift_div_l; lra.
  - apply Qlt_shift_div_r; lra.
Qed.

Lemma py_mod_self (m : Q) : 0 < m -> py_mod m m == 0.
Proof.
  intros Hm. unfold py_mod.
  assert (E : Qfloor (m / m) = 1%Z).
  { assert (E1 : m / m == inject_Z 1) by (change (inject_Z 1) with 1; field; lra).
    rewrite (Qfloor_comp _ _ E1). apply Qfloor_Z. }
  rewrite E. change (inject_Z 1) with 1. lra.
Qed.

Lemma parse_time_am (t : string) (v : Q) :
  contains "am" (lower (strip t)) = true ->
  PyFloat.float (float_text t) = Ok v ->
  exists h, parse_time t = Ok h /\
    (v == 12 -> h = 0) /\ (~ v == 12 -> h = v).
Proof.
  unfold float_text, parse_time. intros -> ->. simpl.
  destruct (Qeq_bool v 12) eqn:E; simpl.
  - apply Qeq_bool_iff in E. exists 0. repeat split; tauto.
  - apply Qeq_bool_false_iff in E. exists v. repeat split; tauto.
Qed.

Lemma parse_time_pm (t : string) (v : Q) :
  contains "am" (lower (strip t)) = false ->
  contains "pm" (lower (strip t)) = true ->
  PyFloat.float (float_text t) = Ok v ->
  exists h, parse_time t = Ok h /\
    (v == 12 -> h = 12) /\ (~ v == 12 -> h = v + 12).
Proof.
  unfold float_text, parse_time. intros -> -> ->. simpl.
  destruct (Qeq_bool v 12) eqn:E; simpl.
  - apply Qeq_bool_iff in E. exists 12. repeat split; tauto.
  - apply Qeq_bool_false_iff in E. exists (v + 12). repeat split; tauto.
Qed.

Lemma shift_of_hours_overnight (s e : Q) :
  e <= s ->
  shift_of_hours s e
  = (Some (format_02d (py_int s) ++ ":00:00")%string,
     Some (format_02d (py_int (py_mod (e + 24) 24)) ++ ":00:00")%string,
     e + 24 - s).
Proof.
  intros H. unfold shift_of_hours.
  apply Qle_bool_iff in H. now rewrite H.
Qed.

(** C9, as the code has it: ["9am-5pm"] is 09:00 to 17:00 and 8 hours; an
    [am] token with a value V between 0 and 12 gives the hour V mod 12 and
    a [pm] token (V mod 12) + 12; when the end hour is not above the start
    hour, 24 is added to it before the duration is taken and the stored
    end is taken modulo 24, so that ["11pm-7am"] is 8 hours ending at
    07:00. *)
Theorem C9_suffix_tokens_and_overnight :
  parse_shift_hours_io "9am-5pm"
    = (Some "09:00:00"%string, Some "17:00:00"%string, 8, []) /\
  parse_shift_hours_io "11pm-7am"
    = (Some "23:00:00"%string, Some "07:00:00"%string, 8, []) /\
  (forall t v,
     contains "am" (lower (strip t)) = true ->
     PyFloat.float (float_text t) = Ok v ->
     0 <= v <= 12 ->
     exists h, parse_time t = Ok h /\ h == py_mod v 12) /\
  (forall t v,
     contains "am" (lower (strip t)) = false ->
     contains "pm" (lower (strip t)) = true ->
     PyFloat.float (float_text t) = Ok v ->
     0 <= v <= 12 ->
     exists h, parse_time t = Ok h /\ h == py_mod v 12 + 12) /\
  (forall s e,
     e <= s ->
     shift_of_hours s e
     = (Some (format_02d (py_int s) ++ ":00:00")%string,
        Some (format_02d (py_int (py_mod (e + 24) 24)) ++ ":00:00")%string,
        e + 24 - s)).
Proof.
  split; [reflexivity |]. split; [reflexivity |].
  split; [| split; [| exact shift_of_hours_overnight]].
  - intros t v Ham Hf [H0 H12].
    destruct (parse_time_am t v Ham Hf) as (h & Hp & Heq & Hne).
    exists h. split; [exact Hp |].
    destruct (Qeq_dec v 12) as [E | E].
    + rewrite (Heq E). unfold py_mod.
      assert (E1 : v / 12 == inject_Z 1)
        by (rewrite E; reflexivity).
      rewrite (Qfloor_comp _ _ E1), Qfloor_Z.
      change (inject_Z 1) with 1. lra.
    + rewrite (Hne E). symmetry. apply py_mod_small; lra.
  - intros t v Ham Hpm Hf [H0 H12].
    destruct (parse_time_pm t v Ham Hpm Hf) as (h & Hp & Heq & Hne).
    exists h. split; [exact Hp |].
    destruct (Qeq_dec v 12) as [E | E].
    + rewrite (Heq E). unfold py_mod.
      assert (E1 : v / 12 == inject_Z 1)
        by (rewrite E; reflexivity).
      rewrite (Qfloor_comp _ _ E1), Qfloor_Z.
      change (inject_Z 1) with 1. lra.
    + rewrite (Hne E).
      assert (Hs : py_mod v 12 == v) by (apply py_mod_small; lra).
      lra.
Qed.

Lemma C9_suffix_tokens_and_overnight_witness :
  (exists h, parse_time "9am" = Ok h /\ h == py_mod 9 12) /\
  (exists h, parse_time "5pm" = Ok h /\ h == py_mod 5 12 + 12) /\
  shift_of_hours 23 7
  = (Some (format_02d (py_int 23) ++ ":00:00")%string,
     Some (format_02d (py_int (py_mod (7 + 24) 24)) ++ ":00:00")%string,
     7 + 24 - 23).
Proof.
  destruct C9_suffix_tokens_and_overnight as (_ & _ & Ham & Hpm & Hov).
  split; [| split].
  - apply (Ham "9am"%string 9); [reflexivity | reflexivity |].
    split; vm_compute; discriminate.
  - apply (Hpm "5pm"%string 5); [reflexivity | reflexivity | reflexivity |].
    split; vm_compute; discriminate.
  - apply (Hov 23 7). vm_compute. discriminate.
Defined.

(** C9 as it was stated fails for values above 12, which the code does not
    reduce: the token ["13am"] has the value 13, for which V mod 12 is 1,
    and the code returns 13; the token ["15pm"] has the value 15, for which
    (V mod 12) + 12 is 15, and the code returns 27. *)
Lemma C9_counterexample :
  (exists v h,
     PyFloat.float (float_text "13am") = Ok v /\
     parse_time "13am" = Ok h /\
     ~ h == py_mod v 12) /\
  (exists v h,
     PyFloat.float (float_text "15pm") = Ok v /\
     parse_time "15pm" = Ok h /\
     ~ h == py_mod v 12 + 12) /\
  parse_shift_hours_io "13am-5pm"
  = (Some "13:00:00"%string, Some "17:00:00"%string, 4, []).
Proof.
  split; [| split; [| reflexivity]].
  - eexists. eexists.
    split; [vm_compute; reflexivity |].
    split; [vm_compute; reflexivity |].
    vm_compute. discriminate.
  - eexists. eexists.
    split; [vm_compute; reflexivity |].
    split; [vm_compute; reflexivity |].
    vm_compute. discriminate.
Qed.

End ParserFacts.

(** ** The dictionary *)

Section DictFacts.
Local Open Scope Q_scope.

Lemma dict_keys_alter (f : Labor -> Labor) (k : Z) (d : Dict) :
  dict_keys (dict_alter f k d) = dict_keys d.
Proof.
  induction d as [| [k' v] d IH]; simpl; [reflexivity |].
  destruct (Z.eqb k' k); simpl; [reflexivity | now rewrite IH].
Qed.

Lemma dict_keys_set (k : Z) (v : Labor) (d : Dict) :
  forall k', In k' (dict_keys (dict_set k v d)) <-> k' = k \/ In k' (dict_keys d).
Proof.
  induction d as [| [k0 v0] d IH]; simpl; intros k'.
  - intuition.
  - destruct (Z.eqb_spec k0 k) as [-> | Hne]; simpl.
    + intuition.
    + rewrite IH. intuition.
Qed.

Lemma init_keys (week : list Day) (d : Dict) (k : Z) :
  In k (dict_keys (fold_left (fun d day => dict_set (date_obj day) zero_labor d) week d))
  <-> In k (map date_obj week) \/ In k (dict_keys d).
Proof.
  revert d. induction week as [| day week IH]; intros d; simpl.
  - intuition.
  - rewrite IH, dict_keys_set. intuition.
Qed.

Lemma init_state_keys_cover (week : list Day) :
  keys_cover week (daily_labor (init_state week)).
Proof.
  intros day Hin. simpl. apply init_keys. left. now apply in_map.
Qed.

Lemma dict_sum_alter (f : Labor -> Q) (g : Labor -> Labor) (delta : Q)
    (k : Z) (d : Dict) :
  (forall l, f (g l) == f l + delta) ->
  In k (dict_keys d) ->
  dict_sum f (dict_alter g k d) == dict_sum f d + delta.
Proof.
  intros Hg. induction d as [| [k' v] d IH]; simpl; [tauto |].
  intros Hin. destruct (Z.eqb_spec k' k) as [-> | Hne]; simpl.
  - rewrite Hg. lra.
  - destruct Hin as [E | Hin]; [contradiction |].
    rewrite (IH Hin). lra.
Qed.

Lemma dict_alter_balanced (g : Labor -> Labor) (k : Z) (d : Dict) :
  (forall l, balanced l -> balanced (g l)) ->
  Forall (fun e => balanced (snd e)) d ->
  Forall (fun e => balanced (snd e)) (dict_alter g k d).
Proof.
  intros Hg. induction 1 as [| [k' v] d Hv Hd IH]; simpl; [constructor |].
  destruct (Z.eqb k' k); constructor; simpl in *; auto.
Qed.

Lemma add_labor_balanced (h r o c : Q) (l : Labor) :
  h == r + o -> balanced l -> balanced (add_labor h r o c l).
Proof.
  unfold balanced. simpl. intros. lra.
Qed.

Lemma dict_set_balanced (k : Z) (d : Dict) :
  Forall (fun e => balanced (snd e)) d ->
  Forall (fun e => balanced (snd e)) (dict_set k zero_labor d).
Proof.
  induction 1 as [| [k' v] d Hv Hd IH]; simpl.
  - constructor; [| constructor]. unfold balanced. simpl. lra.
  - destruct (Z.eqb k' k); constructor; simpl in *; auto.
    unfold balanced. simpl. lra.
Qed.

Lemma init_state_balanced (week : list Day) :
  Forall (fun e => balanced (snd e)) (daily_labor (init_state week)).
Proof.
  simpl.
  assert (H : forall d, Forall (fun e => balanced (snd e)) d ->
    Forall (fun e => balanced (snd e))
      (fold_left (fun d day => dict_set (date_obj day) zero_labor d) week d)).
  { induction week as [| day week IH]; intros d Hd; simpl; [exact Hd |].
    apply IH. now apply dict_set_balanced. }
  apply H. constructor.
Qed.

End DictFacts.

(** ** The loops and their lists *)

Section LoopFacts.
Local Open Scope Q_scope.

Lemma parsed_days_cons (day : Day) (week : list Day) (row : ScheduleRow) :
  parsed_days (day :: week) row
  = if negb (closed day) && is_shift_text (cell row (date_str day))
    then (day, parse_shift_hours (cell row (date_str day))) :: parsed_days week row
    else parsed_days week row.
Proof.
  unfold parsed_days, shift_text_days. simpl.
  now destruct (negb (closed day) && is_shift_text (cell row (date_str day))).
Qed.

Lemma first_pass_gen (week : list Day) (row : ScheduleRow) :
  forall (a : Q) (l : list (Z * Q)) (tm : Times),
  exists a',
    fold_left (first_pass_step row) week (a, l, tm)
    = (a', (l ++ worked_shifts week row)%list, last_times week row tm) /\
    a' == a + sum_hours (worked_shifts week row).
Proof.
  induction week as [| day week IH]; intros a l tm.
  - exists a. simpl. rewrite app_nil_r. split; [reflexivity |].
    unfold worked_shifts, sum_hours. simpl. lra.
  - cbn [fold_left]. unfold worked_shifts, last_times.
    rewrite parsed_days_cons. unfold first_pass_step at 2.
    destruct (closed day); simpl; [apply IH |].
    destruct (is_shift_text (cell row (date_str day))); simpl; [| apply IH].
    destruct (parse_shift_hours (cell row (date_str day))) as [[s e] h].
    unfold shift_hours, shift_start, shift_end. simpl.
    destruct (Qlt_bool 0 h); simpl.
    + destruct (IH (a + h) (l ++ [(date_obj day, h)])%list (Some (s, e)))
        as (a' & Hf & Ha).
      exists a'. split.
      * etransitivity; [exact Hf |]. rewrite <- app_assoc. reflexivity.
      * rewrite Ha. symmetry. apply Qplus_assoc.
    + apply IH.
Qed.

Lemma first_pass_spec (week : list Day) (row : ScheduleRow) (tm : Times) :
  exists wh,
    first_pass week row tm = (wh, worked_shifts week row, last_times week row tm) /\
    wh == sum_hours (worked_shifts week row).
Proof.
  destruct (first_pass_gen week row 0 [] tm) as (a' & Hf & Ha).
  exists a'. split; [exact Hf | lra].
Qed.

Lemma regular_loop_spec (row : ScheduleRow) (pay_rate : Q) (week : list Day) :
  forall st,
  fold_left (regular_step row pay_rate) week st
  = {| daily_labor :=
         add_all (map (regular_delta pay_rate) (worked_days week row)) (daily_labor st);
       calls := calls st ++
         map (fun dp => SaveSchedule (regular_entry (employee_id row) pay_rate dp))
             (worked_days week row);
       times := last_times week row (times st) |}.
Proof.
  induction week as [| day week IH]; intros st.
  - simpl. rewrite app_nil_r. now destruct st.
  - cbn [fold_left]. rewrite IH. unfold worked_days, last_times.
    rewrite parsed_days_cons. unfold regular_step.
    destruct (closed day); simpl; [reflexivity |].
    destruct (is_shift_text (cell row (date_str day))); simpl; [| reflexivity].
    destruct (parse_shift_hours (cell row (date_str day))) as [[s e] h].
    unfold shift_hours at 1 2. simpl.
    destruct (Qlt_bool 0 h); simpl; [| reflexivity].
    rewrite <- app_assoc. reflexivity.
Qed.

Lemma salaried_loop_spec (row : ScheduleRow) (daily_salary : Q) (week : list Day) :
  forall st,
  fold_left (salaried_step row daily_salary) week st
  = {| daily_labor :=
         add_all (map (salaried_delta daily_salary) (parsed_days week row))
                 (daily_labor st);
       calls := calls st ++
         map (fun dp => SaveSchedule (salaried_entry (employee_id row) daily_salary dp))
             (parsed_days week row);
       times := last_times week row (times st) |}.
Proof.
  induction week as [| day week IH]; intros st.
  - simpl. rewrite app_nil_r. now destruct st.
  - cbn [fold_left]. rewrite IH. unfold last_times.
    rewrite parsed_days_cons. unfold salaried_step.
    destruct (closed day); simpl; [reflexivity |].
    destruct (is_shift_text (cell row (date_str day))); simpl; [| reflexivity].
    destruct (parse_shift_hours (cell row (date_str day))) as [[s e] h].
    simpl. rewrite <- app_assoc. reflexivity.
Qed.

Lemma overtime_fold_spec (employee_id : Z) (pay_rate : Q)
    (start_time end_time : option string) (shifts : list (Z * Q)) :
  forall budget st,
  snd (fold_left (overtime_step employee_id pay_rate start_time end_time)
                 shifts (budget, st))
  = {| daily_labor :=
         add_all (map (overtime_delta pay_rate) (assign_hours budget shifts))
                 (daily_labor st);
       calls := calls st ++
         map (fun a => SaveSchedule
                         (overtime_entry employee_id pay_rate start_time end_time a))
             (assign_hours budget shifts);
       times := times st |}.
Proof.
  induction shifts as [| [d h] shifts IH]; intros budget st.
  - simpl. rewrite app_nil_r. now destruct st.
  - cbn [fold_left assign_hours]. unfold overtime_step at 2.
    destruct (split_shift budget h) as [[r o] b'].
    rewrite IH. simpl. rewrite <- app_assoc. reflexivity.
Qed.

(** *** Sums over the dictionary *)

Lemma add_all_keys (l : list (Z * Labor)) :
  forall d, dict_keys (add_all l d) = dict_keys d.
Proof.
  induction l as [| x l IH]; intros d; simpl; [reflexivity |].
  rewrite IH. apply dict_keys_alter.
Qed.

Lemma additive_total_hours : additive total_hours.
Proof. intros x l. simpl. lra. Qed.
Lemma additive_regular_hours : additive regular_hours.
Proof. intros x l. simpl. lra. Qed.
Lemma additive_overtime_hours : additive overtime_hours.
Proof. intros x l. simpl. lra. Qed.
Lemma additive_total_cost : additive total_cost.
Proof. intros x l. simpl. lra. Qed.

Lemma add_all_sum (f : Labor -> Q) (l : list (Z * Labor)) :
  additive f ->
  forall d,
  (forall x, In x l -> In (fst x) (dict_keys d)) ->
  dict_sum f (add_all l d) == dict_sum f d + sum_deltas f l.
Proof.
  intros Hf. induction l as [| x l IH]; intros d Hk; simpl.
  - unfold sum_deltas. simpl. lra.
  - rewrite IH.
    + unfold add_delta. rewrite (dict_sum_alter f _ (f (snd x))).
      * unfold sum_deltas. simpl. lra.
      * intros l0. apply Hf.
      * apply Hk. now left.
    + intros y Hy. unfold add_delta. rewrite dict_keys_alter.
      apply Hk. now right.
Qed.

Lemma add_all_balanced (l : list (Z * Labor)) :
  Forall (fun x => balanced (snd x)) l ->
  forall d,
  Forall (fun e => balanced (snd e)) d ->
  Forall (fun e => balanced (snd e)) (add_all l d).
Proof.
  induction 1 as [| x l Hx Hl IH]; intros d Hd; simpl; [exact Hd |].
  apply IH. unfold add_delta. apply dict_alter_balanced; [| exact Hd].
  intros l0 Hl0. apply add_labor_balanced; [exact Hx | exact Hl0].
Qed.

(** *** The sort *)

Lemma insert_by_date_perm (x : Z * Q) (l : list (Z * Q)) :
  Permutation (insert_by_date x l) (x :: l).
Proof.
  induction l as [| y l IH]; simpl; [reflexivity |].
  destruct (fst x <=? fst y)%Z; [reflexivity |].
  rewrite IH. apply perm_swap.
Qed.

Lemma sort_by_date_perm (l : list (Z * Q)) : Permutation (sort_by_date l) l.
Proof.
  induction l as [| x l IH]; simpl; [reflexivity |].
  rewrite insert_by_date_perm. now constructor.
Qed.

Lemma insert_by_date_sorted (x : Z * Q) (l : list (Z * Q)) :
  Sorted date_le l -> Sorted date_le (insert_by_date x l).
Proof.
  induction 1 as [| y l Hs IH Hh]; simpl.
  - repeat constructor.
  - destruct (Z.leb_spec (fst x) (fst y)) as [Hle | Hgt].
    + constructor; [now constructor | now constructor].
    + constructor; [exact IH |].
      destruct l as [| z l]; simpl.
      * constructor. unfold date_le. lia.
      * destruct (Z.leb_spec (fst x) (fst z)).
        -- constructor. unfold date_le. lia.
        -- constructor. now inversion Hh.
Qed.

Lemma sort_by_date_sorted (l : list (Z * Q)) : Sorted date_le (sort_by_date l).
Proof.
  induction l as [| x l IH]; simpl; [constructor |].
  now apply insert_by_date_sorted.
Qed.

(** On shifts already in date order, as the first pass leaves them for a
    week given in date order, the sort changes nothing. *)
Lemma sort_by_date_of_sorted (l : list (Z * Q)) :
  Sorted date_le l -> sort_by_date l = l.
Proof.
  induction 1 as [| x l Hs IH Hh]; simpl; [reflexivity |].
  rewrite IH. destruct Hh as [| y l Hxy]; simpl; [reflexivity |].
  unfold date_le in Hxy. apply Z.leb_le in Hxy. now rewrite Hxy.
Qed.

Lemma sum_hours_perm (l l' : list (Z * Q)) :
  Permutation l l' -> sum_hours l == sum_hours l'.
Proof.
  unfold sum_hours.
  induction 1; simpl; lra.
Qed.

(** *** The first pass *)

Lemma worked_shifts_positive (week : list Day) (row : ScheduleRow) :
  Forall (fun x => 0 < snd x) (worked_shifts week row).
Proof.
  unfold worked_shifts. apply Forall_forall. intros x Hx.
  apply in_map_iff in Hx. destruct Hx as (dp & <- & Hdp).
  apply filter_In in Hdp. simpl. now apply Qlt_bool_iff.
Qed.

Lemma parsed_days_in_week (week : list Day) (row : ScheduleRow) (dp : Day * Shift) :
  In dp (parsed_days week row) -> In (fst dp) week.
Proof.
  unfold parsed_days, shift_text_days. intros H.
  apply in_map_iff in H. destruct H as (day & <- & Hd).
  apply filter_In in Hd. simpl. tauto.
Qed.

Lemma worked_shifts_in_week (week : list Day) (row : ScheduleRow) (x : Z * Q) :
  In x (worked_shifts week row) -> exists day, In day week /\ date_obj day = fst x.
Proof.
  unfold worked_shifts. intros H.
  apply in_map_iff in H. destruct H as (dp & <- & Hdp).
  apply filter_In in Hdp. exists (fst dp). split; [| reflexivity].
  now apply parsed_days_in_week with (row := row).
Qed.

Lemma last_opt_fold {A B : Type} (f : A -> B) (l : list A) (init : option B) :
  fold_left (fun _ x => Some (f x)) l init
  = match last_opt l with
    | Some x => Some (f x)
    | None => init
    end.
Proof.
  destruct l as [| a l] using rev_ind; [reflexivity |].
  unfold last_opt. rewrite !fold_left_app. reflexivity.
Qed.

Lemma last_opt_map {A B : Type} (f : A -> B) (l : list A) :
  last_opt (map f l) = option_map f (last_opt l).
Proof.
  destruct l as [| a l] using rev_ind; [reflexivity |].
  unfold last_opt. rewrite map_app, !fold_left_app. reflexivity.
Qed.

Lemma last_opt_nonempty {A : Type} (l : list A) :
  l <> [] -> exists x, last_opt l = Some x /\ In x l.
Proof.
  destruct l as [| a l] using rev_ind; [congruence |].
  intros _. exists a. unfold last_opt. rewrite fold_left_app.
  split; [reflexivity |]. apply in_or_app. right. now left.
Qed.

(** [start_time] and [end_time] after the first pass are those of the
    last cell the parser was called on. *)
Lemma last_times_spec (week : list Day) (row : ScheduleRow) (tm : Times) :
  last_times week row tm
  = match last_opt (shift_text_days week row) with
    | Some day =>
        let p := parse_shift_hours (cell row (date_str day)) in
        Some (shift_start p, shift_end p)
    | None => tm
    end.
Proof.
  unfold last_times.
  rewrite (last_opt_fold (fun dp => (shift_start (snd dp), shift_end (snd dp)))).
  unfold parsed_days. rewrite last_opt_map.
  now destruct (last_opt (shift_text_days week row)).
Qed.

(** *** The overtime loop *)

Lemma assign_hours_chained (shifts : list (Z * Q)) :
  forall budget, chained budget (assign_hours budget shifts).
Proof.
  induction shifts as [| [d h] shifts IH]; intros budget; simpl; [exact I |].
  destruct (split_shift budget h) as [[r o] b'] eqn:E. simpl.
  split; [reflexivity | apply IH].
Qed.

Lemma split_shift_greedy (budget h : Q) :
  0 <= budget -> 0 < h ->
  forall r o b', split_shift budget h = (r, o, b') ->
  0 <= b' /\ r + o == h /\
  (h <= budget -> r == h /\ o == 0 /\ b' == budget - h) /\
  (budget < h -> r == budget /\ o == h - budget /\ b' == 0).
Proof.
  intros Hb Hh r o b'. unfold split_shift.
  destruct (Qlt_bool 0 budget) eqn:E1.
  - apply Qlt_bool_iff in E1.
    destruct (Qle_bool h budget) eqn:E2.
    + apply Qle_bool_iff in E2. intros [= <- <- <-].
      repeat split; try lra.
    + apply Qle_bool_false_iff in E2. intros [= <- <- <-].
      repeat split; try lra.
  - apply Qlt_bool_false_iff in E1. intros [= <- <- <-].
    repeat split; try lra.
Qed.

Lemma assign_hours_greedy (shifts : list (Z * Q)) :
  Forall (fun x => 0 < snd x) shifts ->
  forall budget, 0 <= budget ->
  Forall greedy_step (assign_hours budget shifts).
Proof.
  induction 1 as [| [d h] shifts Hh Hs IH]; intros budget Hb; simpl;
    [constructor |].
  destruct (split_shift budget h) as [[r o] b'] eqn:E.
  destruct (split_shift_greedy budget h Hb Hh r o b' E) as (Hb' & _ & Hle & Hgt).
  constructor; [| now apply IH].
  unfold greedy_step. simpl. auto.
Qed.

Lemma assign_hours_exhausted (shifts : list (Z * Q)) :
  forall budget, budget == 0 ->
  Forall all_overtime (assign_hours budget shifts).
Proof.
  induction shifts as [| [d h] shifts IH]; intros budget Hb; simpl;
    [constructor |].
  unfold split_shift.
  assert (E : Qlt_bool 0 budget = false) by (apply Qlt_bool_false_iff; lra).
  rewrite E. constructor; [| now apply IH].
  unfold all_overtime. simpl. repeat split; lra.
Qed.

Lemma assign_hours_after_zero (shifts : list (Z * Q)) :
  forall budget l1 a l2,
  assign_hours budget shifts = (l1 ++ a :: l2)%list ->
  a_after a == 0 ->
  Forall all_overtime l2.
Proof.
  induction shifts as [| [d h] shifts IH]; intros budget l1 a l2; simpl.
  - destruct l1; discriminate.
  - destruct (split_shift budget h) as [[r o] b'].
    destruct l1 as [| b l1]; simpl; intros [= <- E] Ha.
    + subst l2. apply assign_hours_exhausted. exact Ha.
    + eapply IH; eauto.
Qed.

Lemma assign_hours_shifts (shifts : list (Z * Q)) :
  forall budget,
  map (fun a => (a_date a, a_hours a)) (assign_hours budget shifts) = shifts.
Proof.
  induction shifts as [| [d h] shifts IH]; intros budget; simpl; [reflexivity |].
  destruct (split_shift budget h) as [[r o] b']. simpl. now rewrite IH.
Qed.

Lemma assign_hours_sums (pay_rate : Q) (shifts : list (Z * Q)) :
  Forall (fun x => 0 < snd x) shifts ->
  forall budget, 0 <= budget ->
  let tr := map (overtime_delta pay_rate) (assign_hours budget shifts) in
  sum_deltas total_hours tr == sum_hours shifts /\
  sum_deltas regular_hours tr + sum_deltas overtime_hours tr == sum_hours shifts /\
  (sum_hours shifts <= budget -> sum_deltas regular_hours tr == sum_hours shifts) /\
  (budget <= sum_hours shifts -> sum_deltas regular_hours tr == budget).
Proof.
  induction 1 as [| [d h] shifts Hh Hs IH]; intros budget Hb; cbn zeta.
  - unfold sum_deltas, sum_hours. simpl. repeat split; intros; lra.
  - cbn [assign_hours].
    destruct (split_shift budget h) as [[r o] b'] eqn:E.
    destruct (split_shift_greedy budget h Hb Hh r o b' E) as (Hb' & Hro & Hle & Hgt).
    specialize (IH b' Hb'). cbn zeta in IH.
    destruct IH as (IH1 & IH2 & IH3 & IH4).
    assert (Hpos : 0 <= sum_hours shifts).
    { clear - Hs. unfold sum_hours.
      induction Hs as [| x l Hx Hl IHl]; simpl; lra. }
    unfold sum_deltas, sum_hours in *. simpl in *.
    destruct (Qlt_le_dec budget h) as [Hlt | Hge].
    + destruct (Hgt Hlt) as (Er & Eo & Eb).
      repeat split; intros; try lra.
    + destruct (Hle Hge) as (Er & Eo & Eb).
      repeat split; intros; try lra.
Qed.

(** *** One row, branch by branch *)

Lemma last_opt_none {A : Type} (l : list A) : last_opt l = None -> l = [].
Proof.
  destruct l as [| a l]; [reflexivity |]. intros H.
  destruct (last_opt_nonempty (a :: l)) as (x & Hx & _); congruence.
Qed.

Lemma weekly_hours_of_spec (week : list Day) (row : ScheduleRow) (tm : Times) :
  weekly_hours_of week row tm == sum_hours (worked_shifts week row).
Proof.
  unfold weekly_hours_of.
  destruct (first_pass_spec week row tm) as (wh & Hf & Hw).
  now rewrite Hf.
Qed.

Lemma worked_shifts_worked_days (week : list Day) (row : ScheduleRow) :
  worked_shifts week row
  = map (fun dp => (date_obj (fst dp), shift_hours (snd dp))) (worked_days week row).
Proof. reflexivity. Qed.

Lemma process_hourly_overtime (week : list Day) (employee_df : list Employee)
    (st : CalcState) (row : ScheduleRow) (emp : Employee) :
  find_employee employee_df (employee_id row) = Ok emp ->
  pay_type emp = "Hourly"%string ->
  40 < weekly_hours_of week row (times st) ->
  exists day,
    last_opt (shift_text_days week row) = Some day /\
    let p := parse_shift_hours (cell row (date_str day)) in
    process_employee week employee_df st row
    = Ok {| daily_labor :=
              add_all (map (overtime_delta (pay_rate emp)) (overtime_trace week row))
                      (daily_labor st);
            calls := calls st ++
              map (fun a => SaveSchedule
                   (overtime_entry (employee_id row) (pay_rate emp)
                                   (shift_start p) (shift_end p) a))
                  (overtime_trace week row);
            times := Some (shift_start p, shift_end p) |}.
Proof.
  intros Hfind Hpay Hw.
  pose proof (weekly_hours_of_spec week row (times st)) as Hsum.
  unfold weekly_hours_of in Hw, Hsum.
  unfold process_employee. rewrite Hfind. simpl.
  destruct (first_pass_spec week row (times st)) as (wh & Hf & _).
  rewrite Hf in *. simpl in Hw, Hsum. rewrite Hpay. simpl.
  apply Qlt_bool_iff in Hw. rewrite Hw.
  rewrite last_times_spec.
  destruct (last_opt (shift_text_days week row)) as [day |] eqn:El.
  - exists day. split; [reflexivity |]. cbn zeta.
    unfold overtime_loop. rewrite overtime_fold_spec. reflexivity.
  - exfalso. apply last_opt_none in El.
    apply Qlt_bool_iff in Hw.
    unfold worked_shifts, parsed_days in Hsum. rewrite El in Hsum.
    unfold sum_hours in Hsum. simpl in Hsum. lra.
Qed.

Lemma process_hourly_regular (week : list Day) (employee_df : list Employee)
    (st : CalcState) (row : ScheduleRow) (emp : Employee) :
  find_employee employee_df (employee_id row) = Ok emp ->
  pay_type emp = "Hourly"%string ->
  weekly_hours_of week row (times st) <= 40 ->
  process_employee week employee_df st row
  = Ok {| daily_labor :=
            add_all (map (regular_delta (pay_rate emp)) (worked_days week row))
                    (daily_labor st);
          calls := calls st ++
            map (fun dp => SaveSchedule
                             (regular_entry (employee_id row) (pay_rate emp) dp))
                (worked_days week row);
          times := last_times week row (last_times week row (times st)) |}.
Proof.
  intros Hfind Hpay Hw. unfold weekly_hours_of in Hw.
  unfold process_employee. rewrite Hfind. simpl.
  destruct (first_pass_spec week row (times st)) as (wh & Hf & _).
  rewrite Hf in *. simpl in Hw. rewrite Hpay. simpl.
  apply Qlt_bool_false_iff in Hw. rewrite Hw.
  now rewrite regular_loop_spec.
Qed.

Lemma process_salaried (week : list Day) (employee_df : list Employee)
    (st : CalcState) (row : ScheduleRow) (emp : Employee) :
  find_employee employee_df (employee_id row) = Ok emp ->
  pay_type emp <> "Hourly"%string ->
  (working_days week row = O ->
     process_employee week employee_df st row = Ok st) /\
  (working_days week row <> O ->
     let daily_salary :=
       pay_rate emp / inject_Z (Z.of_nat (working_days week row)) in
     process_employee week employee_df st row
     = Ok {| daily_labor :=
               add_all (map (salaried_delta daily_salary) (parsed_days week row))
                       (daily_labor st);
             calls := calls st ++
               map (fun dp => SaveSchedule
                                (salaried_entry (employee_id row) daily_salary dp))
                   (parsed_days week row);
             times := last_times week row (last_times week row (times st)) |}).
Proof.
  intros Hfind Hpay.
  unfold process_employee. rewrite Hfind. simpl.
  destruct (first_pass_spec week row (times st)) as (wh & Hf & _).
  rewrite Hf. apply String.eqb_neq in Hpay. rewrite Hpay.
  split; intros Hn.
  - rewrite Hn. simpl.
    assert (E : shift_text_days week row = []).
    { unfold working_days in Hn. fold (shift_text_days week row) in Hn.
      now destruct (shift_text_days week row). }
    unfold last_times, parsed_days. rewrite E. simpl. now destruct st.
  - cbn zeta.
    destruct (Nat.ltb_spec 0 (working_days week row)) as [_ | Hle]; [| lia].
    now rewrite salaried_loop_spec.
Qed.

End LoopFacts.

(** ** Hourly employees *)

(** Discharges [keys_cover] on concrete data by running through the days. *)
Ltac cover_by_computation :=
  let day := fresh "day" in
  let Hin := fresh "Hin" in
  intros day Hin; simpl in Hin;
  repeat (destruct Hin as [<- | Hin]; [vm_compute; tauto |]);
  contradiction.

Section HourlyFacts.
Local Open Scope Q_scope.

Lemma overtime_trace_keys (week : list Day) (row : ScheduleRow) (pay_rate : Q)
    (d : Dict) :
  keys_cover week d ->
  forall x, In x (map (overtime_delta pay_rate) (overtime_trace week row)) ->
  In (fst x) (dict_keys d).
Proof.
  intros Hk x Hx. apply in_map_iff in Hx. destruct Hx as (a & <- & Ha).
  simpl.
  assert (Hin : In (a_date a, a_hours a) (sort_by_date (worked_shifts week row))).
  { unfold overtime_trace in Ha.
    rewrite <- (assign_hours_shifts (sort_by_date (worked_shifts week row)) 40).
    now apply (in_map (fun a => (a_date a, a_hours a))). }
  apply (Permutation_in _ (sort_by_date_perm _)) in Hin.
  apply worked_shifts_in_week in Hin. destruct Hin as (day & Hd & E).
  simpl in E. rewrite <- E. now apply Hk.
Qed.

Lemma parsed_days_keys (week : list Day) (row : ScheduleRow)
    (f : Day * Shift -> Z * Labor) (l : list (Day * Shift)) (d : Dict) :
  keys_cover week d ->
  (forall dp, fst (f dp) = date_obj (fst dp)) ->
  (forall dp, In dp l -> In dp (parsed_days week row)) ->
  forall x, In x (map f l) -> In (fst x) (dict_keys d).
Proof.
  intros Hk Hf Hl x Hx. apply in_map_iff in Hx. destruct Hx as (dp & <- & Hdp).
  rewrite Hf. apply Hk. apply parsed_days_in_week with (row := row). now apply Hl.
Qed.

Lemma regular_deltas_sums (pay_rate : Q) (l : list (Day * Shift)) :
  sum_deltas regular_hours (map (regular_delta pay_rate) l)
  == sum_hours (map (fun dp => (date_obj (fst dp), shift_hours (snd dp))) l) /\
  sum_deltas overtime_hours (map (regular_delta pay_rate) l) == 0.
Proof.
  unfold sum_deltas, sum_hours.
  induction l as [| dp l [IH1 IH2]]; simpl; split; lra.
Qed.

(** C3: processing the row of an hourly employee adds to the dictionary,
    over all dates, at most 40 regular hours, exactly
    max(0, weekly hours - 40) overtime hours, and regular plus overtime
    hours equal to the weekly hours the first pass counted. *)
Theorem C3_hourly_hours_conserved (week : list Day) (employee_df : list Employee)
    (st : CalcState) (row : ScheduleRow) (emp : Employee) :
  keys_cover week (daily_labor st) ->
  find_employee employee_df (employee_id row) = Ok emp ->
  pay_type emp = "Hourly"%string ->
  exists st',
    process_employee week employee_df st row = Ok st' /\
    let weekly_hours := weekly_hours_of week row (times st) in
    let regular :=
      dict_sum regular_hours (daily_labor st')
      - dict_sum regular_hours (daily_labor st) in
    let overtime :=
      dict_sum overtime_hours (daily_labor st')
      - dict_sum overtime_hours (daily_labor st) in
    regular <= 40 /\
    overtime == Qmax 0 (weekly_hours - 40) /\
    regular + overtime == weekly_hours.
Proof.
  intros Hk Hfind Hpay.
  pose proof (weekly_hours_of_spec week row (times st)) as HW.
  destruct (Qlt_le_dec 40 (weekly_hours_of week row (times st))) as [Hot | Hreg].
  - destruct (process_hourly_overtime week employee_df st row emp Hfind Hpay Hot)
      as (day & _ & Hp). cbn zeta in Hp.
    eexists. split; [exact Hp |]. cbn zeta. cbn [daily_labor].
    rewrite !add_all_sum;
      try apply additive_regular_hours; try apply additive_overtime_hours;
      try (apply overtime_trace_keys; exact Hk).
    assert (Hpos : Forall (fun x => 0 < snd x) (sort_by_date (worked_shifts week row))).
    { apply (Permutation_Forall (Permutation_sym (sort_by_date_perm _))).
      apply worked_shifts_positive. }
    destruct (assign_hours_sums (pay_rate emp) _ Hpos 40) as (_ & H2 & _ & H4);
      [lra |].
    cbn zeta in H2, H4. fold (overtime_trace week row) in H2, H4.
    pose proof (sum_hours_perm _ _ (sort_by_date_perm (worked_shifts week row))) as Hs.
    rewrite (Q.max_r 0 (weekly_hours_of week row (times st) - 40)) by lra.
    lra.
  - rewrite (process_hourly_regular week employee_df st row emp Hfind Hpay Hreg).
    eexists. split; [reflexivity |]. cbn zeta. cbn [daily_labor].
    rewrite !add_all_sum;
      try apply additive_regular_hours; try apply additive_overtime_hours;
      try (apply (parsed_days_keys week row); auto;
           intros dp Hdp; unfold worked_days in Hdp;
           apply filter_In in Hdp; tauto).
    destruct (regular_deltas_sums (pay_rate emp) (worked_days week row)) as (H1 & H2).
    rewrite <- worked_shifts_worked_days in H1.
    rewrite (Q.max_l 0 (weekly_hours_of week row (times st) - 40)) by lra.
    lra.
Qed.

Lemma C3_hourly_hours_conserved_witness :
  exists st',
    process_employee Sample.week Sample.staff (init_state Sample.week) Sample.cook_50h
    = Ok st' /\
    let weekly_hours :=
      weekly_hours_of Sample.week Sample.cook_50h (times (init_state Sample.week)) in
    let regular :=
      dict_sum regular_hours (daily_labor st')
      - dict_sum regular_hours (daily_labor (init_state Sample.week)) in
    let overtime :=
      dict_sum overtime_hours (daily_labor st')
      - dict_sum overtime_hours (daily_labor (init_state Sample.week)) in
    regular <= 40 /\
    overtime == Qmax 0 (weekly_hours - 40) /\
    regular + overtime == weekly_hours.
Proof.
  apply (C3_hourly_hours_conserved Sample.week Sample.staff
           (init_state Sample.week) Sample.cook_50h Sample.cook).
  - cover_by_computation.
  - reflexivity.
  - reflexivity.
Defined.

(** C4: for an hourly employee above 40 weekly hours the loop goes
    through the worked shifts in ascending date order with a budget that
    starts at 40; a shift within the budget (equality included) is all
    regular and is taken off the budget, a shift above it is split at the
    budget, which is then 0, and from a budget of 0 on every shift is all
    overtime; the cost is regular hours at the pay rate plus overtime
    hours at 1.5 times the pay rate, and the overtime flag is set exactly
    when the overtime part is positive. *)
Theorem C4_overtime_greedy_by_date (week : list Day) (employee_df : list Employee)
    (st : CalcState) (row : ScheduleRow) (emp : Employee) :
  find_employee employee_df (employee_id row) = Ok emp ->
  pay_type emp = "Hourly"%string ->
  40 < weekly_hours_of week row (times st) ->
  let shifts := sort_by_date (worked_shifts week row) in
  let tr := overtime_trace week row in
  Sorted date_le shifts /\
  Permutation shifts (worked_shifts week row) /\
  map (fun a => (a_date a, a_hours a)) tr = shifts /\
  chained 40 tr /\
  Forall greedy_step tr /\
  (forall l1 a l2, tr = (l1 ++ a :: l2)%list -> a_after a == 0 ->
     Forall all_overtime l2) /\
  exists st' start_time end_time,
    process_employee week employee_df st row = Ok st' /\
    daily_labor st'
    = add_all (map (overtime_delta (pay_rate emp)) tr) (daily_labor st) /\
    calls st'
    = (calls st ++
       map (fun a => SaveSchedule
              (overtime_entry (employee_id row) (pay_rate emp)
                              start_time end_time a)) tr)%list /\
    Forall (fun a =>
        let e := overtime_entry (employee_id row) (pay_rate emp)
                                start_time end_time a in
        s_hours e = Some (a_hours a) /\
        s_cost e = Some (a_reg a * pay_rate emp + a_ot a * pay_rate emp * 1.5) /\
        (s_overtime e = true <-> 0 < a_ot a) /\
        total_cost (snd (overtime_delta (pay_rate emp) a))
        = a_reg a * pay_rate emp + a_ot a * pay_rate emp * 1.5) tr.
Proof.
  intros Hfind Hpay Hot. cbn zeta.
  assert (Hpos : Forall (fun x => 0 < snd x) (sort_by_date (worked_shifts week row))).
  { apply (Permutation_Forall (Permutation_sym (sort_by_date_perm _))).
    apply worked_shifts_positive. }
  split; [apply sort_by_date_sorted |].
  split; [apply sort_by_date_perm |].
  split; [apply assign_hours_shifts |].
  split; [apply assign_hours_chained |].
  split; [apply assign_hours_greedy; [exact Hpos | lra] |].
  split; [intros l1 a l2; apply assign_hours_after_zero |].
  destruct (process_hourly_overtime week employee_df st row emp Hfind Hpay Hot)
    as (day & _ & Hp). cbn zeta in Hp.
  eexists. eexists. eexists. split; [exact Hp |].
  split; [reflexivity |]. split; [reflexivity |].
  apply Forall_forall. intros a _. cbn zeta. simpl.
  repeat split; try apply Qlt_bool_iff.
Qed.

Lemma C4_overtime_greedy_by_date_witness :
  map (fun a => (a_date a, a_reg a, a_ot a))
      (overtime_trace Sample.week Sample.cook_50h)
  = [(0%Z, 10, 0); (1%Z, 10, 0); (2%Z, 10, 0); (3%Z, 10, 0); (4%Z, 0, 10)] /\
  Forall greedy_step (overtime_trace Sample.week Sample.cook_50h) /\
  exists st',
    process_employee Sample.week Sample.staff (init_state Sample.week)
                     Sample.cook_50h = Ok st' /\
    map (fun e => (s_date e, s_overtime e)) (schedule_calls (calls st'))
    = [(0%Z, false); (1%Z, false); (2%Z, false); (3%Z, false); (4%Z, true)].
Proof.
  assert (Hot : 40 < weekly_hours_of Sample.week Sample.cook_50h
                       (times (init_state Sample.week)))
    by (vm_compute; reflexivity).
  destruct (C4_overtime_greedy_by_date Sample.week Sample.staff
              (init_state Sample.week) Sample.cook_50h Sample.cook
              eq_refl eq_refl Hot)
    as (_ & _ & _ & _ & Hg & _ & st' & s & e & Hp & _ & Hc & _).
  split; [vm_compute; reflexivity |].
  split; [exact Hg |].
  exists st'. split; [exact Hp |].
  rewrite Hc. vm_compute. reflexivity.
Defined.

(** C5: for an hourly employee above 40 weekly hours, every entry saved
    for the employee carries one and the same start and end time: those
    the parser returned for the last cell it was called on in the first
    pass, whatever the entry's own date. *)
Theorem C5_overtime_entries_share_times (week : list Day)
    (employee_df : list Employee) (st : CalcState) (row : ScheduleRow)
    (emp : Employee) :
  find_employee employee_df (employee_id row) = Ok emp ->
  pay_type emp = "Hourly"%string ->
  40 < weekly_hours_of week row (times st) ->
  exists day st' new,
    last_opt (shift_text_days week row) = Some day /\
    process_employee week employee_df st row = Ok st' /\
    calls st' = (calls st ++ map SaveSchedule new)%list /\
    map (fun e => (s_date e, s_hours e)) new
    = map (fun x => (fst x, Some (snd x))) (sort_by_date (worked_shifts week row)) /\
    Forall (fun e =>
        s_employee_id e = employee_id row /\
        s_start_time e = shift_start (parse_shift_hours (cell row (date_str day))) /\
        s_end_time e = shift_end (parse_shift_hours (cell row (date_str day))))
      new.
Proof.
  intros Hfind Hpay Hot.
  destruct (process_hourly_overtime week employee_df st row emp Hfind Hpay Hot)
    as (day & Hl & Hp). cbn zeta in Hp.
  exists day. eexists.
  exists (map (overtime_entry (employee_id row) (pay_rate emp)
                 (shift_start (parse_shift_hours (cell row (date_str day))))
                 (shift_end (parse_shift_hours (cell row (date_str day)))))
              (overtime_trace week row)).
  split; [exact Hl |]. split; [exact Hp |].
  split; [simpl; now rewrite map_map |].
  split.
  - rewrite map_map. simpl.
    rewrite <- (assign_hours_shifts (sort_by_date (worked_shifts week row)) 40).
    rewrite map_map. reflexivity.
  - apply Forall_forall. intros e He.
    apply in_map_iff in He. destruct He as (a & <- & _). simpl. auto.
Qed.

(** On the sample row with a short Saturday, Monday's entry is saved with
    Saturday's 10:00 to 14:00, while Monday's own cell parses to 09:00 to
    19:00. *)
Lemma C5_overtime_entries_share_times_witness :
  (exists day st' new,
    last_opt (shift_text_days Sample.week Sample.cook_54h) = Some day /\
    process_employee Sample.week Sample.staff (init_state Sample.week)
                     Sample.cook_54h = Ok st' /\
    calls st' = (calls (init_state Sample.week) ++ map SaveSchedule new)%list /\
    map (fun e => (s_date e, s_hours e)) new
    = map (fun x => (fst x, Some (snd x)))
          (sort_by_date (worked_shifts Sample.week Sample.cook_54h)) /\
    Forall (fun e =>
        s_employee_id e = employee_id Sample.cook_54h /\
        s_start_time e
        = shift_start (parse_shift_hours (cell Sample.cook_54h (date_str day))) /\
        s_end_time e
        = shift_end (parse_shift_hours (cell Sample.cook_54h (date_str day))))
      new) /\
  map (fun e => (s_date e, s_start_time e, s_end_time e))
      (schedule_calls
         (out_calls (calculate_labor_costs [Sample.cook_54h] Sample.week 25
                                           Sample.staff)))
  = [(0%Z, Some "10:00:00"%string, Some "14:00:00"%string);
     (1%Z, Some "10:00:00"%string, Some "14:00:00"%string);
     (2%Z, Some "10:00:00"%string, Some "14:00:00"%string);
     (3%Z, Some "10:00:00"%string, Some "14:00:00"%string);
     (4%Z, Some "10:00:00"%string, Some "14:00:00"%string);
     (5%Z, Some "10:00:00"%string, Some "14:00:00"%string)] /\
  parse_shift_hours (cell Sample.cook_54h "Mon 01/05")
  = (Some "09:00:00"%string, Some "19:00:00"%string, 10).
Proof.
  split; [| split; vm_compute; reflexivity].
  apply (C5_overtime_entries_share_times Sample.week Sample.staff
           (init_state Sample.week) Sample.cook_54h Sample.cook).
  - reflexivity.
  - reflexivity.
  - vm_compute. reflexivity.
Defined.

End HourlyFacts.

(** ** Salaried employees *)

Section SalariedFacts.
Local Open Scope Q_scope.

Lemma salaried_deltas_cost (daily_salary : Q) (l : list (Day * Shift)) :
  sum_deltas total_cost (map (salaried_delta daily_salary) l)
  == inject_Z (Z.of_nat (List.length l)) * daily_salary.
Proof.
  unfold sum_deltas.
  induction l as [| dp l IH];
    [simpl; change (inject_Z 0) with 0; lra |].
  cbn [map fold_right List.length]. rewrite IH.
  rewrite Nat2Z.inj_succ, <- Z.add_1_r, inject_Z_plus. simpl.
  change (inject_Z 1) with 1. lra.
Qed.

Lemma working_days_parsed (week : list Day) (row : ScheduleRow) :
  List.length (parsed_days week row) = working_days week row.
Proof.
  unfold parsed_days. now rewrite length_map.
Qed.

(** C2, as the code has it: the working days of a salaried employee are
    the open days whose cell holds a text other than the closed-day
    marker, whether or not the text parses to a shift; with none, the row
    changes nothing; otherwise each of these days is charged
    pay rate / working days, whatever its hours, and the charges of the
    week add up to the pay rate. *)
Theorem C2_salaried_even_split (week : list Day) (employee_df : list Employee)
    (st : CalcState) (row : ScheduleRow) (emp : Employee) :
  keys_cover week (daily_labor st) ->
  find_employee employee_df (employee_id row) = Ok emp ->
  pay_type emp <> "Hourly"%string ->
  let n := working_days week row in
  n = List.length (shift_text_days week row) /\
  (n = O -> process_employee week employee_df st row = Ok st) /\
  (n <> O ->
     let daily_salary := pay_rate emp / inject_Z (Z.of_nat n) in
     exists st',
       process_employee week employee_df st row = Ok st' /\
       map fst (parsed_days week row) = shift_text_days week row /\
       calls st'
       = (calls st ++
          map (fun dp => SaveSchedule
                           (salaried_entry (employee_id row) daily_salary dp))
              (parsed_days week row))%list /\
       daily_labor st'
       = add_all (map (salaried_delta daily_salary) (parsed_days week row))
                 (daily_labor st) /\
       Forall (fun dp =>
           s_cost (salaried_entry (employee_id row) daily_salary dp)
           = Some daily_salary /\
           total_cost (snd (salaried_delta daily_salary dp)) = daily_salary)
         (parsed_days week row) /\
       dict_sum total_cost (daily_labor st')
       == dict_sum total_cost (daily_labor st) + pay_rate emp).
Proof.
  intros Hk Hfind Hpay. cbn zeta.
  destruct (process_salaried week employee_df st row emp Hfind Hpay) as (H0 & Hn).
  split; [reflexivity |]. split; [exact H0 |].
  intros Hne. specialize (Hn Hne). cbn zeta in Hn.
  eexists. split; [exact Hn |].
  split; [unfold parsed_days; rewrite map_map; simpl; apply map_id |].
  split; [reflexivity |]. split; [reflexivity |].
  split; [apply Forall_forall; intros dp _; split; reflexivity |].
  cbn [daily_labor].
  rewrite add_all_sum.
  - rewrite salaried_deltas_cost, working_days_parsed.
    assert (Hz : ~ inject_Z (Z.of_nat (working_days week row)) == 0).
    { intros E. apply Hne.
      unfold Qeq in E. simpl in E. lia. }
    set (q := inject_Z (Z.of_nat (working_days week row))) in *.
    assert (E : q * (pay_rate emp / q) == pay_rate emp) by (field; exact Hz).
    rewrite E. reflexivity.
  - apply additive_total_cost.
  - apply (parsed_days_keys week row); auto.
Qed.

(** The example of the specification: 700 a week over five working days
    is 140 a day. *)
Lemma C2_salaried_even_split_witness :
  (exists st',
     process_employee Sample.week Sample.staff (init_state Sample.week)
                      Sample.manager_5_days = Ok st' /\
     dict_sum total_cost (daily_labor st')
     == dict_sum total_cost (daily_labor (init_state Sample.week)) + 700) /\
  process_employee Sample.week Sample.staff (init_state Sample.week)
                   Sample.manager_off
  = Ok (init_state Sample.week) /\
  Forall (fun e => exists c, s_cost e = Some c /\ c == 140)
    (schedule_calls
       (out_calls (calculate_labor_costs [Sample.manager_5_days] Sample.week 25
                                         Sample.staff))).
Proof.
  split; [| split].
  - destruct (C2_salaried_even_split Sample.week Sample.staff
                (init_state Sample.week) Sample.manager_5_days Sample.manager)
      as (_ & _ & Hn).
    + cover_by_computation.
    + reflexivity.
    + discriminate.
    + destruct Hn as (st' & Hp & _ & _ & _ & _ & Hs).
      * vm_compute. discriminate.
      * exists st'. split; [exact Hp | exact Hs].
  - apply (C2_salaried_even_split Sample.week Sample.staff
             (init_state Sample.week) Sample.manager_off Sample.manager).
    + cover_by_computation.
    + reflexivity.
    + discriminate.
    + reflexivity.
  - vm_compute. repeat constructor; eexists; split; reflexivity.
Defined.

(** C2 as it was stated fails on a cell that does not parse: Tuesday's
    ["9:30am-5pm"] has duration 0, so one day has a duration other than
    0; the code counts two working days, charges Monday 350 and not 700,
    and charges the Tuesday of 0 hours 350 as well. *)
Lemma C2_counterexample :
  nonzero_duration_days Sample.week Sample.manager_bad_text = 1%nat /\
  working_days Sample.week Sample.manager_bad_text = 2%nat /\
  exists e1 e2,
    schedule_calls
      (out_calls (calculate_labor_costs [Sample.manager_bad_text] Sample.week 25
                                        Sample.staff))
    = [e1; e2] /\
    s_date e1 = 0%Z /\ s_hours e1 = Some 8 /\ s_cost e1 = Some (700 # 2) /\
    ~ (700 # 2) == 700 / 1 /\
    s_date e2 = 1%Z /\ s_hours e2 = Some 0 /\ s_cost e2 = Some (700 # 2) /\
    ~ (700 # 2) == 0.
Proof.
  split; [reflexivity |]. split; [reflexivity |].
  eexists. eexists. split; [vm_compute; reflexivity |].
  simpl. repeat split; try (vm_compute; discriminate).
Qed.

End SalariedFacts.

(** ** The whole calculation *)

Section CalculationFacts.
Local Open Scope Q_scope.

Lemma assign_hours_balanced (pay_rate : Q) (shifts : list (Z * Q)) :
  forall budget,
  Forall (fun x => balanced (snd x))
         (map (overtime_delta pay_rate) (assign_hours budget shifts)).
Proof.
  induction shifts as [| [d h] shifts IH]; intros budget; simpl; [constructor |].
  unfold split_shift.
  destruct (Qlt_bool 0 budget); [destruct (Qle_bool h budget) |];
    (constructor; [unfold balanced; simpl; lra | apply IH]).
Qed.

(** What one row does to the state: it adds balanced amounts to the
    dictionary and appends calls of [save_schedule]. *)
Lemma process_employee_effect (week : list Day) (employee_df : list Employee)
    (st st' : CalcState) (row : ScheduleRow) :
  process_employee week employee_df st row = Ok st' ->
  exists deltas new,
    daily_labor st' = add_all deltas (daily_labor st) /\
    Forall (fun x => balanced (snd x)) deltas /\
    calls st' = (calls st ++ map SaveSchedule new)%list.
Proof.
  destruct (find_employee employee_df (employee_id row)) as [emp | e] eqn:Hfind;
    [| unfold process_employee; rewrite Hfind; discriminate].
  destruct (String.eqb_spec (pay_type emp) "Hourly") as [Hpay | Hpay].
  - destruct (Qlt_le_dec 40 (weekly_hours_of week row (times st))) as [Hot | Hreg].
    + destruct (process_hourly_overtime week employee_df st row emp Hfind Hpay Hot)
        as (day & _ & Hp). cbn zeta in Hp. rewrite Hp. intros [= <-].
      eexists. eexists. cbn [daily_labor calls].
      split; [reflexivity |]. split; [apply assign_hours_balanced |].
      now rewrite <- map_map.
    + rewrite (process_hourly_regular week employee_df st row emp Hfind Hpay Hreg).
      intros [= <-]. eexists. eexists. cbn [daily_labor calls].
      split; [reflexivity |]. split; [| now rewrite <- map_map].
      apply Forall_forall. intros x Hx. apply in_map_iff in Hx.
      destruct Hx as (dp & <- & _). unfold balanced. simpl. lra.
  - destruct (process_salaried week employee_df st row emp Hfind Hpay) as (H0 & Hn).
    destruct (Nat.eq_dec (working_days week row) 0) as [E | E].
    + rewrite (H0 E). intros [= <-]. exists [], []. simpl.
      rewrite app_nil_r. repeat split. constructor.
    + specialize (Hn E). cbn zeta in Hn. rewrite Hn. intros [= <-].
      eexists. eexists. cbn [daily_labor calls].
      split; [reflexivity |]. split; [| now rewrite <- map_map].
      apply Forall_forall. intros x Hx. apply in_map_iff in Hx.
      destruct Hx as (dp & <- & _). unfold balanced. simpl. lra.
Qed.

(** The keys of the dictionary never change, so every [daily_labor[date]]
    of a run finds its key. *)
Lemma process_employee_keys (week : list Day) (employee_df : list Employee)
    (st st' : CalcState) (row : ScheduleRow) :
  process_employee week employee_df st row = Ok st' ->
  dict_keys (daily_labor st') = dict_keys (daily_labor st).
Proof.
  intros Hp.
  destruct (process_employee_effect _ _ _ _ _ Hp) as (deltas & new & Hd & _ & _).
  rewrite Hd. apply add_all_keys.
Qed.

Lemma process_rows_keys_cover (week : list Day) (employee_df : list Employee)
    (rows : list ScheduleRow) :
  forall st,
  keys_cover week (daily_labor st) ->
  keys_cover week (daily_labor (fst (process_rows week employee_df rows st))).
Proof.
  induction rows as [| row rows IH]; intros st Hk; simpl; [exact Hk |].
  destruct (process_employee week employee_df st row) as [st' | e] eqn:Hp;
    [| exact Hk].
  apply IH. unfold keys_cover.
  rewrite (process_employee_keys _ _ _ _ _ Hp). exact Hk.
Qed.

Lemma process_employee_balanced (week : list Day) (employee_df : list Employee)
    (st st' : CalcState) (row : ScheduleRow) :
  Forall (fun e => balanced (snd e)) (daily_labor st) ->
  process_employee week employee_df st row = Ok st' ->
  Forall (fun e => balanced (snd e)) (daily_labor st').
Proof.
  intros Hb Hp.
  destruct (process_employee_effect _ _ _ _ _ Hp) as (deltas & new & Hd & Hbal & _).
  rewrite Hd. now apply add_all_balanced.
Qed.

Lemma process_rows_effect (week : list Day) (employee_df : list Employee)
    (rows : list ScheduleRow) :
  forall st,
  Forall (fun e => balanced (snd e)) (daily_labor st) ->
  let r := process_rows week employee_df rows st in
  Forall (fun e => balanced (snd e)) (daily_labor (fst r)) /\
  exists new, calls (fst r) = (calls st ++ map SaveSchedule new)%list.
Proof.
  induction rows as [| row rows IH]; intros st Hb; simpl.
  - split; [exact Hb |]. exists []. simpl. now rewrite app_nil_r.
  - destruct (process_employee week employee_df st row) as [st' | e] eqn:Hp; simpl.
    + destruct (process_employee_effect _ _ _ _ _ Hp) as (deltas & new & _ & _ & Hc).
      destruct (IH st' (process_employee_balanced _ _ _ _ _ Hb Hp)) as (Hb' & new' & Hc').
      split; [exact Hb' |]. exists (new ++ new')%list.
      rewrite Hc', Hc, map_app, app_assoc. reflexivity.
    + split; [exact Hb |]. exists []. simpl. now rewrite app_nil_r.
Qed.

Lemma calculation_keys_cover (schedule_df : list ScheduleRow) (week : list Day)
    (labor_goal_pct : Q) (employee_df : list Employee) :
  keys_cover week
    (out_daily (calculate_labor_costs schedule_df week labor_goal_pct employee_df)).
Proof.
  unfold calculate_labor_costs.
  pose proof (process_rows_keys_cover week employee_df schedule_df
                (init_state week) (init_state_keys_cover week)) as Hk.
  destruct (process_rows week employee_df schedule_df (init_state week))
    as [st [e |]]; exact Hk.
Qed.

Lemma save_daily_fold (labor_goal_pct : Q) (d : Dict) :
  forall cs,
  fold_left (save_daily labor_goal_pct) d cs
  = (cs ++ map (fun item => SaveLaborCost (daily_entry labor_goal_pct item))
               (filter has_cost d))%list.
Proof.
  induction d as [| [k v] d IH]; intros cs; simpl.
  - now rewrite app_nil_r.
  - rewrite IH. unfold has_cost. simpl.
    destruct (Qeq_bool (total_cost v) 0); simpl; [reflexivity |].
    now rewrite <- app_assoc.
Qed.

Lemma labor_cost_calls_app (cs cs' : list DbCall) :
  labor_cost_calls (cs ++ cs') = (labor_cost_calls cs ++ labor_cost_calls cs')%list.
Proof. apply flat_map_app. Qed.

Lemma schedule_calls_app (cs cs' : list DbCall) :
  schedule_calls (cs ++ cs') = (schedule_calls cs ++ schedule_calls cs')%list.
Proof. apply flat_map_app. Qed.

Lemma labor_cost_calls_schedule (l : list ScheduleEntry) :
  labor_cost_calls (map SaveSchedule l) = [].
Proof. induction l; simpl; auto. Qed.

Lemma labor_cost_calls_labor (l : list LaborCostEntry) :
  labor_cost_calls (map SaveLaborCost l) = l.
Proof. induction l; simpl; congruence. Qed.

(** The [save_labor_cost] calls of a run: none if it was ended by an
    exception, else one for each item of the dictionary with a cost. *)
Lemma calculation_labor_calls (schedule_df : list ScheduleRow) (week : list Day)
    (labor_goal_pct : Q) (employee_df : list Employee) :
  let o := calculate_labor_costs schedule_df week labor_goal_pct employee_df in
  Forall (fun e => balanced (snd e)) (out_daily o) /\
  labor_cost_calls (out_calls o)
  = match out_exc o with
    | None => map (daily_entry labor_goal_pct) (filter has_cost (out_daily o))
    | Some _ => []
    end.
Proof.
  cbn zeta. unfold calculate_labor_costs.
  destruct (process_rows_effect week employee_df schedule_df (init_state week)
              (init_state_balanced week)) as (Hb & new & Hc).
  cbn zeta in Hb, Hc.
  destruct (process_rows week employee_df schedule_df (init_state week))
    as [st [e |]]; simpl in *.
  - split; [exact Hb |]. rewrite Hc. apply labor_cost_calls_schedule.
  - split; [exact Hb |].
    rewrite save_daily_fold, Hc, labor_cost_calls_app, labor_cost_calls_schedule.
    simpl. rewrite <- map_map. apply labor_cost_calls_labor.
Qed.

(** C10: every value of the dictionary satisfies
    total hours = regular hours + overtime hours, at the start, after
    every row and at the end of a run; each iteration of the overtime loop
    adds the shift's hours split in two, the other two loops add the hours
    as regular hours; and every saved daily total satisfies the equality. *)
Theorem C10_daily_totals_balanced (schedule_df : list ScheduleRow)
    (week : list Day) (labor_goal_pct : Q) (employee_df : list Employee) :
  let o := calculate_labor_costs schedule_df week labor_goal_pct employee_df in
  Forall (fun e => balanced (snd e)) (daily_labor (init_state week)) /\
  (forall st row st',
     Forall (fun e => balanced (snd e)) (daily_labor st) ->
     process_employee week employee_df st row = Ok st' ->
     Forall (fun e => balanced (snd e)) (daily_labor st')) /\
  Forall (fun e => balanced (snd e)) (out_daily o) /\
  Forall (fun e => l_total_hours e == l_regular_hours e + l_overtime_hours e)
         (labor_cost_calls (out_calls o)) /\
  (forall pay_rate budget shifts,
     Forall (fun x => total_hours (snd x)
                      == regular_hours (snd x) + overtime_hours (snd x))
            (map (overtime_delta pay_rate) (assign_hours budget shifts))) /\
  (forall pay_rate dp,
     regular_hours (snd (regular_delta pay_rate dp))
     = total_hours (snd (regular_delta pay_rate dp)) /\
     overtime_hours (snd (regular_delta pay_rate dp)) = 0) /\
  (forall daily_salary dp,
     regular_hours (snd (salaried_delta daily_salary dp))
     = total_hours (snd (salaried_delta daily_salary dp)) /\
     overtime_hours (snd (salaried_delta daily_salary dp)) = 0).
Proof.
  cbn zeta.
  destruct (calculation_labor_calls schedule_df week labor_goal_pct employee_df)
    as (Hb & Hc).
  split; [apply init_state_balanced |].
  split; [intros st row st'; apply process_employee_balanced |].
  split; [exact Hb |].
  split.
  - rewrite Hc.
    destruct (out_exc (calculate_labor_costs schedule_df week labor_goal_pct
                                             employee_df)); [constructor |].
    apply Forall_forall. intros e He. apply in_map_iff in He.
    destruct He as (item & <- & Hi). apply filter_In in Hi.
    destruct Hi as (Hi & _). simpl.
    rewrite Forall_forall in Hb. exact (Hb item Hi).
  - split; [intros; apply assign_hours_balanced |].
    split; intros; split; reflexivity.
Qed.

Lemma C10_daily_totals_balanced_witness :
  exists st',
    process_employee Sample.week Sample.staff (init_state Sample.week)
                     Sample.cook_54h = Ok st' /\
    Forall (fun e => balanced (snd e)) (daily_labor st').
Proof.
  destruct (C10_daily_totals_balanced [Sample.cook_54h] Sample.week 25 Sample.staff)
    as (H0 & Hstep & _).
  destruct (process_employee Sample.week Sample.staff (init_state Sample.week)
              Sample.cook_54h) as [st' | e] eqn:Hp.
  - exists st'. split; [reflexivity |].
    apply (Hstep (init_state Sample.week) Sample.cook_54h st' H0 Hp).
  - vm_compute in Hp. discriminate.
Defined.

(** C7: a daily total is saved for each date whose cost is not 0, with
    required sales = total cost / (goal / 100) when the goal is positive
    and 0 when it is not (the division is then not evaluated); a cost of
    1000 with a goal of 25 gives 4000, and with a goal of 0 gives 0. *)
Theorem C7_required_sales (schedule_df : list ScheduleRow)
    (week : list Day) (labor_goal_pct : Q) (employee_df : list Employee) :
  let o := calculate_labor_costs schedule_df week labor_goal_pct employee_df in
  (out_exc o = None ->
     map (fun e => (l_date e, l_total_cost e)) (labor_cost_calls (out_calls o))
     = map (fun item => (fst item, total_cost (snd item)))
           (filter has_cost (out_daily o))) /\
  Forall (fun e =>
      ~ l_total_cost e == 0 /\
      exists required_sales,
        l_required_sales e = Some required_sales /\
        (0 < labor_goal_pct ->
           required_sales == l_total_cost e / (labor_goal_pct / 100)) /\
        (labor_goal_pct <= 0 -> required_sales = 0))
    (labor_cost_calls (out_calls o)) /\
  required_sales_of 25 1000 == 4000 /\
  required_sales_of 0 1000 == 0.
Proof.
  cbn zeta.
  destruct (calculation_labor_calls schedule_df week labor_goal_pct employee_df)
    as (_ & Hc).
  rewrite Hc.
  split; [intros ->; now rewrite map_map |].
  split; [| split; reflexivity].
  destruct (out_exc (calculate_labor_costs schedule_df week labor_goal_pct
                                           employee_df)); [constructor |].
  apply Forall_forall. intros e He. apply in_map_iff in He.
  destruct He as (item & <- & Hi). apply filter_In in Hi.
  destruct Hi as (_ & Hcost). unfold has_cost in Hcost.
  apply negb_true_iff, Qeq_bool_false_iff in Hcost. simpl.
  split; [exact Hcost |].
  eexists. split; [reflexivity |]. unfold required_sales_of.
  split; intros Hg.
  - apply Qlt_bool_iff in Hg. now rewrite Hg.
  - apply Qlt_bool_false_iff in Hg. now rewrite Hg.
Qed.

Lemma C7_required_sales_witness :
  map (fun e => (l_date e, l_total_cost e))
      (labor_cost_calls
         (out_calls (calculate_labor_costs [Sample.cook_32h] Sample.week 25
                                           Sample.staff)))
  = map (fun item => (fst item, total_cost (snd item)))
        (filter has_cost
           (out_daily (calculate_labor_costs [Sample.cook_32h] Sample.week 25
                                             Sample.staff))).
Proof.
  apply (proj1 (C7_required_sales [Sample.cook_32h] Sample.week 25 Sample.staff)).
  reflexivity.
Defined.

End CalculationFacts.

(** ** The storage module: saving twice *)

Section UpsertFacts.
Context {K R : Type}.
Variable key : R -> K.
Variable key_eqb : K -> K -> bool.
Variable update : R -> R -> R.

Hypothesis key_eqb_spec : forall a b, key_eqb a b = true <-> a = b.
Hypothesis update_key : forall r n, key (update r n) = key r.
Hypothesis update_update : forall r n n', update (update r n') n = update r n.
Hypothesis update_same : forall n' n, key n' = key n -> update n' n = n.

Lemma key_eqb_refl (k : K) : key_eqb k k = true.
Proof. now apply key_eqb_spec. Qed.

Lemma key_eqb_neq (a b : K) : a <> b -> key_eqb a b = false.
Proof.
  intros H. destruct (key_eqb a b) eqn:E; [| reflexivity].
  apply key_eqb_spec in E. contradiction.
Qed.

Lemma key_dec (a b : K) : {a = b} + {a <> b}.
Proof.
  destruct (key_eqb a b) eqn:E.
  - left. now apply key_eqb_spec.
  - right. intros H. apply key_eqb_spec in H. congruence.
Qed.

Lemma upsert_keys_in (n : R) (table : list R) :
  In (key n) (map key table) ->
  map key (upsert key key_eqb update n table) = map key table.
Proof.
  induction table as [| r table IH]; simpl; [tauto |].
  intros Hin. destruct (key_dec (key r) (key n)) as [E | E].
  - rewrite E at 1. rewrite key_eqb_refl. simpl. now rewrite update_key.
  - rewrite (key_eqb_neq _ _ E). simpl. rewrite IH; [reflexivity | tauto].
Qed.

Lemma upsert_keys_notin (n : R) (table : list R) :
  ~ In (key n) (map key table) ->
  map key (upsert key key_eqb update n table) = (map key table ++ [key n])%list.
Proof.
  induction table as [| r table IH]; simpl; [reflexivity |].
  intros Hnin. destruct (key_dec (key r) (key n)) as [E | E]; [tauto |].
  rewrite (key_eqb_neq _ _ E). simpl. rewrite IH; [reflexivity | tauto].
Qed.

Lemma upsert_in_keys (n : R) (table : list R) (k : K) :
  In k (map key (upsert key key_eqb update n table)) <-> k = key n \/ In k (map key table).
Proof.
  destruct (in_dec key_dec (key n) (map key table)) as [Hin | Hnin].
  - rewrite (upsert_keys_in n table Hin). intuition congruence.
  - rewrite (upsert_keys_notin n table Hnin), in_app_iff. simpl. intuition.
Qed.

Lemma upsert_length (n : R) (table : list R) :
  In (key n) (map key table) ->
  List.length (upsert key key_eqb update n table) = List.length table.
Proof.
  intros Hin. rewrite <- (length_map key), (upsert_keys_in n table Hin).
  apply length_map.
Qed.

Lemma upsert_absorb (n n' : R) (table : list R) :
  key n = key n' ->
  upsert key key_eqb update n (upsert key key_eqb update n' table) = upsert key key_eqb update n table.
Proof.
  intros E. induction table as [| r table IH]; simpl.
  - rewrite <- E, key_eqb_refl. now rewrite update_same.
  - rewrite <- E. destruct (key_eqb (key r) (key n)) eqn:Er; simpl.
    + rewrite update_key, Er. now rewrite update_update.
    + rewrite Er. now rewrite IH.
Qed.

Lemma upsert_comm (n n' : R) (table : list R) :
  key n <> key n' ->
  In (key n) (map key table) \/ In (key n') (map key table) ->
  upsert key key_eqb update n (upsert key key_eqb update n' table)
  = upsert key key_eqb update n' (upsert key key_eqb update n table).
Proof.
  intros Hne. induction table as [| r table IH]; simpl; [tauto |].
  intros Hin.
  destruct (key_eqb (key r) (key n')) eqn:E1;
    destruct (key_eqb (key r) (key n)) eqn:E2; simpl.
  - apply key_eqb_spec in E1, E2. congruence.
  - now rewrite update_key, E1, E2.
  - now rewrite update_key, E1, E2.
  - rewrite E1, E2. rewrite IH; [reflexivity |].
    assert (H1 : key r <> key n')
      by (intros H; apply key_eqb_spec in H; congruence).
    assert (H2 : key r <> key n)
      by (intros H; apply key_eqb_spec in H; congruence).
    tauto.
Qed.

Lemma upsert_all_in_keys (news : list R) :
  forall table k,
  In k (map key table) -> In k (map key (upsert_all key key_eqb update news table)).
Proof.
  induction news as [| n news IH]; intros table k Hin; simpl; [exact Hin |].
  apply IH. apply upsert_in_keys. now right.
Qed.

Lemma upsert_all_absorb (news : list R) :
  forall n table,
  In (key n) (map key table) ->
  In (key n) (map key news) ->
  upsert_all key key_eqb update news (upsert key key_eqb update n table) = upsert_all key key_eqb update news table.
Proof.
  induction news as [| m news IH]; intros n table Ht Hn; simpl in *; [tauto |].
  destruct (key_dec (key m) (key n)) as [E | E].
  - now rewrite (upsert_absorb m n table E).
  - destruct Hn as [Hn | Hn]; [contradiction |].
    rewrite (upsert_comm m n table E) by auto.
    apply IH; [| exact Hn]. apply upsert_in_keys. now right.
Qed.

Lemma upsert_all_comm (news : list R) :
  forall n table,
  In (key n) (map key table) ->
  ~ In (key n) (map key news) ->
  upsert_all key key_eqb update news (upsert key key_eqb update n table) = upsert key key_eqb update n (upsert_all key key_eqb update news table).
Proof.
  induction news as [| m news IH]; intros n table Ht Hn; simpl in *;
    [reflexivity |].
  assert (E : key m <> key n) by tauto.
  rewrite (upsert_comm m n table E) by auto.
  apply IH; [| tauto]. apply upsert_in_keys. now right.
Qed.

(** Saving the same list of rows a second time changes nothing. *)
Lemma upsert_all_idempotent (news : list R) :
  forall table,
  upsert_all key key_eqb update news (upsert_all key key_eqb update news table) = upsert_all key key_eqb update news table.
Proof.
  induction news as [| n news IH]; intros table; simpl; [reflexivity |].
  set (u := upsert key key_eqb update n table).
  assert (Hu : In (key n) (map key u)) by (apply upsert_in_keys; now left).
  assert (Hr : In (key n) (map key (upsert_all key key_eqb update news u)))
    by now apply upsert_all_in_keys.
  destruct (in_dec key_dec (key n) (map key news)) as [Hin | Hnin].
  - rewrite (upsert_all_absorb news n _ Hr Hin). apply IH.
  - rewrite <- (upsert_all_comm news n u Hu Hnin).
    unfold u at 1. rewrite (upsert_absorb n n table eq_refl).
    fold u. apply IH.
Qed.

Lemma upsert_nodup (n : R) (table : list R) :
  NoDup (map key table) -> NoDup (map key (upsert key key_eqb update n table)).
Proof.
  intros Hnd.
  destruct (in_dec key_dec (key n) (map key table)) as [Hin | Hnin].
  - now rewrite (upsert_keys_in n table Hin).
  - rewrite (upsert_keys_notin n table Hnin).
    apply NoDup_app; [exact Hnd | repeat constructor; simpl; tauto |].
    intros k Hk [<- | []]. contradiction.
Qed.

Lemma upsert_all_nodup (news : list R) :
  forall table,
  NoDup (map key table) -> NoDup (map key (upsert_all key key_eqb update news table)).
Proof.
  induction news as [| n news IH]; intros table Hnd; simpl; [exact Hnd |].
  apply IH. now apply upsert_nodup.
Qed.

End UpsertFacts.

Section StorageFacts.
Local Open Scope Q_scope.

Lemma schedule_key_eqb_spec (a b : Z * Z) :
  schedule_key_eqb a b = true <-> a = b.
Proof.
  destruct a as [a1 a2], b as [b1 b2]. unfold schedule_key_eqb. simpl.
  rewrite andb_true_iff, !Z.eqb_eq. split; [intros [-> ->] | intros [= -> ->]]; auto.
Qed.

Lemma schedule_update_same (n' n : ScheduleEntry) :
  schedule_key n' = schedule_key n -> schedule_update n' n = n.
Proof.
  destruct n', n. unfold schedule_key, schedule_update. simpl.
  now intros [= -> ->].
Qed.

Lemma labor_cost_update_same (n' n : LaborCostEntry) :
  l_date n' = l_date n -> labor_cost_update n' n = n.
Proof.
  destruct n', n. unfold labor_cost_update. simpl. now intros ->.
Qed.

Lemma save_schedules_idempotent (news table : list ScheduleEntry) :
  upsert_all schedule_key schedule_key_eqb schedule_update news
    (upsert_all schedule_key schedule_key_eqb schedule_update news table)
  = upsert_all schedule_key schedule_key_eqb schedule_update news table.
Proof.
  apply upsert_all_idempotent.
  - exact schedule_key_eqb_spec.
  - reflexivity.
  - reflexivity.
  - exact schedule_update_same.
Qed.

Lemma save_labor_costs_idempotent (news table : list LaborCostEntry) :
  upsert_all l_date Z.eqb labor_cost_update news
    (upsert_all l_date Z.eqb labor_cost_update news table)
  = upsert_all l_date Z.eqb labor_cost_update news table.
Proof.
  apply upsert_all_idempotent.
  - exact Z.eqb_eq.
  - reflexivity.
  - reflexivity.
  - exact labor_cost_update_same.
Qed.

(** The two tables after a list of calls. *)
Lemma exec_calls_tables (cs : list DbCall) :
  forall db,
  exec_calls cs db
  = {| employees := employees db;
       schedules :=
         upsert_all schedule_key schedule_key_eqb schedule_update
                    (schedule_calls cs) (schedules db);
       labor_costs :=
         upsert_all l_date Z.eqb labor_cost_update
                    (labor_cost_calls cs) (labor_costs db) |}.
Proof.
  induction cs as [| c cs IH]; intros db.
  - now destruct db.
  - unfold exec_calls in *. cbn [fold_left]. rewrite IH.
    destruct c; reflexivity.
Qed.

(** C8: pressing "Calculate" a second time on the same schedule, week and
    settings leaves both tables as the first press left them: every
    shift entry is written over the row of its employee and date, every
    daily total over the row of its date, and no row is added; a table
    with one row for each key still has one row for each key. *)
Theorem C8_calculation_idempotent (schedule_df : list ScheduleRow)
    (week : list Day) (labor_goal_pct : Q) (db : Db) :
  let db1 := run_calculation schedule_df week labor_goal_pct db in
  let db2 := run_calculation schedule_df week labor_goal_pct db1 in
  db2 = db1 /\
  List.length (schedules db2) = List.length (schedules db1) /\
  List.length (labor_costs db2) = List.length (labor_costs db1) /\
  (NoDup (map schedule_key (schedules db)) ->
   NoDup (map schedule_key (schedules db1))) /\
  (NoDup (map l_date (labor_costs db)) ->
   NoDup (map l_date (labor_costs db1))).
Proof.
  cbn zeta.
  assert (Hidem :
    run_calculation schedule_df week labor_goal_pct
      (run_calculation schedule_df week labor_goal_pct db)
    = run_calculation schedule_df week labor_goal_pct db).
  { unfold run_calculation.
    set (cs := out_calls (calculate_labor_costs schedule_df week labor_goal_pct
                            (get_all_employees db))).
    assert (He : get_all_employees (exec_calls cs db) = get_all_employees db)
      by (rewrite exec_calls_tables; reflexivity).
    rewrite He. fold cs.
    rewrite (exec_calls_tables cs (exec_calls cs db)).
    rewrite (exec_calls_tables cs db). cbn [employees schedules labor_costs].
    now rewrite save_schedules_idempotent, save_labor_costs_idempotent. }
  split; [exact Hidem |]. rewrite Hidem.
  split; [reflexivity |]. split; [reflexivity |].
  unfold run_calculation. rewrite exec_calls_tables. cbn [schedules labor_costs].
  split; intros Hnd;
    apply upsert_all_nodup;
    first [exact Hnd | exact schedule_key_eqb_spec | exact Z.eqb_eq | reflexivity].
Qed.

Lemma C8_calculation_idempotent_witness :
  NoDup (map schedule_key
           (schedules (run_calculation [Sample.cook_54h; Sample.manager_5_days]
                                       Sample.week 25 Sample.empty_db))) /\
  List.length
    (schedules (run_calculation [Sample.cook_54h; Sample.manager_5_days]
                  Sample.week 25
                  (run_calculation [Sample.cook_54h; Sample.manager_5_days]
                                   Sample.week 25 Sample.empty_db)))
  = 11%nat.
Proof.
  destruct (C8_calculation_idempotent [Sample.cook_54h; Sample.manager_5_days]
              Sample.week 25 Sample.empty_db) as (Hidem & _ & _ & Hnd & _).
  split.
  - apply Hnd. constructor.
  - rewrite Hidem. vm_compute. reflexivity.
Defined.

End StorageFacts.

(** ** The schedule editor *)

Section EditorFacts.
Import PyStr.
Local Open Scope Q_scope.

Lemma clock_hours (h : Z) :
  (0 <= h < 24)%Z ->
  In h [0; 1; 2; 3; 4; 5; 6; 7; 8; 9; 10; 11; 12; 13; 14; 15; 16; 17; 18; 19;
        20; 21; 22; 23]%Z.
Proof.
  intros H. simpl.
  assert (E : (h = 0 \/ h = 1 \/ h = 2 \/ h = 3 \/ h = 4 \/ h = 5 \/ h = 6 \/
               h = 7 \/ h = 8 \/ h = 9 \/ h = 10 \/ h = 11 \/ h = 12 \/
               h = 13 \/ h = 14 \/ h = 15 \/ h = 16 \/ h = 17 \/ h = 18 \/
               h = 19 \/ h = 20 \/ h = 21 \/ h = 22 \/ h = 23)%Z) by lia.
  intuition.
Qed.

(** The text the editor shows for a stored hour is read back as that hour. *)
Lemma hour_label_parse (h : Z) :
  (0 <= h < 24)%Z -> parse_time (hour_label h) = Ok (inject_Z h).
Proof.
  intros H. apply clock_hours in H. simpl in H.
  repeat (destruct H as [<- | H]; [vm_compute; reflexivity |]).
  contradiction.
Qed.

Lemma shift_label_check (s : Z) :
  In s [0; 1; 2; 3; 4; 5; 6; 7; 8; 9; 10; 11; 12; 13; 14; 15; 16; 17; 18; 19;
        20; 21; 22; 23]%Z ->
  forallb
    (fun e =>
       match parse_shift_hours_io (shift_label s e) with
       | (Some a, Some b, h, []) =>
           String.eqb a (format_02d s ++ ":00:00")
           && String.eqb b (format_02d e ++ ":00:00")
           && Qeq_bool h (inject_Z (if (s <? e)%Z then e - s else e + 24 - s))
       | _ => false
       end)
    [0; 1; 2; 3; 4; 5; 6; 7; 8; 9; 10; 11; 12; 13; 14; 15; 16; 17; 18; 19;
     20; 21; 22; 23]%Z
  = true.
Proof.
  intros H. simpl in H.
  repeat (destruct H as [<- | H]; [vm_compute; reflexivity |]).
  contradiction.
Qed.

(** X1: a shift stored with whole hours of the day is shown by the editor as
    a text that the parser reads back as the same stored start and end, with
    a duration from start to end (to the next day's end when the end is not
    after the start), between 0 and 24 hours. *)
Theorem shift_label_round_trip (start_hour end_hour : Z) :
  (0 <= start_hour < 24)%Z ->
  (0 <= end_hour < 24)%Z ->
  exists hours,
    parse_shift_hours_io (shift_label start_hour end_hour)
    = (Some (format_02d start_hour ++ ":00:00")%string,
       Some (format_02d end_hour ++ ":00:00")%string, hours, []) /\
    hours == inject_Z (if (start_hour <? end_hour)%Z
                       then end_hour - start_hour
                       else end_hour + 24 - start_hour) /\
    0 < hours <= 24.
Proof.
  intros Hs He.
  pose proof (shift_label_check start_hour (clock_hours _ Hs)) as Hc.
  rewrite forallb_forall in Hc. specialize (Hc end_hour (clock_hours _ He)).
  destruct (parse_shift_hours_io (shift_label start_hour end_hour))
    as [[[[a |] [b |]] h] [| w ws]]; try discriminate.
  apply andb_true_iff in Hc. destruct Hc as (Hc & Hh).
  apply andb_true_iff in Hc. destruct Hc as (Ha & Hb).
  apply String.eqb_eq in Ha, Hb. subst a b.
  apply Qeq_bool_iff in Hh.
  exists h. split; [reflexivity |]. split; [exact Hh |].
  rewrite Hh.
  destruct (Z.ltb_spec start_hour end_hour) as [Hlt | Hge].
  - split.
    + change 0 with (inject_Z 0). rewrite <- Zlt_Qlt. lia.
    + change 24 with (inject_Z 24). rewrite <- Zle_Qle. lia.
  - split.
    + change 0 with (inject_Z 0). rewrite <- Zlt_Qlt. lia.
    + change 24 with (inject_Z 24). rewrite <- Zle_Qle. lia.
Qed.

Lemma shift_label_round_trip_witness :
  exists hours,
    parse_shift_hours_io (shift_label 23 7)
    = (Some (format_02d 23 ++ ":00:00")%string,
       Some (format_02d 7 ++ ":00:00")%string, hours, []) /\
    hours == inject_Z (if (23 <? 7)%Z then 7 - 23 else 7 + 24 - 23) /\
    0 < hours <= 24.
Proof.
  apply (shift_label_round_trip 23 7); lia.
Defined.

Lemma shift_of_hours_cases (sh eh : Q) :
  exists st en h,
    shift_of_hours sh eh = (Some st, Some en, h) /\
    (sh < eh -> h == eh - sh) /\
    (eh <= sh -> h == eh + 24 - sh).
Proof.
  unfold shift_of_hours.
  destruct (Qle_bool eh sh) eqn:E.
  - apply Qle_bool_iff in E. eexists. eexists. eexists.
    split; [reflexivity |]. split; intros; lra.
  - apply Qle_bool_false_iff in E. eexists. eexists. eexists.
    split; [reflexivity |]. split; intros; lra.
Qed.

(** X2: the parser returns either no time at all or both times; and for two
    tokens that stand for hours of the day (0 up to, not including, 24) the
    duration is the time from start to end, to the next day's end when the
    end is not after the start, so it is above 0 and at most 24, and 24 when
    start and end are equal. *)
Theorem parse_duration_within_a_day (text : string) :
  (parse_shift_hours text = zero_shift \/
   exists st en h, parse_shift_hours text = (Some st, Some en, h)) /\
  (forall a b sh eh,
     split "-" text = [a; b] ->
     parse_time a = Ok sh ->
     parse_time b = Ok eh ->
     0 <= sh < 24 ->
     0 <= eh < 24 ->
     exists st en h,
       parse_shift_hours_io text = (Some st, Some en, h, []) /\
       (sh < eh -> h == eh - sh) /\
       (eh <= sh -> h == eh + 24 - sh) /\
       (eh == sh -> h == 24) /\
       0 < h <= 24).
Proof.
  split.
  - unfold parse_shift_hours, parse_shift_hours_io.
    destruct (String.eqb text "" || String.eqb text "CLOSED"); [now left |].
    unfold parse_try.
    destruct (contains "-" text); [| now left].
    destruct (split "-" text) as [| a [| b [| c l]]]; try now left.
    destruct (parse_time a) as [sh | e1]; [| now left].
    destruct (parse_time b) as [eh | e2]; [| now left].
    simpl. right.
    destruct (shift_of_hours_cases sh eh) as (st & en & h & E & _).
    exists st, en, h. now rewrite E.
  - intros a b sh eh Hsplit Ha Hb Hs He.
    assert (Hcount : count_char "-" text = 1%nat).
    { pose proof (split_length "-" text) as Hl. rewrite Hsplit in Hl.
      simpl in Hl. lia. }
    assert (Hne : String.eqb text "" = false).
    { destruct text; [discriminate | reflexivity]. }
    assert (Hnc : String.eqb text "CLOSED" = false).
    { apply String.eqb_neq. intros ->. discriminate. }
    unfold parse_shift_hours_io. rewrite Hne, Hnc. simpl.
    unfold parse_try. rewrite contains_char, Hcount, Hsplit, Ha, Hb. simpl.
    destruct (shift_of_hours_cases sh eh) as (st & en & h & E & Hlt & Hge).
    rewrite E. exists st, en, h. split; [reflexivity |].
    split; [exact Hlt |]. split; [exact Hge |].
    split.
    + intros Heq. rewrite Hge by lra. lra.
    + destruct (Qlt_le_dec sh eh) as [H | H].
      * rewrite (Hlt H). lra.
      * rewrite (Hge H). lra.
Qed.

Lemma parse_duration_within_a_day_witness :
  exists st en h,
    parse_shift_hours_io "9am-9am" = (Some st, Some en, h, []) /\
    (9 < 9 -> h == 9 - 9) /\
    (9 <= 9 -> h == 9 + 24 - 9) /\
    (9 == 9 -> h == 24) /\
    0 < h <= 24.
Proof.
  apply (proj2 (parse_duration_within_a_day "9am-9am") "9am"%string "9am"%string 9 9).
  - reflexivity.
  - reflexivity.
  - reflexivity.
  - split; [vm_compute; discriminate | vm_compute; reflexivity].
  - split; [vm_compute; discriminate | vm_compute; reflexivity].
Defined.

End EditorFacts.

(** ** The storage module: saving and reading back *)

Section UpsertLookup.
Context {K R : Type}.
Variable key : R -> K.
Variable key_eqb : K -> K -> bool.
Variable update : R -> R -> R.

Hypothesis key_eqb_spec : forall a b, key_eqb a b = true <-> a = b.
Hypothesis update_key : forall r n, key (update r n) = key r.
Hypothesis update_same : forall n' n, key n' = key n -> update n' n = n.

Lemma find_upsert_same (n : R) (table : list R) :
  find (fun r => key_eqb (key r) (key n)) (upsert key key_eqb update n table)
  = Some n.
Proof.
  induction table as [| r table IH]; simpl.
  - now rewrite (key_eqb_refl key_eqb key_eqb_spec).
  - destruct (key_eqb (key r) (key n)) eqn:E; simpl.
    + rewrite update_key, E. f_equal. apply update_same.
      now apply key_eqb_spec.
    + now rewrite E.
Qed.

Lemma find_upsert_other (n : R) (k : K) (table : list R) :
  key n <> k ->
  find (fun r => key_eqb (key r) k) (upsert key key_eqb update n table)
  = find (fun r => key_eqb (key r) k) table.
Proof.
  intros Hne. induction table as [| r table IH]; simpl.
  - now rewrite (key_eqb_neq key_eqb key_eqb_spec _ _ Hne).
  - destruct (key_eqb (key r) (key n)) eqn:E; simpl.
    + rewrite update_key. apply key_eqb_spec in E.
      assert (E' : key_eqb (key r) k = false).
      { apply (key_eqb_neq key_eqb key_eqb_spec). congruence. }
      now rewrite E'.
    + now rewrite IH.
Qed.

Lemma find_some_in_keys (k : K) (table : list R) (r : R) :
  find (fun r => key_eqb (key r) k) table = Some r -> In k (map key table).
Proof.
  intros H. apply find_some in H. destruct H as (Hin & E).
  apply key_eqb_spec in E. rewrite <- E. now apply in_map.
Qed.

Lemma upsert_length_bounds (n : R) (table : list R) :
  (List.length table <= List.length (upsert key key_eqb update n table)
   <= S (List.length table))%nat.
Proof.
  induction table as [| r table IH]; simpl; [lia |].
  destruct (key_eqb (key r) (key n)); simpl; lia.
Qed.

Lemma find_upsert_all_other (news : list R) (k : K) :
  ~ In k (map key news) ->
  forall table,
  find (fun r => key_eqb (key r) k) (upsert_all key key_eqb update news table)
  = find (fun r => key_eqb (key r) k) table.
Proof.
  unfold upsert_all.
  induction news as [| n news IH]; intros Hk table; simpl; [reflexivity |].
  simpl in Hk. rewrite IH by tauto.
  apply find_upsert_other. tauto.
Qed.

Lemma find_upsert_all_same (news : list R) :
  NoDup (map key news) ->
  forall n table,
  In n news ->
  find (fun r => key_eqb (key r) (key n))
       (upsert_all key key_eqb update news table)
  = Some n.
Proof.
  unfold upsert_all.
  induction news as [| n0 news IH]; intros Hnd n table Hin; simpl; [contradiction |].
  simpl in Hnd. inversion Hnd as [| ? ? Hnin Hnd']. subst.
  destruct Hin as [-> | Hin].
  - fold (upsert_all key key_eqb update news (upsert key key_eqb update n table)).
    rewrite find_upsert_all_other by exact Hnin.
    apply find_upsert_same.
  - now apply IH.
Qed.

Lemma upsert_forall (P : R -> Prop) (n : R) (table : list R) :
  (forall r, P n -> P (update r n)) ->
  P n -> Forall P table -> Forall P (upsert key key_eqb update n table).
Proof.
  intros Hu Hn. induction 1 as [| r table Hr Ht IH]; simpl.
  - now constructor.
  - destruct (key_eqb (key r) (key n)); constructor; auto.
Qed.

Lemma upsert_all_forall (P : R -> Prop) (news : list R) :
  (forall r n, P n -> P (update r n)) ->
  Forall P news ->
  forall table, Forall P table ->
  Forall P (upsert_all key key_eqb update news table).
Proof.
  unfold upsert_all. intros Hu.
  induction 1 as [| n news Hn Hnews IH]; intros table Ht; simpl; [exact Ht |].
  apply IH. apply upsert_forall; auto.
Qed.

End UpsertLookup.

Section SaveFacts.
Local Open Scope Q_scope.

Lemma find_schedule_saved (e : ScheduleEntry) (table : list ScheduleEntry) :
  find_schedule (s_employee_id e) (s_date e)
    (upsert schedule_key schedule_key_eqb schedule_update e table)
  = Some e.
Proof.
  unfold find_schedule.
  apply (find_upsert_same schedule_key schedule_key_eqb schedule_update
           schedule_key_eqb_spec (fun _ _ => eq_refl) schedule_update_same e table).
Qed.

Lemma find_schedule_other (e : ScheduleEntry) (employee_id date : Z)
    (table : list ScheduleEntry) :
  schedule_key e <> (employee_id, date) ->
  find_schedule employee_id date
    (upsert schedule_key schedule_key_eqb schedule_update e table)
  = find_schedule employee_id date table.
Proof.
  unfold find_schedule.
  apply (find_upsert_other schedule_key schedule_key_eqb schedule_update
           schedule_key_eqb_spec (fun _ _ => eq_refl)).
Qed.

(** X3: after [save_schedule] the row fetched for the entry's employee and
    date holds exactly the values of the call; the row fetched for any other
    employee or date is the one fetched before; no row is removed and at
    most one is added; the other two tables are not touched. *)
Theorem save_schedule_then_find (e : ScheduleEntry) (db : Db) :
  find_schedule (s_employee_id e) (s_date e) (schedules (save_schedule e db))
  = Some e /\
  (forall employee_id date,
     (employee_id, date) <> (s_employee_id e, s_date e) ->
     find_schedule employee_id date (schedules (save_schedule e db))
     = find_schedule employee_id date (schedules db)) /\
  (List.length (schedules db) <= List.length (schedules (save_schedule e db))
   <= S (List.length (schedules db)))%nat /\
  (find_schedule (s_employee_id e) (s_date e) (schedules db) <> None ->
   List.length (schedules (save_schedule e db)) = List.length (schedules db)) /\
  employees (save_schedule e db) = employees db /\
  labor_costs (save_schedule e db) = labor_costs db.
Proof.
  simpl. split; [apply find_schedule_saved |].
  split.
  - intros employee_id date Hne. apply find_schedule_other.
    unfold schedule_key. congruence.
  - split; [apply upsert_length_bounds |].
    split; [| split; reflexivity].
    intros Hf.
    destruct (find_schedule (s_employee_id e) (s_date e) (schedules db))
      as [r |] eqn:E; [| congruence].
    apply (upsert_length schedule_key schedule_key_eqb schedule_update
             schedule_key_eqb_spec (fun _ _ => eq_refl)).
    apply (find_some_in_keys schedule_key schedule_key_eqb schedule_key_eqb_spec
             _ _ r E).
Qed.

Lemma save_schedule_then_find_witness :
  List.length
    (schedules
       (save_schedule (cleared_entry 1 0)
          (save_schedule (shift_entry 1 0 (parse_shift_hours "9am-5pm"))
                         Sample.empty_db)))
  = List.length
      (schedules
         (save_schedule (shift_entry 1 0 (parse_shift_hours "9am-5pm"))
                        Sample.empty_db)).
Proof.
  apply (proj1 (proj2 (proj2 (proj2
           (save_schedule_then_find (cleared_entry 1 0)
              (save_schedule (shift_entry 1 0 (parse_shift_hours "9am-5pm"))
                             Sample.empty_db)))))).
  vm_compute. discriminate.
Defined.

End SaveFacts.

(** ** Saving the schedule *)

Section SaveScheduleFacts.
Local Open Scope Q_scope.

Lemma schedule_exists_in_keys (db : Db) (employee_id date : Z) :
  schedule_exists db employee_id date = true ->
  In (employee_id, date) (map schedule_key (schedules db)).
Proof.
  unfold schedule_exists. intros H. apply existsb_exists in H.
  destruct H as (s & Hin & Hs). apply andb_true_iff in Hs.
  destruct Hs as (Hk & _). apply schedule_key_eqb_spec in Hk.
  rewrite <- Hk. now apply in_map.
Qed.

(** What one cell does to the store. *)
Lemma save_day_cases (row : ScheduleRow) (db : Db) (day : Day) :
  save_day row db day = db \/
  closed day = false /\
  (is_shift_text (cell row (date_str day)) = true /\
   save_day row db day
   = save_schedule (shift_entry (employee_id row) (date_obj day)
                      (parse_shift_hours (cell row (date_str day)))) db
   \/
   is_shift_text (cell row (date_str day)) = false /\
   schedule_exists db (employee_id row) (date_obj day) = true /\
   save_day row db day
   = save_schedule (cleared_entry (employee_id row) (date_obj day)) db).
Proof.
  unfold save_day. destruct (closed day); [now left |].
  destruct (is_shift_text (cell row (date_str day))).
  - right. split; [reflexivity |]. left. split; reflexivity.
  - destruct (schedule_exists db (employee_id row) (date_obj day)) eqn:E;
      [| now left].
    right. split; [reflexivity |]. right. repeat split; reflexivity.
Qed.

Lemma save_schedule_keys (n : ScheduleEntry) (db : Db) :
  map schedule_key (schedules (save_schedule n db))
  = map schedule_key (schedules db)
    \/ ~ In (schedule_key n) (map schedule_key (schedules db)) /\
       map schedule_key (schedules (save_schedule n db))
       = (map schedule_key (schedules db) ++ [schedule_key n])%list.
Proof.
  simpl.
  destruct (in_dec (key_dec schedule_key_eqb schedule_key_eqb_spec)
              (schedule_key n) (map schedule_key (schedules db))) as [Hin | Hnin].
  - left. apply (upsert_keys_in schedule_key schedule_key_eqb schedule_update
                   schedule_key_eqb_spec (fun _ _ => eq_refl) n _ Hin).
  - right. split; [exact Hnin |].
    apply (upsert_keys_notin schedule_key schedule_key_eqb schedule_update
             schedule_key_eqb_spec n _ Hnin).
Qed.

Lemma save_day_frame (row : ScheduleRow) (db : Db) (day : Day) :
  exists added,
    map schedule_key (schedules (save_day row db day))
    = (map schedule_key (schedules db) ++ added)%list /\
    incl added (map (fun day => (employee_id row, date_obj day))
                    (shift_text_days [day] row)) /\
    employees (save_day row db day) = employees db /\
    labor_costs (save_day row db day) = labor_costs db.
Proof.
  destruct (save_day_cases row db day)
    as [E | (Hopen & [(Htext & E) | (Htext & Hex & E)])]; rewrite E.
  - exists []. rewrite app_nil_r. repeat split. intros k [].
  - destruct (save_schedule_keys
                (shift_entry (employee_id row) (date_obj day)
                   (parse_shift_hours (cell row (date_str day)))) db)
      as [Hk | (_ & Hk)]; rewrite Hk.
    + exists []. rewrite app_nil_r. repeat split. intros k [].
    + eexists. split; [reflexivity |]. split; [| split; reflexivity].
      unfold shift_text_days. simpl. rewrite Hopen, Htext. simpl.
      intros k [<- | []]. now left.
  - destruct (save_schedule_keys (cleared_entry (employee_id row) (date_obj day)) db)
      as [Hk | (Hnin & _)].
    + rewrite Hk. exists []. rewrite app_nil_r. repeat split. intros k [].
    + exfalso. apply Hnin. now apply schedule_exists_in_keys.
Qed.

Lemma shift_text_days_cons (day : Day) (week : list Day) (row : ScheduleRow) :
  shift_text_days (day :: week) row
  = (shift_text_days [day] row ++ shift_text_days week row)%list.
Proof.
  unfold shift_text_days. simpl.
  now destruct (negb (closed day) && is_shift_text (cell row (date_str day))).
Qed.

Lemma save_week_frame (row : ScheduleRow) (week : list Day) :
  forall db,
  exists added,
    map schedule_key (schedules (fold_left (save_day row) week db))
    = (map schedule_key (schedules db) ++ added)%list /\
    incl added (map (fun day => (employee_id row, date_obj day))
                    (shift_text_days week row)) /\
    employees (fold_left (save_day row) week db) = employees db /\
    labor_costs (fold_left (save_day row) week db) = labor_costs db.
Proof.
  induction week as [| day week IH]; intros db; cbn [fold_left].
  - exists []. simpl. rewrite app_nil_r. repeat split. intros k [].
  - destruct (save_day_frame row db day) as (a1 & Hk1 & Hi1 & He1 & Hl1).
    destruct (IH (save_day row db day)) as (a2 & Hk2 & Hi2 & He2 & Hl2).
    exists (a1 ++ a2)%list. rewrite Hk2, Hk1, He2, He1, Hl2, Hl1, app_assoc.
    repeat split.
    intros k Hk. apply in_app_or in Hk.
    rewrite shift_text_days_cons, map_app.
    apply in_or_app. destruct Hk as [Hk | Hk]; [left; now apply Hi1 | right; now apply Hi2].
Qed.

(** X5: saving the schedule removes no row of [schedules] and moves none:
    the rows keep their employee and date, in order, and the rows added at
    the end are for cells that hold a shift text on an open day; a cleared
    cell adds no row; the employees and the daily totals are not touched. *)
Theorem save_schedule_to_db_frame (schedule_df : list ScheduleRow)
    (week : list Day) (db : Db) :
  exists added,
    map schedule_key (schedules (save_schedule_to_db schedule_df week db))
    = (map schedule_key (schedules db) ++ added)%list /\
    incl added (scheduled_keys schedule_df week) /\
    employees (save_schedule_to_db schedule_df week db) = employees db /\
    labor_costs (save_schedule_to_db schedule_df week db) = labor_costs db.
Proof.
  unfold save_schedule_to_db. revert db.
  induction schedule_df as [| row rows IH]; intros db; simpl.
  - exists []. rewrite app_nil_r. repeat split. intros k [].
  - destruct (save_week_frame row week db) as (a1 & Hk1 & Hi1 & He1 & Hl1).
    destruct (IH (fold_left (save_day row) week db)) as (a2 & Hk2 & Hi2 & He2 & Hl2).
    exists (a1 ++ a2)%list. rewrite Hk2, Hk1, He2, He1, Hl2, Hl1, app_assoc.
    repeat split.
    intros k Hk. apply in_app_or in Hk. unfold scheduled_keys. simpl.
    apply in_or_app. destruct Hk as [Hk | Hk]; [left; now apply Hi1 | right; now apply Hi2].
Qed.

(** *** One cell of the store while the others are written *)

Lemma schedule_exists_other (n : ScheduleEntry) (db : Db) (employee_id date : Z) :
  schedule_key n <> (employee_id, date) ->
  schedule_exists (save_schedule n db) employee_id date
  = schedule_exists db employee_id date.
Proof.
  intros Hne. unfold schedule_exists. simpl.
  assert (Hn : schedule_key_eqb (schedule_key n) (employee_id, date) = false).
  { apply (key_eqb_neq schedule_key_eqb schedule_key_eqb_spec). exact Hne. }
  induction (schedules db) as [| r table IH]; simpl.
  - rewrite Hn. reflexivity.
  - destruct (schedule_key_eqb (schedule_key r) (schedule_key n)) eqn:E; simpl.
    + apply schedule_key_eqb_spec in E.
      change (schedule_key (schedule_update r n)) with (schedule_key r).
      rewrite E, Hn. reflexivity.
    + now rewrite IH.
Qed.

Lemma save_day_other (row : ScheduleRow) (db : Db) (day : Day)
    (employee_id0 date0 : Z) :
  (employee_id row, date_obj day) <> (employee_id0, date0) \/ closed day = true ->
  find_schedule employee_id0 date0 (schedules (save_day row db day))
  = find_schedule employee_id0 date0 (schedules db) /\
  schedule_exists (save_day row db day) employee_id0 date0
  = schedule_exists db employee_id0 date0.
Proof.
  intros Hother.
  destruct (save_day_cases row db day)
    as [E | (Hopen & [(_ & E) | (_ & _ & E)])]; rewrite E; [now split | |].
  - destruct Hother as [Hne | Hc]; [| congruence].
    split; [apply find_schedule_other | apply schedule_exists_other]; exact Hne.
  - destruct Hother as [Hne | Hc]; [| congruence].
    split; [apply find_schedule_other | apply schedule_exists_other]; exact Hne.
Qed.

Lemma save_day_here (row : ScheduleRow) (db : Db) (day : Day) :
  closed day = false ->
  find_schedule (employee_id row) (date_obj day) (schedules (save_day row db day))
  = if is_shift_text (cell row (date_str day))
    then Some (shift_entry (employee_id row) (date_obj day)
                 (parse_shift_hours (cell row (date_str day))))
    else if schedule_exists db (employee_id row) (date_obj day)
         then Some (cleared_entry (employee_id row) (date_obj day))
         else find_schedule (employee_id row) (date_obj day) (schedules db).
Proof.
  intros Hopen. unfold save_day. rewrite Hopen.
  destruct (is_shift_text (cell row (date_str day))).
  - apply (find_schedule_saved
             (shift_entry (employee_id row) (date_obj day)
                (parse_shift_hours (cell row (date_str day))))).
  - destruct (schedule_exists db (employee_id row) (date_obj day)); [| reflexivity].
    apply (find_schedule_saved (cleared_entry (employee_id row) (date_obj day))).
Qed.

Lemma save_days_other (row : ScheduleRow) (week : list Day)
    (employee_id0 date0 : Z) :
  (forall day, In day week ->
     (employee_id row, date_obj day) <> (employee_id0, date0) \/ closed day = true) ->
  forall db,
  find_schedule employee_id0 date0 (schedules (fold_left (save_day row) week db))
  = find_schedule employee_id0 date0 (schedules db) /\
  schedule_exists (fold_left (save_day row) week db) employee_id0 date0
  = schedule_exists db employee_id0 date0.
Proof.
  induction week as [| day week IH]; intros Hother db; simpl; [now split |].
  destruct (IH (fun d Hd => Hother d (or_intror Hd)) (save_day row db day))
    as (Hf & He).
  destruct (save_day_other row db day employee_id0 date0 (Hother day (or_introl eq_refl)))
    as (Hf1 & He1).
  rewrite Hf, He, Hf1, He1. now split.
Qed.

Lemma save_rows_other (rows : list ScheduleRow) (week : list Day)
    (employee_id0 date0 : Z) :
  (forall row, In row rows -> employee_id row <> employee_id0) ->
  forall db,
  find_schedule employee_id0 date0 (schedules (save_schedule_to_db rows week db))
  = find_schedule employee_id0 date0 (schedules db) /\
  schedule_exists (save_schedule_to_db rows week db) employee_id0 date0
  = schedule_exists db employee_id0 date0.
Proof.
  unfold save_schedule_to_db.
  induction rows as [| row rows IH]; intros Hother db; simpl; [now split |].
  destruct (IH (fun r Hr => Hother r (or_intror Hr)) (fold_left (save_day row) week db))
    as (Hf & He).
  destruct (save_days_other row week employee_id0 date0) with (db := db)
    as (Hf1 & He1).
  { intros day _. left. intros [= E _]. exact (Hother row (or_introl eq_refl) E). }
  rewrite Hf, He, Hf1, He1. now split.
Qed.

Lemma open_dates_app (w1 w2 : list Day) :
  open_dates (w1 ++ w2) = (open_dates w1 ++ open_dates w2)%list.
Proof.
  unfold open_dates. now rewrite filter_app, map_app.
Qed.

Lemma open_dates_in (day : Day) (week : list Day) :
  In day week -> closed day = false -> In (date_obj day) (open_dates week).
Proof.
  intros Hin Hopen. unfold open_dates. apply in_map. apply filter_In.
  split; [exact Hin | now rewrite Hopen].
Qed.

(** X4: with one row for each employee and one open day for each date, once
    the schedule is saved the row fetched for an employee and an open day
    is: for a cell with a shift text, the parser's start, end and hours with
    no cost and no overtime flag; for a cleared cell with an earlier row,
    that row with no times and 0 hours; for a cleared cell without an
    earlier row, what it was before, that is, none. *)
Theorem save_schedule_to_db_then_find (schedule_df : list ScheduleRow)
    (week : list Day) (db : Db) (row : ScheduleRow) (day : Day) :
  NoDup (map employee_id schedule_df) ->
  NoDup (open_dates week) ->
  In row schedule_df ->
  In day week ->
  closed day = false ->
  find_schedule (employee_id row) (date_obj day)
    (schedules (save_schedule_to_db schedule_df week db))
  = if is_shift_text (cell row (date_str day))
    then Some (shift_entry (employee_id row) (date_obj day)
                 (parse_shift_hours (cell row (date_str day))))
    else if schedule_exists db (employee_id row) (date_obj day)
         then Some (cleared_entry (employee_id row) (date_obj day))
         else find_schedule (employee_id row) (date_obj day) (schedules db).
Proof.
  intros Hrows Hdays Hrow Hday Hopen.
  destruct (in_split _ _ Hrow) as (r1 & r2 & ->).
  destruct (in_split _ _ Hday) as (w1 & w2 & ->).
  rewrite map_app in Hrows. simpl in Hrows.
  pose proof (NoDup_remove_2 _ _ _ Hrows) as Hid.
  rewrite open_dates_app in Hdays.
  change (day :: w2) with ([day] ++ w2)%list in Hdays.
  rewrite open_dates_app in Hdays. unfold open_dates at 2 in Hdays.
  simpl in Hdays. rewrite Hopen in Hdays. simpl in Hdays.
  pose proof (NoDup_remove_2 _ _ _ Hdays) as Hdate.
  assert (Hr1 : forall r, In r r1 -> employee_id r <> employee_id row).
  { intros r Hr E. apply Hid. apply in_or_app. left. rewrite <- E. now apply in_map. }
  assert (Hr2 : forall r, In r r2 -> employee_id r <> employee_id row).
  { intros r Hr E. apply Hid. apply in_or_app. right. rewrite <- E. now apply in_map. }
  assert (Hw1 : forall d, In d w1 ->
            (employee_id row, date_obj d) <> (employee_id row, date_obj day)
            \/ closed d = true).
  { intros d Hd. destruct (closed d) eqn:Hc; [now right | left].
    intros [= E]. apply Hdate. apply in_or_app. left. rewrite <- E.
    now apply open_dates_in. }
  assert (Hw2 : forall d, In d w2 ->
            (employee_id row, date_obj d) <> (employee_id row, date_obj day)
            \/ closed d = true).
  { intros d Hd. destruct (closed d) eqn:Hc; [now right | left].
    intros [= E]. apply Hdate. apply in_or_app. right. rewrite <- E.
    now apply open_dates_in. }
  unfold save_schedule_to_db. rewrite fold_left_app. cbn [fold_left].
  fold (save_schedule_to_db r1 (w1 ++ day :: w2) db).
  set (db1 := save_schedule_to_db r1 (w1 ++ day :: w2) db).
  destruct (save_rows_other r1 (w1 ++ day :: w2) (employee_id row) (date_obj day)
              Hr1 db) as (Hf1 & He1). fold db1 in Hf1, He1.
  match goal with
  | |- find_schedule _ _ (schedules (fold_left _ r2 ?d)) = _ =>
      fold (save_schedule_to_db r2 (w1 ++ day :: w2) d);
      rewrite (proj1 (save_rows_other r2 (w1 ++ day :: w2) (employee_id row)
                        (date_obj day) Hr2 d))
  end.
  rewrite fold_left_app. cbn [fold_left].
  rewrite (proj1 (save_days_other row w2 (employee_id row) (date_obj day) Hw2 _)).
  rewrite (save_day_here row _ day Hopen).
  destruct (save_days_other row w1 (employee_id row) (date_obj day) Hw1 db1)
    as (Hf2 & He2).
  rewrite Hf2, He2, Hf1, He1. reflexivity.
Qed.

Lemma save_schedule_to_db_then_find_witness :
  find_schedule 1 5
    (schedules (save_schedule_to_db [Sample.cook_54h; Sample.manager_5_days]
                                    Sample.week Sample.empty_db))
  = Some (shift_entry 1 5 (parse_shift_hours "10am-2pm")).
Proof.
  apply (save_schedule_to_db_then_find
           [Sample.cook_54h; Sample.manager_5_days] Sample.week Sample.empty_db
           Sample.cook_54h
           {| date_obj := 5; date_str := "Sat 01/10"; closed := false |}).
  - vm_compute. repeat constructor; simpl; intuition discriminate.
  - vm_compute. repeat constructor; simpl; intuition discriminate.
  - simpl. tauto.
  - simpl. tauto.
  - reflexivity.
Defined.

(** *** Saving after a calculation *)

Lemma save_day_keeps_uncosted (row : ScheduleRow) (db : Db) (day : Day)
    (employee_id0 date0 : Z) :
  (exists e, find_schedule employee_id0 date0 (schedules db) = Some e /\
             s_cost e = None /\ s_overtime e = false) ->
  exists e, find_schedule employee_id0 date0 (schedules (save_day row db day)) = Some e /\
            s_cost e = None /\ s_overtime e = false.
Proof.
  intros Hinv.
  destruct (key_dec schedule_key_eqb schedule_key_eqb_spec
              (employee_id row, date_obj day) (employee_id0, date0)) as [E | Hne].
  - injection E as E1 E2. subst employee_id0 date0.
    destruct (closed day) eqn:Hc.
    + unfold save_day. now rewrite Hc.
    + rewrite (save_day_here row db day Hc).
      destruct (is_shift_text (cell row (date_str day))); [eauto |].
      destruct (schedule_exists db (employee_id row) (date_obj day)); eauto.
  - now rewrite (proj1 (save_day_other row db day employee_id0 date0 (or_introl Hne))).
Qed.

Lemma save_days_keep_uncosted (row : ScheduleRow) (week : list Day)
    (employee_id0 date0 : Z) :
  forall db,
  (exists e, find_schedule employee_id0 date0 (schedules db) = Some e /\
             s_cost e = None /\ s_overtime e = false) ->
  exists e, find_schedule employee_id0 date0
              (schedules (fold_left (save_day row) week db)) = Some e /\
            s_cost e = None /\ s_overtime e = false.
Proof.
  induction week as [| day week IH]; intros db Hinv; simpl; [exact Hinv |].
  apply IH. now apply save_day_keeps_uncosted.
Qed.

Lemma save_rows_keep_uncosted (rows : list ScheduleRow) (week : list Day)
    (employee_id0 date0 : Z) :
  forall db,
  (exists e, find_schedule employee_id0 date0 (schedules db) = Some e /\
             s_cost e = None /\ s_overtime e = false) ->
  exists e, find_schedule employee_id0 date0
              (schedules (save_schedule_to_db rows week db)) = Some e /\
            s_cost e = None /\ s_overtime e = false.
Proof.
  unfold save_schedule_to_db.
  induction rows as [| row rows IH]; intros db Hinv; simpl; [exact Hinv |].
  apply IH. now apply save_days_keep_uncosted.
Qed.

Lemma save_schedule_to_db_uncosted (schedule_df : list ScheduleRow)
    (week : list Day) (db : Db) (row : ScheduleRow) (day : Day) :
  In row schedule_df ->
  In day week ->
  closed day = false ->
  is_shift_text (cell row (date_str day)) = true ->
  exists e,
    find_schedule (employee_id row) (date_obj day)
      (schedules (save_schedule_to_db schedule_df week db)) = Some e /\
    s_cost e = None /\ s_overtime e = false.
Proof.
  intros Hrow Hday Hopen Htext.
  destruct (in_split _ _ Hrow) as (r1 & r2 & ->).
  destruct (in_split _ _ Hday) as (w1 & w2 & ->).
  unfold save_schedule_to_db. rewrite fold_left_app. cbn [fold_left].
  match goal with
  | |- exists e, find_schedule _ _ (schedules (fold_left _ r2 ?d)) = _ /\ _ =>
      fold (save_schedule_to_db r2 (w1 ++ day :: w2) d)
  end.
  apply save_rows_keep_uncosted.
  rewrite fold_left_app. cbn [fold_left].
  apply save_days_keep_uncosted.
  rewrite (save_day_here row _ day Hopen), Htext. eauto.
Qed.

Lemma save_schedule_to_db_keeps_totals (schedule_df : list ScheduleRow)
    (week : list Day) :
  forall db, labor_costs (save_schedule_to_db schedule_df week db) = labor_costs db.
Proof.
  unfold save_schedule_to_db.
  induction schedule_df as [| row rows IH]; intros db; simpl; [reflexivity |].
  rewrite IH.
  destruct (save_week_frame row week db) as (_ & _ & _ & _ & Hl). exact Hl.
Qed.

(** X6: pressing "Save Schedule" after "Calculate" erases what the
    calculation stored on the shifts: for every cell with a shift text on
    an open day, the row fetched for its employee and date has no cost and
    no overtime flag, whatever the calculation had written there, while the
    daily totals the calculation saved stay as they are. *)
Theorem save_after_calculation_erases_costs (schedule_df : list ScheduleRow)
    (week : list Day) (labor_goal_pct : Q) (db : Db) (row : ScheduleRow)
    (day : Day) :
  In row schedule_df ->
  In day week ->
  closed day = false ->
  is_shift_text (cell row (date_str day)) = true ->
  let db1 := run_calculation schedule_df week labor_goal_pct db in
  let db2 := save_schedule_to_db schedule_df week db1 in
  (exists e,
     find_schedule (employee_id row) (date_obj day) (schedules db2) = Some e /\
     s_cost e = None /\ s_overtime e = false) /\
  labor_costs db2 = labor_costs db1.
Proof.
  intros Hrow Hday Hopen Htext. cbn zeta. split.
  - now apply save_schedule_to_db_uncosted.
  - apply save_schedule_to_db_keeps_totals.
Qed.

Lemma save_after_calculation_erases_costs_witness :
  (exists e,
     find_schedule 1 5
       (schedules (save_schedule_to_db [Sample.cook_54h] Sample.week
                     (run_calculation [Sample.cook_54h] Sample.week 25
                                      Sample.empty_db)))
     = Some e /\
     s_cost e = None /\ s_overtime e = false) /\
  labor_costs (save_schedule_to_db [Sample.cook_54h] Sample.week
                 (run_calculation [Sample.cook_54h] Sample.week 25 Sample.empty_db))
  = labor_costs (run_calculation [Sample.cook_54h] Sample.week 25 Sample.empty_db).
Proof.
  apply (save_after_calculation_erases_costs
           [Sample.cook_54h] Sample.week 25 Sample.empty_db Sample.cook_54h
           {| date_obj := 5; date_str := "Sat 01/10"; closed := false |}).
  - simpl. tauto.
  - simpl. tauto.
  - reflexivity.
  - vm_compute. reflexivity.
Defined.

End SaveScheduleFacts.

(** ** The entries and the totals of a run *)

Section RunFacts.
Local Open Scope Q_scope.

Lemma worked_shifts_dates (week : list Day) (row : ScheduleRow) (x : Z * Q) :
  In x (worked_shifts week row) ->
  In (fst x) (map date_obj (shift_text_days week row)).
Proof.
  unfold worked_shifts, parsed_days. intros H.
  apply in_map_iff in H. destruct H as (dp & <- & Hdp).
  apply filter_In in Hdp. destruct Hdp as (Hdp & _).
  apply in_map_iff in Hdp. destruct Hdp as (day & <- & Hd).
  simpl. now apply in_map.
Qed.

Lemma parsed_days_dates (week : list Day) (row : ScheduleRow) (dp : Day * Shift) :
  In dp (parsed_days week row) ->
  In (date_obj (fst dp)) (map date_obj (shift_text_days week row)).
Proof.
  unfold parsed_days. intros H.
  apply in_map_iff in H. destruct H as (day & <- & Hd). simpl. now apply in_map.
Qed.

Lemma assign_hours_nonneg (shifts : list (Z * Q)) :
  Forall (fun x => 0 < snd x) shifts ->
  forall budget, 0 <= budget ->
  Forall (fun a => 0 <= a_reg a /\ 0 <= a_ot a) (assign_hours budget shifts).
Proof.
  induction 1 as [| [d h] shifts Hh Hs IH]; intros budget Hb; simpl;
    [constructor |].
  destruct (split_shift budget h) as [[r o] b'] eqn:E.
  destruct (split_shift_greedy budget h Hb Hh r o b' E) as (Hb' & Hro & Hle & Hgt).
  constructor; [| now apply IH]. simpl in *.
  destruct (Qlt_le_dec budget h) as [H | H].
  - destruct (Hgt H) as (Er & Eo & _). lra.
  - destruct (Hle H) as (Er & Eo & _). lra.
Qed.

Lemma overtime_trace_dates (week : list Day) (row : ScheduleRow) (a : Assigned) :
  In a (overtime_trace week row) ->
  In (a_date a) (map date_obj (shift_text_days week row)).
Proof.
  intros Ha.
  assert (Hin : In (a_date a, a_hours a) (sort_by_date (worked_shifts week row))).
  { unfold overtime_trace in Ha.
    rewrite <- (assign_hours_shifts (sort_by_date (worked_shifts week row)) 40).
    now apply (in_map (fun a => (a_date a, a_hours a))). }
  apply (Permutation_in _ (sort_by_date_perm _)) in Hin.
  now apply worked_shifts_dates in Hin.
Qed.

Lemma overtime_trace_nonneg (week : list Day) (row : ScheduleRow) :
  Forall (fun a => 0 <= a_reg a /\ 0 <= a_ot a) (overtime_trace week row).
Proof.
  apply assign_hours_nonneg; [| lra].
  apply (Permutation_Forall (Permutation_sym (sort_by_date_perm _))).
  apply worked_shifts_positive.
Qed.

(** What one row does, iteration by iteration. *)
Lemma process_employee_items (week : list Day) (employee_df : list Employee)
    (st st' : CalcState) (row : ScheduleRow) :
  process_employee week employee_df st row = Ok st' ->
  exists emp items,
    find_employee employee_df (employee_id row) = Ok emp /\
    daily_labor st' = add_all (map item_delta items) (daily_labor st) /\
    calls st' = (calls st ++ map (fun it => SaveSchedule (fst it)) items)%list /\
    Forall (item_of_row week row emp
              (pay_type emp = "Hourly"%string /\
               40 < weekly_hours_of week row (times st))) items.
Proof.
  destruct (find_employee employee_df (employee_id row)) as [emp | e] eqn:Hfind;
    [| unfold process_employee; rewrite Hfind; discriminate].
  intros Hp. exists emp.
  destruct (String.eqb_spec (pay_type emp) "Hourly") as [Hpay | Hpay].
  - destruct (Qlt_le_dec 40 (weekly_hours_of week row (times st))) as [Hot | Hreg].
    + destruct (process_hourly_overtime week employee_df st row emp Hfind Hpay Hot)
        as (day & _ & Hp'). cbn zeta in Hp'. rewrite Hp' in Hp.
      injection Hp as <-.
      set (p := parse_shift_hours (cell row (date_str day))).
      exists (map (fun a => (overtime_entry (employee_id row) (pay_rate emp)
                               (shift_start p) (shift_end p) a,
                             snd (overtime_delta (pay_rate emp) a)))
                  (overtime_trace week row)).
      split; [reflexivity |]. cbn [daily_labor calls].
      split; [now rewrite map_map |]. split; [now rewrite map_map |].
      apply Forall_forall. intros it Hit. apply in_map_iff in Hit.
      destruct Hit as (a & <- & Ha).
      pose proof (overtime_trace_nonneg week row) as Hnn.
      rewrite Forall_forall in Hnn. destruct (Hnn a Ha) as (Hr & Ho).
      unfold item_of_row. simpl.
      repeat split; auto.
      * now apply overtime_trace_dates.
      * intros Hrate. unfold overtime_cost_of.
        pose proof (Qmult_le_0_compat _ _ Hr Hrate) as H1.
        pose proof (Qmult_le_0_compat _ _ Ho Hrate) as H2.
        cbn zeta. lra.
    + rewrite (process_hourly_regular week employee_df st row emp Hfind Hpay Hreg)
        in Hp. injection Hp as <-.
      exists (map (fun dp => (regular_entry (employee_id row) (pay_rate emp) dp,
                              snd (regular_delta (pay_rate emp) dp)))
                  (worked_days week row)).
      split; [reflexivity |]. cbn [daily_labor calls].
      split; [now rewrite map_map |]. split; [now rewrite map_map |].
      apply Forall_forall. intros it Hit. apply in_map_iff in Hit.
      destruct Hit as (dp & <- & Hdp). unfold worked_days in Hdp.
      apply filter_In in Hdp. destruct Hdp as (Hdp & Hpos).
      apply Qlt_bool_iff in Hpos.
      unfold item_of_row. simpl.
      repeat split; auto; try discriminate.
      * now apply parsed_days_dates.
      * intros Hrate. apply Qmult_le_0_compat; lra.
  - destruct (process_salaried week employee_df st row emp Hfind Hpay) as (H0 & Hn).
    destruct (Nat.eq_dec (working_days week row) 0) as [E | E].
    + rewrite (H0 E) in Hp. injection Hp as <-. exists [].
      split; [reflexivity |]. simpl. rewrite app_nil_r. repeat split. constructor.
    + specialize (Hn E). cbn zeta in Hn. rewrite Hn in Hp. injection Hp as <-.
      set (daily_salary := pay_rate emp / inject_Z (Z.of_nat (working_days week row))).
      exists (map (fun dp => (salaried_entry (employee_id row) daily_salary dp,
                              snd (salaried_delta daily_salary dp)))
                  (parsed_days week row)).
      split; [reflexivity |]. cbn [daily_labor calls].
      split; [now rewrite map_map |]. split; [now rewrite map_map |].
      apply Forall_forall. intros it Hit. apply in_map_iff in Hit.
      destruct Hit as (dp & <- & Hdp).
      unfold item_of_row. simpl.
      repeat split; auto; try discriminate.
      * now apply parsed_days_dates.
      * intros Hrate. unfold daily_salary.
        assert (Hq : 0 < inject_Z (Z.of_nat (working_days week row))).
        { change 0 with (inject_Z 0). rewrite <- Zlt_Qlt. lia. }
        apply Qle_shift_div_l; [exact Hq | lra].
Qed.

(** *** Reading the dictionary *)

Lemma dict_get_alter (f : Labor -> Labor) (k k' : Z) (d : Dict) :
  dict_get k (dict_alter f k' d)
  = if Z.eqb k' k then option_map f (dict_get k d) else dict_get k d.
Proof.
  unfold dict_get. induction d as [| [k0 v0] d IH]; simpl.
  - now destruct (Z.eqb k' k).
  - destruct (Z.eqb_spec k0 k') as [E0 | E0]; simpl.
    + subst k0. destruct (Z.eqb_spec k' k) as [E | E]; simpl; reflexivity.
    + destruct (Z.eqb_spec k0 k) as [E | E]; simpl.
      * subst k0. destruct (Z.eqb_spec k' k) as [E' | E']; [congruence | reflexivity].
      * exact IH.
Qed.

Lemma dict_get_some_iff (k : Z) (d : Dict) :
  (exists v, dict_get k d = Some v) <-> In k (dict_keys d).
Proof.
  unfold dict_get, dict_keys. induction d as [| [k0 v0] d IH]; simpl.
  - split; [intros (v & H); discriminate | tauto].
  - destruct (Z.eqb_spec k0 k) as [E | E]; simpl.
    + split; [now left | intros _; eauto].
    + rewrite IH. tauto.
Qed.

Lemma dict_get_in (k : Z) (v : Labor) (d : Dict) :
  dict_get k d = Some v -> In (k, v) d.
Proof.
  unfold dict_get. intros H.
  destruct (find (fun e => Z.eqb (fst e) k) d) as [[k0 v0] |] eqn:E; [| discriminate].
  injection H as <-. apply find_some in E. destruct E as (Hin & Hk).
  simpl in Hk. apply Z.eqb_eq in Hk. now subst k0.
Qed.

Lemma dict_in_get (k : Z) (v : Labor) (d : Dict) :
  NoDup (dict_keys d) -> In (k, v) d -> dict_get k d = Some v.
Proof.
  unfold dict_get, dict_keys. induction d as [| [k0 v0] d IH]; simpl; [tauto |].
  intros Hnd [E | Hin].
  - injection E as -> ->. now rewrite Z.eqb_refl.
  - inversion Hnd as [| ? ? Hnin Hnd']. subst.
    destruct (Z.eqb_spec k0 k) as [E | E].
    + subst k0. exfalso. apply Hnin. now apply (in_map fst) in Hin.
    + now apply IH.
Qed.

Lemma add_all_get (f : Labor -> Q) :
  additive f ->
  forall l d k v,
  dict_get k d = Some v ->
  exists v', dict_get k (add_all l d) = Some v' /\ f v' == f v + sum_at f k l.
Proof.
  intros Hf. induction l as [| x l IH]; intros d k v Hv.
  - exists v. split; [exact Hv | simpl; lra].
  - change (add_all (x :: l) d) with (add_all l (add_delta x d)).
    change (sum_at f k (x :: l))
      with (if Z.eqb (fst x) k then f (snd x) + sum_at f k l else sum_at f k l).
    destruct (Z.eqb_spec (fst x) k) as [E | E].
    + destruct (IH (add_delta x d) k
                  (add_labor (total_hours (snd x)) (regular_hours (snd x))
                             (overtime_hours (snd x)) (total_cost (snd x)) v))
        as (v' & Hv' & Hs).
      { unfold add_delta. rewrite dict_get_alter, Hv.
        apply Z.eqb_eq in E. now rewrite E. }
      exists v'. split; [exact Hv' |].
      pose proof (Hf (snd x) v) as Hadd. lra.
    + destruct (IH (add_delta x d) k v) as (v' & Hv' & Hs).
      { unfold add_delta. rewrite dict_get_alter, Hv.
        apply Z.eqb_neq in E. now rewrite E. }
      exists v'. split; [exact Hv' | exact Hs].
Qed.

Lemma dict_set_zero (k : Z) (d : Dict) :
  Forall (fun e => snd e = zero_labor) d /\ NoDup (dict_keys d) ->
  Forall (fun e => snd e = zero_labor) (dict_set k zero_labor d) /\
  NoDup (dict_keys (dict_set k zero_labor d)).
Proof.
  intros (Hz & Hnd). split.
  - induction Hz as [| [k0 v0] d Hv Hd IH]; simpl; [repeat constructor |].
    destruct (Z.eqb k0 k); constructor; auto.
    apply IH. now inversion Hnd.
  - clear Hz. unfold dict_keys in *.
    induction d as [| [k0 v0] d IH]; simpl; [repeat constructor; tauto |].
    destruct (Z.eqb_spec k0 k) as [E | E]; simpl; [exact Hnd |].
    inversion Hnd as [| ? ? Hnin Hnd']. subst. constructor; [| now apply IH].
    intros Hin. apply Hnin.
    change (map fst (dict_set k zero_labor d)) with (dict_keys (dict_set k zero_labor d)) in Hin.
    apply dict_keys_set in Hin. destruct Hin as [-> | Hin]; [congruence | exact Hin].
Qed.

Lemma init_state_zero (week : list Day) :
  Forall (fun e => snd e = zero_labor) (daily_labor (init_state week)) /\
  NoDup (dict_keys (daily_labor (init_state week))).
Proof.
  simpl.
  assert (H : forall d,
    Forall (fun e => snd e = zero_labor) d /\ NoDup (dict_keys d) ->
    Forall (fun e => snd e = zero_labor)
      (fold_left (fun d day => dict_set (date_obj day) zero_labor d) week d) /\
    NoDup (dict_keys
      (fold_left (fun d day => dict_set (date_obj day) zero_labor d) week d))).
  { induction week as [| day week IH]; intros d Hd; simpl; [exact Hd |].
    apply IH. now apply dict_set_zero. }
  apply H. split; constructor.
Qed.

(** *** Sums over the entries of a date *)

Lemma sum_on_app (f : ScheduleEntry -> Q) (k : Z) (l1 l2 : list ScheduleEntry) :
  sum_on f k (l1 ++ l2) == sum_on f k l1 + sum_on f k l2.
Proof.
  unfold sum_on. induction l1 as [| e l1 IH]; simpl; [lra |].
  destruct (Z.eqb (s_date e) k); rewrite IH; lra.
Qed.

Lemma sum_on_none (f : ScheduleEntry -> Q) (k : Z) (l : list ScheduleEntry) :
  (forall e, In e l -> s_date e <> k) -> sum_on f k l = 0.
Proof.
  unfold sum_on. induction l as [| e l IH]; intros H; simpl; [reflexivity |].
  destruct (Z.eqb_spec (s_date e) k) as [E | E].
  - exfalso. exact (H e (or_introl eq_refl) E).
  - apply IH. intros e' He'. apply H. now right.
Qed.

Lemma sum_at_items (f : Labor -> Q) (g : ScheduleEntry -> Q) (k : Z)
    (items : list (ScheduleEntry * Labor)) :
  Forall (fun it => f (snd it) == g (fst it)) items ->
  sum_at f k (map item_delta items) == sum_on g k (map fst items).
Proof.
  unfold sum_at, sum_on. induction 1 as [| it items Hit Hs IH]; simpl; [lra |].
  destruct (Z.eqb (s_date (fst it)) k); rewrite IH; lra.
Qed.

Lemma schedule_calls_items (items : list (ScheduleEntry * Labor)) :
  schedule_calls (map (fun it => SaveSchedule (fst it)) items) = map fst items.
Proof.
  induction items as [| it items IH]; simpl; [reflexivity | now rewrite IH].
Qed.

Lemma schedule_calls_map {A : Type} (g : A -> ScheduleEntry) (l : list A) :
  schedule_calls (map (fun x => SaveSchedule (g x)) l) = map g l.
Proof.
  induction l as [| x l IH]; simpl; [reflexivity | now rewrite IH].
Qed.

Lemma schedule_calls_labor (l : list LaborCostEntry) :
  schedule_calls (map SaveLaborCost l) = [].
Proof. induction l; simpl; auto. Qed.

Lemma sum_on_nonzero (f : ScheduleEntry -> Q) (k : Z) (l : list ScheduleEntry) :
  ~ sum_on f k l == 0 -> exists e, In e l /\ s_date e = k.
Proof.
  unfold sum_on. induction l as [| e l IH]; simpl; intros H.
  - exfalso. apply H. reflexivity.
  - destruct (Z.eqb_spec (s_date e) k) as [E | E].
    + exists e. split; [now left | exact E].
    + destruct (IH H) as (e' & He' & Hk). exists e'. split; [now right | exact Hk].
Qed.

Lemma sum_on_nonneg (f : ScheduleEntry -> Q) (k : Z) (l : list ScheduleEntry) :
  Forall (fun e => 0 <= f e) l -> 0 <= sum_on f k l.
Proof.
  unfold sum_on. induction 1 as [| e l He Hl IH]; simpl; [lra |].
  destruct (Z.eqb (s_date e) k); lra.
Qed.

Lemma add_all_app (l1 l2 : list (Z * Labor)) (d : Dict) :
  add_all (l1 ++ l2) d = add_all l2 (add_all l1 d).
Proof. apply fold_left_app. Qed.

Lemma item_of_row_weaken (week : list Day) (row : ScheduleRow) (emp : Employee)
    (P P' : Prop) (it : ScheduleEntry * Labor) :
  (P -> P') -> item_of_row week row emp P it -> item_of_row week row emp P' it.
Proof. unfold item_of_row. tauto. Qed.

(** What the loop over the rows does, iteration by iteration: each item
    comes with the row and the employee record it was computed for. *)
Lemma process_rows_items (week : list Day) (employee_df : list Employee)
    (rows : list ScheduleRow) :
  forall st,
  exists items : list (ScheduleRow * Employee * (ScheduleEntry * Labor)),
    daily_labor (fst (process_rows week employee_df rows st))
    = add_all (map (fun x => item_delta (snd x)) items) (daily_labor st) /\
    calls (fst (process_rows week employee_df rows st))
    = (calls st ++ map (fun x => SaveSchedule (fst (snd x))) items)%list /\
    Forall (fun x =>
              In (fst (fst x)) rows /\
              find_employee employee_df (employee_id (fst (fst x))) = Ok (snd (fst x)) /\
              item_of_row week (fst (fst x)) (snd (fst x))
                (pay_type (snd (fst x)) = "Hourly"%string /\
                 40 < sum_hours (worked_shifts week (fst (fst x))))
                (snd x))
           items.
Proof.
  induction rows as [| row rows IH]; intros st; simpl.
  - exists []. simpl. rewrite app_nil_r. repeat split. constructor.
  - destruct (process_employee week employee_df st row) as [st' | e] eqn:Hp.
    + destruct (process_employee_items _ _ _ _ _ Hp)
        as (emp & items1 & Hfind & Hd & Hc & Hi).
      destruct (IH st') as (items2 & Hd2 & Hc2 & Hi2).
      exists (map (fun it => (row, emp, it)) items1 ++ items2)%list.
      split; [| split].
      * rewrite Hd2, Hd, map_app, add_all_app, map_map. reflexivity.
      * rewrite Hc2, Hc, map_app, map_map, app_assoc. reflexivity.
      * apply Forall_app. split.
        -- apply Forall_forall. intros x Hx. apply in_map_iff in Hx.
           destruct Hx as (it & <- & Hit). simpl.
           split; [now left |]. split; [exact Hfind |].
           rewrite Forall_forall in Hi.
           pose proof (weekly_hours_of_spec week row (times st)) as HW.
           eapply item_of_row_weaken; [| exact (Hi it Hit)].
           intros (Hpay & Hw). split; [exact Hpay | lra].
        -- eapply Forall_impl; [| exact Hi2].
           intros x (Hin & Hx). split; [now right | exact Hx].
    + exists []. simpl. rewrite app_nil_r. repeat split. constructor.
Qed.

Lemma nodup_keys_filter (p : Z * Labor -> bool) (d : Dict) :
  NoDup (dict_keys d) -> NoDup (dict_keys (filter p d)).
Proof.
  unfold dict_keys. induction d as [| x d IH]; simpl; intros Hnd; [constructor |].
  inversion Hnd as [| ? ? Hnin Hnd']. subst.
  destruct (p x); simpl; [| now apply IH].
  constructor; [| now apply IH].
  intros Hin. apply Hnin. apply in_map_iff in Hin.
  destruct Hin as (y & Hy & Hin). apply filter_In in Hin.
  rewrite <- Hy. apply in_map. tauto.
Qed.

(** The outcome of a run, item by item. *)
Lemma calculation_items (schedule_df : list ScheduleRow) (week : list Day)
    (labor_goal_pct : Q) (employee_df : list Employee) :
  let o := calculate_labor_costs schedule_df week labor_goal_pct employee_df in
  exists items : list (ScheduleRow * Employee * (ScheduleEntry * Labor)),
    out_daily o
    = add_all (map (fun x => item_delta (snd x)) items)
              (daily_labor (init_state week)) /\
    schedule_calls (out_calls o) = map (fun x => fst (snd x)) items /\
    labor_cost_calls (out_calls o)
    = match out_exc o with
      | None => map (daily_entry labor_goal_pct) (filter has_cost (out_daily o))
      | Some _ => []
      end /\
    Forall (fun x =>
              In (fst (fst x)) schedule_df /\
              find_employee employee_df (employee_id (fst (fst x))) = Ok (snd (fst x)) /\
              item_of_row week (fst (fst x)) (snd (fst x))
                (pay_type (snd (fst x)) = "Hourly"%string /\
                 40 < sum_hours (worked_shifts week (fst (fst x))))
                (snd x))
           items.
Proof.
  cbn zeta.
  destruct (calculation_labor_calls schedule_df week labor_goal_pct employee_df)
    as (_ & Hl). cbn zeta in Hl.
  destruct (process_rows_items week employee_df schedule_df (init_state week))
    as (items & Hd & Hc & Hi).
  exists items. split; [| split; [| split; [exact Hl | exact Hi]]].
  - unfold calculate_labor_costs.
    destruct (process_rows week employee_df schedule_df (init_state week))
      as [st [e |]]; exact Hd.
  - unfold calculate_labor_costs.
    destruct (process_rows week employee_df schedule_df (init_state week))
      as [st [e |]]; cbn [out_calls fst] in *.
    + rewrite Hc. simpl. apply schedule_calls_map.
    + rewrite save_daily_fold, Hc, schedule_calls_app. simpl.
      rewrite <- map_map with (g := SaveLaborCost), schedule_calls_labor, app_nil_r.
      apply schedule_calls_map.
Qed.

(** A value of the final dictionary is the sum of what the saved entries
    of its date hold. *)
Lemma calculation_value_sums (schedule_df : list ScheduleRow) (week : list Day)
    (labor_goal_pct : Q) (employee_df : list Employee) (k : Z) (v : Labor) :
  let o := calculate_labor_costs schedule_df week labor_goal_pct employee_df in
  In (k, v) (out_daily o) ->
  dict_get k (out_daily o) = Some v /\
  total_cost v == sum_on entry_cost k (schedule_calls (out_calls o)) /\
  total_hours v == sum_on entry_hours k (schedule_calls (out_calls o)).
Proof.
  cbn zeta. intros Hin.
  destruct (calculation_items schedule_df week labor_goal_pct employee_df)
    as (items & Hd & Hc & _ & Hi). cbn zeta in *.
  destruct (init_state_zero week) as (Hz & Hnd).
  assert (Hnd' : NoDup (dict_keys
            (out_daily (calculate_labor_costs schedule_df week labor_goal_pct employee_df)))).
  { rewrite Hd, add_all_keys. exact Hnd. }
  pose proof (dict_in_get _ _ _ Hnd' Hin) as Hget.
  split; [exact Hget |].
  assert (Hk0 : exists v0, dict_get k (daily_labor (init_state week)) = Some v0).
  { apply dict_get_some_iff.
    rewrite <- (add_all_keys (map (fun x => item_delta (snd x)) items)
                  (daily_labor (init_state week))).
    rewrite <- Hd. apply dict_get_some_iff. eauto. }
  destruct Hk0 as (v0 & Hv0).
  assert (E0 : v0 = zero_labor).
  { apply dict_get_in in Hv0. rewrite Forall_forall in Hz. exact (Hz _ Hv0). }
  subst v0.
  assert (Hitems : forall f g,
            (forall x, In x items -> item_of_row week (fst (fst x)) (snd (fst x))
               (pay_type (snd (fst x)) = "Hourly"%string /\
                40 < sum_hours (worked_shifts week (fst (fst x)))) (snd x) ->
               f (snd (snd x)) == g (fst (snd x))) ->
            sum_at f k (map (fun x => item_delta (snd x)) items)
            == sum_on g k (map (fun x => fst (snd x)) items)).
  { intros f g Hfg. rewrite <- (map_map snd item_delta), <- (map_map snd fst).
    apply sum_at_items. apply Forall_forall. intros it Hit.
    apply in_map_iff in Hit. destruct Hit as (x & <- & Hx).
    apply Hfg; [exact Hx |]. rewrite Forall_forall in Hi. apply (Hi x Hx). }
  rewrite Hc. split.
  - destruct (add_all_get total_cost additive_total_cost
                (map (fun x => item_delta (snd x)) items) _ k _ Hv0) as (v' & Hv' & Hs).
    rewrite <- Hd, Hget in Hv'. injection Hv' as <-.
    rewrite Hs. simpl. rewrite (Hitems total_cost entry_cost); [lra |].
    intros x _ (_ & _ & Hcost & _). unfold entry_cost. rewrite Hcost. reflexivity.
  - destruct (add_all_get total_hours additive_total_hours
                (map (fun x => item_delta (snd x)) items) _ k _ Hv0) as (v' & Hv' & Hs).
    rewrite <- Hd, Hget in Hv'. injection Hv' as <-.
    rewrite Hs. simpl. rewrite (Hitems total_hours entry_hours); [lra |].
    intros x _ (_ & Hh & _). unfold entry_hours. rewrite Hh. reflexivity.
Qed.

Lemma calculation_nodup_keys (schedule_df : list ScheduleRow) (week : list Day)
    (labor_goal_pct : Q) (employee_df : list Employee) :
  NoDup (dict_keys
    (out_daily (calculate_labor_costs schedule_df week labor_goal_pct employee_df))).
Proof.
  destruct (calculation_items schedule_df week labor_goal_pct employee_df)
    as (items & Hd & _). cbn zeta in Hd.
  rewrite Hd, add_all_keys. apply init_state_zero.
Qed.

(** X7: the daily totals of a run are the sums of the schedule entries the
    run saved: each value of the dictionary, and so each saved daily
    total, holds the summed cost and the summed hours of the saved entries
    of its date; no date is saved twice; and a run that was not ended by an
    exception saves a total for every date of the week whose entries have
    a summed cost other than 0. *)
Theorem daily_totals_sum_saved_entries (schedule_df : list ScheduleRow)
    (week : list Day) (labor_goal_pct : Q) (employee_df : list Employee) :
  let o := calculate_labor_costs schedule_df week labor_goal_pct employee_df in
  let saved := schedule_calls (out_calls o) in
  Forall (fun item =>
            total_cost (snd item) == sum_on entry_cost (fst item) saved /\
            total_hours (snd item) == sum_on entry_hours (fst item) saved)
         (out_daily o) /\
  Forall (fun e =>
            l_total_cost e == sum_on entry_cost (l_date e) saved /\
            l_total_hours e == sum_on entry_hours (l_date e) saved)
         (labor_cost_calls (out_calls o)) /\
  NoDup (map l_date (labor_cost_calls (out_calls o))) /\
  (out_exc o = None ->
   forall day, In day week ->
   ~ sum_on entry_cost (date_obj day) saved == 0 ->
   In (date_obj day) (map l_date (labor_cost_calls (out_calls o)))).
Proof.
  cbn zeta.
  pose proof (calculation_value_sums schedule_df week labor_goal_pct employee_df) as Hv.
  cbn zeta in Hv.
  destruct (calculation_items schedule_df week labor_goal_pct employee_df)
    as (items & _ & _ & Hl & _). cbn zeta in Hl.
  pose proof (calculation_nodup_keys schedule_df week labor_goal_pct employee_df) as Hnd.
  pose proof (calculation_keys_cover schedule_df week labor_goal_pct employee_df) as Hk.
  set (o := calculate_labor_costs schedule_df week labor_goal_pct employee_df) in *.
  assert (Hdates : map l_date (map (daily_entry labor_goal_pct) (filter has_cost (out_daily o)))
                   = dict_keys (filter has_cost (out_daily o))).
  { rewrite map_map. reflexivity. }
  split; [| split; [| split]].
  - apply Forall_forall. intros [k v] Hin. simpl. now apply Hv.
  - rewrite Hl. destruct (out_exc o); [constructor |].
    apply Forall_forall. intros e He. apply in_map_iff in He.
    destruct He as ([k v] & <- & Hin). apply filter_In in Hin. simpl.
    apply Hv. tauto.
  - rewrite Hl. destruct (out_exc o); [constructor |].
    rewrite Hdates. now apply nodup_keys_filter.
  - intros Hexc day Hday Hsum. rewrite Hl, Hexc, Hdates.
    apply Hk in Hday. apply dict_get_some_iff in Hday. destruct Hday as (v & Hget).
    apply dict_get_in in Hget.
    change (date_obj day) with (fst (date_obj day, v)).
    apply in_map. apply filter_In. split; [exact Hget |].
    unfold has_cost. simpl. apply negb_true_iff. apply Qeq_bool_false_iff.
    destruct (Hv _ _ Hget) as (_ & Hc & _). intros H0. apply Hsum.
    rewrite <- Hc. exact H0.
Qed.

Lemma shift_text_days_open (week : list Day) (row : ScheduleRow) (k : Z) :
  In k (map date_obj (shift_text_days week row)) ->
  In k (open_dates week) /\
  exists day, In day week /\ closed day = false /\ date_obj day = k /\
              is_shift_text (cell row (date_str day)) = true.
Proof.
  intros Hin. apply in_map_iff in Hin. destruct Hin as (day & <- & Hday).
  unfold shift_text_days in Hday. apply filter_In in Hday.
  destruct Hday as (Hday & Hc). apply andb_true_iff in Hc.
  destruct Hc as (Hc & Ht). apply negb_true_iff in Hc. split.
  - unfold open_dates. apply in_map. apply filter_In. split; [exact Hday |].
    now rewrite Hc.
  - exists day. auto.
Qed.

(** X8: a run saves schedule entries only for rows of the schedule whose
    employee is on record, and only on open days of the week on which the
    row's cell holds a shift text; every daily total it saves is on an open
    day too.  Closed days are never charged. *)
Theorem entries_only_on_open_days (schedule_df : list ScheduleRow)
    (week : list Day) (labor_goal_pct : Q) (employee_df : list Employee) :
  let o := calculate_labor_costs schedule_df week labor_goal_pct employee_df in
  Forall (fun s =>
            In (s_date s) (open_dates week) /\
            exists row emp day,
              In row schedule_df /\ employee_id row = s_employee_id s /\
              In emp employee_df /\ id emp = s_employee_id s /\
              In day week /\ closed day = false /\ date_obj day = s_date s /\
              is_shift_text (cell row (date_str day)) = true)
         (schedule_calls (out_calls o)) /\
  Forall (fun e => In (l_date e) (open_dates week) /\ ~ l_total_cost e == 0)
         (labor_cost_calls (out_calls o)).
Proof.
  cbn zeta.
  pose proof (calculation_value_sums schedule_df week labor_goal_pct employee_df) as Hv.
  cbn zeta in Hv.
  destruct (calculation_items schedule_df week labor_goal_pct employee_df)
    as (items & _ & Hc & Hl & Hi). cbn zeta in Hc, Hl, Hi.
  set (o := calculate_labor_costs schedule_df week labor_goal_pct employee_df) in *.
  assert (Hs : Forall (fun s =>
            In (s_date s) (open_dates week) /\
            exists row emp day,
              In row schedule_df /\ employee_id row = s_employee_id s /\
              In emp employee_df /\ id emp = s_employee_id s /\
              In day week /\ closed day = false /\ date_obj day = s_date s /\
              is_shift_text (cell row (date_str day)) = true)
         (schedule_calls (out_calls o))).
  { rewrite Hc. apply Forall_forall. intros s Hs. apply in_map_iff in Hs.
    destruct Hs as ([[row emp] it] & <- & Hx).
    rewrite Forall_forall in Hi. destruct (Hi _ Hx) as (Hrow & Hfind & Hit).
    simpl in *. destruct Hit as (Hid & _ & _ & Hdate & _).
    destruct (shift_text_days_open _ _ _ Hdate) as (Hopen & day & Hd).
    split; [exact Hopen |]. exists row, emp, day.
    unfold find_employee in Hfind.
    destruct (find (fun e => Z.eqb (id e) (employee_id row)) employee_df)
      as [e |] eqn:E; [| discriminate].
    injection Hfind as ->. apply find_some in E. destruct E as (Hin & He).
    apply Z.eqb_eq in He. intuition congruence. }
  split; [exact Hs |].
  rewrite Hl. destruct (out_exc o); [constructor |].
  apply Forall_forall. intros e He. apply in_map_iff in He.
  destruct He as ([k v] & <- & Hin). apply filter_In in Hin.
  destruct Hin as (Hin & Hcost). simpl.
  unfold has_cost in Hcost. simpl in Hcost.
  apply negb_true_iff in Hcost. apply Qeq_bool_false_iff in Hcost.
  split; [| exact Hcost].
  destruct (Hv _ _ Hin) as (_ & Hsum & _).
  destruct (sum_on_nonzero entry_cost k (schedule_calls (out_calls o)))
    as (s & Hs1 & Hs2).
  { intros H0. apply Hcost. rewrite Hsum. exact H0. }
  rewrite Forall_forall in Hs. rewrite <- Hs2. now apply Hs.
Qed.

(** X9: the overtime flag is set only on entries of hourly employees whose
    worked shifts of the week sum to more than 40 hours; in particular no
    entry of a salaried employee carries it. *)
Theorem overtime_flag_needs_40_hours (schedule_df : list ScheduleRow)
    (week : list Day) (labor_goal_pct : Q) (employee_df : list Employee) :
  let o := calculate_labor_costs schedule_df week labor_goal_pct employee_df in
  Forall (fun s =>
            s_overtime s = true ->
            exists row emp,
              In row schedule_df /\ employee_id row = s_employee_id s /\
              find_employee employee_df (employee_id row) = Ok emp /\
              pay_type emp = "Hourly"%string /\
              40 < sum_hours (worked_shifts week row))
         (schedule_calls (out_calls o)).
Proof.
  cbn zeta.
  destruct (calculation_items schedule_df week labor_goal_pct employee_df)
    as (items & _ & Hc & _ & Hi). cbn zeta in Hc, Hi.
  rewrite Hc. apply Forall_forall. intros s Hs. apply in_map_iff in Hs.
  destruct Hs as ([[row emp] it] & <- & Hx).
  rewrite Forall_forall in Hi. destruct (Hi _ Hx) as (Hrow & Hfind & Hit).
  simpl in *. destruct Hit as (Hid & _ & _ & _ & Hot & _).
  intros Hflag. destruct (Hot Hflag) as (Hpay & Hw).
  exists row, emp. auto.
Qed.

(** *** The pay of an hourly employee *)

Lemma assign_hours_cost (pay_rate : Q) (shifts : list (Z * Q)) :
  forall budget,
  sum_deltas total_cost (map (overtime_delta pay_rate) (assign_hours budget shifts))
  == pay_rate * sum_deltas regular_hours
                  (map (overtime_delta pay_rate) (assign_hours budget shifts))
     + pay_rate * 1.5 * sum_deltas overtime_hours
                  (map (overtime_delta pay_rate) (assign_hours budget shifts)).
Proof.
  unfold sum_deltas.
  induction shifts as [| [d h] shifts IH]; intros budget; simpl; [lra |].
  destruct (split_shift budget h) as [[r o] b']. simpl.
  rewrite (IH b'). unfold overtime_cost_of. cbn zeta. lra.
Qed.

Lemma regular_deltas_cost (pay_rate : Q) (l : list (Day * Shift)) :
  sum_deltas total_cost (map (regular_delta pay_rate) l)
  == pay_rate * sum_hours (map (fun dp => (date_obj (fst dp), shift_hours (snd dp))) l).
Proof.
  unfold sum_deltas, sum_hours.
  induction l as [| dp l IH]; simpl; [lra |]. rewrite IH. lra.
Qed.

(** X10: the week's pay of an hourly employee: processing the row adds to the
    daily costs, over all dates, the pay rate for the first 40 worked hours
    and 1.5 times the pay rate for the hours above 40, whatever the days
    the hours fall on. *)
Theorem hourly_weekly_pay (week : list Day) (employee_df : list Employee)
    (st : CalcState) (row : ScheduleRow) (emp : Employee) :
  keys_cover week (daily_labor st) ->
  find_employee employee_df (employee_id row) = Ok emp ->
  pay_type emp = "Hourly"%string ->
  exists st',
    process_employee week employee_df st row = Ok st' /\
    dict_sum total_cost (daily_labor st') - dict_sum total_cost (daily_labor st)
    == pay_rate emp * Qmin (sum_hours (worked_shifts week row)) 40
       + pay_rate emp * 1.5 * Qmax 0 (sum_hours (worked_shifts week row) - 40).
Proof.
  intros Hk Hfind Hpay.
  pose proof (weekly_hours_of_spec week row (times st)) as HW.
  destruct (Qlt_le_dec 40 (weekly_hours_of week row (times st))) as [Hot | Hreg].
  - destruct (process_hourly_overtime week employee_df st row emp Hfind Hpay Hot)
      as (day & _ & Hp). cbn zeta in Hp.
    eexists. split; [exact Hp |]. cbn [daily_labor].
    rewrite add_all_sum;
      [| apply additive_total_cost | apply overtime_trace_keys; exact Hk].
    assert (Hpos : Forall (fun x => 0 < snd x) (sort_by_date (worked_shifts week row))).
    { apply (Permutation_Forall (Permutation_sym (sort_by_date_perm _))).
      apply worked_shifts_positive. }
    destruct (assign_hours_sums (pay_rate emp) _ Hpos 40) as (_ & H2 & _ & H4);
      [lra |].
    cbn zeta in H2, H4. fold (overtime_trace week row) in H2, H4.
    pose proof (sum_hours_perm _ _ (sort_by_date_perm (worked_shifts week row))) as Hs.
    pose proof (assign_hours_cost (pay_rate emp)
                  (sort_by_date (worked_shifts week row)) 40) as Hcost.
    fold (overtime_trace week row) in Hcost.
    rewrite (Q.max_r 0 (sum_hours (worked_shifts week row) - 40)) by lra.
    rewrite (Q.min_r (sum_hours (worked_shifts week row)) 40) by lra.
    rewrite Hcost.
    assert (E1 : sum_deltas regular_hours
                   (map (overtime_delta (pay_rate emp)) (overtime_trace week row)) == 40)
      by (apply H4; lra).
    assert (E2 : sum_deltas overtime_hours
                   (map (overtime_delta (pay_rate emp)) (overtime_trace week row))
                 == sum_hours (worked_shifts week row) - 40) by lra.
    rewrite E1, E2. lra.
  - rewrite (process_hourly_regular week employee_df st row emp Hfind Hpay Hreg).
    eexists. split; [reflexivity |]. cbn [daily_labor].
    rewrite add_all_sum;
      [| apply additive_total_cost
       | apply (parsed_days_keys week row); auto;
         intros dp Hdp; unfold worked_days in Hdp;
         apply filter_In in Hdp; tauto].
    rewrite regular_deltas_cost, <- worked_shifts_worked_days.
    rewrite (Q.max_l 0 (sum_hours (worked_shifts week row) - 40)) by lra.
    rewrite (Q.min_l (sum_hours (worked_shifts week row)) 40) by lra.
    lra.
Qed.

Lemma hourly_weekly_pay_witness :
  exists st',
    process_employee Sample.week Sample.staff (init_state Sample.week) Sample.cook_54h
    = Ok st' /\
    dict_sum total_cost (daily_labor st')
    - dict_sum total_cost (daily_labor (init_state Sample.week))
    == 20 * Qmin (sum_hours (worked_shifts Sample.week Sample.cook_54h)) 40
       + 20 * 1.5 * Qmax 0 (sum_hours (worked_shifts Sample.week Sample.cook_54h) - 40).
Proof.
  apply (hourly_weekly_pay Sample.week Sample.staff
           (init_state Sample.week) Sample.cook_54h Sample.cook).
  - cover_by_computation.
  - reflexivity.
  - reflexivity.
Defined.

(** *** Runs ended by an exception *)

Lemma find_employee_found (employee_df : list Employee) (k : Z) (emp : Employee) :
  find_employee employee_df k = Ok emp -> In emp employee_df /\ id emp = k.
Proof.
  unfold find_employee.
  destruct (find (fun e => Z.eqb (id e) k) employee_df) as [e |] eqn:E;
    [| discriminate].
  intros [= <-]. apply find_some in E. destruct E as (Hin & He).
  apply Z.eqb_eq in He. auto.
Qed.

Lemma find_employee_known (employee_df : list Employee) (k : Z) :
  (exists emp, In emp employee_df /\ id emp = k) ->
  exists emp, find_employee employee_df k = Ok emp.
Proof.
  intros (emp & Hin & Hid). unfold find_employee.
  destruct (find (fun e => Z.eqb (id e) k) employee_df) as [e |] eqn:E; [eauto |].
  exfalso. pose proof (find_none _ _ E emp Hin) as H. simpl in H.
  apply Z.eqb_neq in H. contradiction.
Qed.

Lemma find_employee_missing (employee_df : list Employee) (k : Z) :
  (forall emp, In emp employee_df -> id emp <> k) ->
  find_employee employee_df k = Raise IndexError.
Proof.
  intros H. unfold find_employee.
  destruct (find (fun e => Z.eqb (id e) k) employee_df) as [e |] eqn:E;
    [| reflexivity].
  apply find_some in E. destruct E as (Hin & He). apply Z.eqb_eq in He.
  exfalso. exact (H e Hin He).
Qed.

(** A row whose employee is on record is processed without an exception:
    the branch that reads [start_time] is reached only above 40 weekly
    hours, when the first pass has assigned it. *)
Lemma process_employee_found (week : list Day) (employee_df : list Employee)
    (st : CalcState) (row : ScheduleRow) (emp : Employee) :
  find_employee employee_df (employee_id row) = Ok emp ->
  exists st', process_employee week employee_df st row = Ok st'.
Proof.
  intros Hfind.
  destruct (String.eqb_spec (pay_type emp) "Hourly") as [Hpay | Hpay].
  - destruct (Qlt_le_dec 40 (weekly_hours_of week row (times st))) as [Hot | Hreg].
    + destruct (process_hourly_overtime week employee_df st row emp Hfind Hpay Hot)
        as (day & _ & Hp). cbn zeta in Hp. eauto.
    + rewrite (process_hourly_regular week employee_df st row emp Hfind Hpay Hreg).
      eauto.
  - destruct (process_salaried week employee_df st row emp Hfind Hpay) as (H0 & Hn).
    destruct (Nat.eq_dec (working_days week row) 0) as [E | E].
    + rewrite (H0 E). eauto.
    + specialize (Hn E). cbn zeta in Hn. eauto.
Qed.

Lemma process_employee_missing (week : list Day) (employee_df : list Employee)
    (st : CalcState) (row : ScheduleRow) (e : pyexc) :
  find_employee employee_df (employee_id row) = Raise e ->
  process_employee week employee_df st row = Raise e.
Proof. intros H. unfold process_employee. now rewrite H. Qed.

Lemma process_rows_app (week : list Day) (employee_df : list Employee)
    (rows1 rows2 : list ScheduleRow) :
  forall st,
  process_rows week employee_df (rows1 ++ rows2) st
  = match process_rows week employee_df rows1 st with
    | (st', None) => process_rows week employee_df rows2 st'
    | (st', Some e) => (st', Some e)
    end.
Proof.
  induction rows1 as [| row rows1 IH]; intros st; simpl; [reflexivity |].
  destruct (process_employee week employee_df st row); [apply IH | reflexivity].
Qed.

Lemma process_rows_known (week : list Day) (employee_df : list Employee)
    (rows : list ScheduleRow) :
  Forall (fun row => exists emp, In emp employee_df /\ id emp = employee_id row) rows ->
  forall st, snd (process_rows week employee_df rows st) = None.
Proof.
  induction 1 as [| row rows Hrow Hrows IH]; intros st; simpl; [reflexivity |].
  destruct (find_employee_known _ _ Hrow) as (emp & Hfind).
  destruct (process_employee_found week employee_df st row emp Hfind) as (st' & Hp).
  rewrite Hp. apply IH.
Qed.

Lemma process_rows_exception (week : list Day) (employee_df : list Employee)
    (rows : list ScheduleRow) :
  forall st,
  match snd (process_rows week employee_df rows st) with
  | None =>
      Forall (fun row => exists emp, In emp employee_df /\ id emp = employee_id row) rows
  | Some e =>
      e = IndexError /\
      exists row, In row rows /\
                  forall emp, In emp employee_df -> id emp <> employee_id row
  end.
Proof.
  induction rows as [| row rows IH]; intros st; simpl; [constructor |].
  destruct (find_employee employee_df (employee_id row)) as [emp | e] eqn:Hfind.
  - destruct (process_employee_found week employee_df st row emp Hfind) as (st' & Hp).
    rewrite Hp. specialize (IH st').
    destruct (snd (process_rows week employee_df rows st')) as [e |].
    + destruct IH as (He & r & Hr & Hn). split; [exact He |].
      exists r. split; [now right | exact Hn].
    + constructor; [| exact IH]. exists emp. now apply find_employee_found.
  - rewrite (process_employee_missing week employee_df st row e Hfind). simpl.
    unfold find_employee in Hfind.
    destruct (find (fun e => Z.eqb (id e) (employee_id row)) employee_df) eqn:E;
      [discriminate |].
    injection Hfind as <-. split; [reflexivity |].
    exists row. split; [now left |].
    intros emp Hin. pose proof (find_none _ _ E emp Hin) as H. simpl in H.
    now apply Z.eqb_neq in H.
Qed.

Lemma calculation_exc (schedule_df : list ScheduleRow) (week : list Day)
    (labor_goal_pct : Q) (employee_df : list Employee) :
  out_exc (calculate_labor_costs schedule_df week labor_goal_pct employee_df)
  = snd (process_rows week employee_df schedule_df (init_state week)).
Proof.
  unfold calculate_labor_costs.
  now destruct (process_rows week employee_df schedule_df (init_state week))
    as [st [e |]].
Qed.

(** X11: a run is ended by an exception exactly when a row of the schedule
    names an employee that is not among the employees read; the exception
    is then the [IndexError] of the look-up, and the read of an unassigned
    [start_time] in the overtime branch never happens. *)
Theorem calculation_completes_iff_known (schedule_df : list ScheduleRow)
    (week : list Day) (labor_goal_pct : Q) (employee_df : list Employee) :
  let o := calculate_labor_costs schedule_df week labor_goal_pct employee_df in
  (out_exc o = None <->
   Forall (fun row => exists emp, In emp employee_df /\ id emp = employee_id row)
          schedule_df) /\
  (forall e, out_exc o = Some e ->
     e = IndexError /\
     exists row, In row schedule_df /\
                 forall emp, In emp employee_df -> id emp <> employee_id row).
Proof.
  cbn zeta. rewrite calculation_exc.
  pose proof (process_rows_exception week employee_df schedule_df (init_state week))
    as H.
  split; [split |].
  - intros E. now rewrite E in H.
  - intros Hk. now apply process_rows_known.
  - intros e E. now rewrite E in H.
Qed.

(** X12: a row of an unknown employee stops the run where it stands: the
    entries of the rows before it have been saved, exactly as a run over
    those rows alone saves them, nothing of the rows after it is saved, and
    no daily total is saved at all. *)
Theorem unknown_employee_stops_run (before after : list ScheduleRow)
    (row : ScheduleRow) (week : list Day) (labor_goal_pct : Q)
    (employee_df : list Employee) :
  Forall (fun r => exists emp, In emp employee_df /\ id emp = employee_id r) before ->
  (forall emp, In emp employee_df -> id emp <> employee_id row) ->
  let o := calculate_labor_costs (before ++ row :: after) week labor_goal_pct
             employee_df in
  let o' := calculate_labor_costs before week labor_goal_pct employee_df in
  out_exc o = Some IndexError /\
  out_exc o' = None /\
  out_daily o = out_daily o' /\
  out_calls o = map SaveSchedule (schedule_calls (out_calls o')) /\
  labor_cost_calls (out_calls o) = [].
Proof.
  intros Hbefore Hrow. cbn zeta.
  pose proof (process_rows_known week employee_df before Hbefore (init_state week))
    as Hnone.
  pose proof (process_rows_app week employee_df before (row :: after)
                (init_state week)) as Happ.
  destruct (process_rows_items week employee_df before (init_state week))
    as (items & _ & Hc & _).
  unfold calculate_labor_costs. rewrite Happ.
  destruct (process_rows week employee_df before (init_state week)) as [st' exc].
  simpl in Hnone. subst exc. cbn [process_rows fst] in *.
  rewrite (process_employee_missing week employee_df st' row IndexError
             (find_employee_missing _ _ Hrow)).
  cbn [out_exc out_daily out_calls].
  rewrite save_daily_fold, schedule_calls_app, Hc. simpl.
  rewrite <- map_map with (g := SaveLaborCost), schedule_calls_labor, app_nil_r.
  rewrite schedule_calls_map.
  repeat split.
  - now rewrite map_map.
  - rewrite <- map_map with (g := SaveSchedule). apply labor_cost_calls_schedule.
Qed.

Lemma unknown_employee_stops_run_witness :
  out_exc (calculate_labor_costs
             ([Sample.cook_50h]
              ++ Sample.row_of 3 "9am-5pm" "" "" "" "" "" :: [Sample.manager_5_days])
             Sample.week 25 Sample.staff) = Some IndexError /\
  out_exc (calculate_labor_costs [Sample.cook_50h] Sample.week 25 Sample.staff)
  = None /\
  out_daily (calculate_labor_costs
               ([Sample.cook_50h]
                ++ Sample.row_of 3 "9am-5pm" "" "" "" "" "" :: [Sample.manager_5_days])
               Sample.week 25 Sample.staff)
  = out_daily (calculate_labor_costs [Sample.cook_50h] Sample.week 25 Sample.staff) /\
  out_calls (calculate_labor_costs
               ([Sample.cook_50h]
                ++ Sample.row_of 3 "9am-5pm" "" "" "" "" "" :: [Sample.manager_5_days])
               Sample.week 25 Sample.staff)
  = map SaveSchedule
      (schedule_calls
         (out_calls (calculate_labor_costs [Sample.cook_50h] Sample.week 25
                       Sample.staff))) /\
  labor_cost_calls
    (out_calls (calculate_labor_costs
                  ([Sample.cook_50h]
                   ++ Sample.row_of 3 "9am-5pm" "" "" "" "" "" :: [Sample.manager_5_days])
                  Sample.week 25 Sample.staff)) = [].
Proof.
  apply (unknown_employee_stops_run
           [Sample.cook_50h] [Sample.manager_5_days]
           (Sample.row_of 3 "9am-5pm" "" "" "" "" "")
           Sample.week 25 Sample.staff).
  - repeat constructor. exists Sample.cook. simpl. auto.
  - simpl. intros emp [<- | [<- | []]]; simpl; lia.
Defined.

(** *** Non-negative pay rates *)

Lemma required_sales_nonneg (labor_goal_pct total_cost : Q) :
  0 <= total_cost -> 0 <= required_sales_of labor_goal_pct total_cost.
Proof.
  intros Hc. unfold required_sales_of.
  destruct (Qlt_bool 0 labor_goal_pct) eqn:E; [| lra].
  apply Qlt_bool_iff in E.
  unfold Qdiv. apply Qmult_le_0_compat; [exact Hc |].
  apply Qlt_le_weak, Qinv_lt_0_compat.
  unfold Qdiv. apply Qmult_lt_0_compat; [exact E | reflexivity].
Qed.

(** X13: with no negative pay rate among the employees, no saved entry has a
    negative cost, every saved daily total has a positive cost and
    non-negative required sales, and the days shown in the summary table of
    a completed run are the days whose totals were saved, with the same
    costs. *)
Theorem nonnegative_rates_positive_totals (schedule_df : list ScheduleRow)
    (week : list Day) (labor_goal_pct : Q) (employee_df : list Employee) :
  Forall (fun emp => 0 <= pay_rate emp) employee_df ->
  let o := calculate_labor_costs schedule_df week labor_goal_pct employee_df in
  Forall (fun s => 0 <= entry_cost s) (schedule_calls (out_calls o)) /\
  Forall (fun e => 0 < l_total_cost e /\
                   exists r, l_required_sales e = Some r /\ 0 <= r)
         (labor_cost_calls (out_calls o)) /\
  (out_exc o = None ->
   map sm_date (summary_data labor_goal_pct (out_daily o))
   = map l_date (labor_cost_calls (out_calls o)) /\
   map sm_labor_cost (summary_data labor_goal_pct (out_daily o))
   = map l_total_cost (labor_cost_calls (out_calls o))).
Proof.
  intros Hrates. cbn zeta.
  pose proof (calculation_value_sums schedule_df week labor_goal_pct employee_df) as Hv.
  cbn zeta in Hv.
  destruct (calculation_items schedule_df week labor_goal_pct employee_df)
    as (items & _ & Hc & Hl & Hi). cbn zeta in Hc, Hl, Hi.
  set (o := calculate_labor_costs schedule_df week labor_goal_pct employee_df) in *.
  assert (Hs : Forall (fun s => 0 <= entry_cost s) (schedule_calls (out_calls o))).
  { rewrite Hc. apply Forall_forall. intros s Hs. apply in_map_iff in Hs.
    destruct Hs as ([[row emp] it] & <- & Hx).
    rewrite Forall_forall in Hi. destruct (Hi _ Hx) as (_ & Hfind & Hit).
    simpl in *. destruct Hit as (_ & _ & Hcost & _ & _ & Hnn).
    unfold entry_cost. rewrite Hcost. apply Hnn.
    apply find_employee_found in Hfind. destruct Hfind as (Hin & _).
    rewrite Forall_forall in Hrates. now apply Hrates. }
  assert (Hd : forall k v, In (k, v) (out_daily o) -> 0 <= total_cost v).
  { intros k v Hin. destruct (Hv _ _ Hin) as (_ & Hsum & _). rewrite Hsum.
    now apply sum_on_nonneg. }
  assert (Hf : filter (fun item => Qlt_bool 0 (total_cost (snd item))) (out_daily o)
               = filter has_cost (out_daily o)).
  { apply filter_ext_in. intros [k v] Hin. specialize (Hd k v Hin). simpl.
    unfold has_cost. simpl.
    destruct (Qeq_bool (total_cost v) 0) eqn:E; simpl.
    - apply Qeq_bool_iff in E. apply Qlt_bool_false_iff. lra.
    - apply Qeq_bool_false_iff in E. apply Qlt_bool_iff. lra. }
  split; [exact Hs |]. split.
  - rewrite Hl. destruct (out_exc o); [constructor |].
    apply Forall_forall. intros e He. apply in_map_iff in He.
    destruct He as ([k v] & <- & Hin). apply filter_In in Hin.
    destruct Hin as (Hin & Hcost). specialize (Hd k v Hin). simpl.
    unfold has_cost in Hcost. simpl in Hcost.
    apply negb_true_iff in Hcost. apply Qeq_bool_false_iff in Hcost.
    split; [lra |]. eexists. split; [reflexivity |].
    now apply required_sales_nonneg.
  - intros Hexc. rewrite Hl, Hexc. unfold summary_data. rewrite Hf, !map_map.
    split; reflexivity.
Qed.

Lemma nonnegative_rates_positive_totals_witness :
  Forall (fun s => 0 <= entry_cost s)
    (schedule_calls
       (out_calls (calculate_labor_costs [Sample.cook_54h; Sample.manager_5_days]
                     Sample.week 25 Sample.staff))) /\
  Forall (fun e => 0 < l_total_cost e /\
                   exists r, l_required_sales e = Some r /\ 0 <= r)
    (labor_cost_calls
       (out_calls (calculate_labor_costs [Sample.cook_54h; Sample.manager_5_days]
                     Sample.week 25 Sample.staff))) /\
  (out_exc (calculate_labor_costs [Sample.cook_54h; Sample.manager_5_days]
              Sample.week 25 Sample.staff) = None ->
   map sm_date
     (summary_data 25
        (out_daily (calculate_labor_costs [Sample.cook_54h; Sample.manager_5_days]
                      Sample.week 25 Sample.staff)))
   = map l_date
       (labor_cost_calls
          (out_calls (calculate_labor_costs [Sample.cook_54h; Sample.manager_5_days]
                        Sample.week 25 Sample.staff))) /\
   map sm_labor_cost
     (summary_data 25
        (out_daily (calculate_labor_costs [Sample.cook_54h; Sample.manager_5_days]
                      Sample.week 25 Sample.staff)))
   = map l_total_cost
       (labor_cost_calls
          (out_calls (calculate_labor_costs [Sample.cook_54h; Sample.manager_5_days]
                        Sample.week 25 Sample.staff)))).
Proof.
  apply (nonnegative_rates_positive_totals
           [Sample.cook_54h; Sample.manager_5_days] Sample.week 25 Sample.staff).
  repeat constructor; simpl; lra.
Defined.

(** With no negative pay rate and a positive labor goal, the daily totals
    a run saves have a positive cost and the required sales of the goal. *)
Lemma calculation_totals_saved_with_goal (schedule_df : list ScheduleRow)
    (week : list Day) (labor_goal_pct : Q) (employee_df : list Employee) :
  Forall (fun emp => 0 <= pay_rate emp) employee_df ->
  0 < labor_goal_pct ->
  Forall (saved_with_goal labor_goal_pct)
    (labor_cost_calls
       (out_calls (calculate_labor_costs schedule_df week labor_goal_pct employee_df))).
Proof.
  intros Hrates Hgoal.
  pose proof (calculation_value_sums schedule_df week labor_goal_pct employee_df) as Hv.
  cbn zeta in Hv.
  destruct (calculation_items schedule_df week labor_goal_pct employee_df)
    as (items & _ & Hc & Hl & Hi). cbn zeta in Hc, Hl, Hi.
  set (o := calculate_labor_costs schedule_df week labor_goal_pct employee_df) in *.
  assert (Hs : Forall (fun s => 0 <= entry_cost s) (schedule_calls (out_calls o))).
  { rewrite Hc. apply Forall_forall. intros s Hs. apply in_map_iff in Hs.
    destruct Hs as ([[row emp] it] & <- & Hx).
    rewrite Forall_forall in Hi. destruct (Hi _ Hx) as (_ & Hfind & Hit).
    simpl in *. destruct Hit as (_ & _ & Hcost & _ & _ & Hnn).
    unfold entry_cost. rewrite Hcost. apply Hnn.
    apply find_employee_found in Hfind. destruct Hfind as (Hin & _).
    rewrite Forall_forall in Hrates. now apply Hrates. }
  rewrite Hl. destruct (out_exc o); [constructor |].
  apply Forall_forall. intros e He. apply in_map_iff in He.
  destruct He as ([k v] & <- & Hin). apply filter_In in Hin.
  destruct Hin as (Hin & Hcost).
  unfold has_cost in Hcost. simpl in Hcost.
  apply negb_true_iff in Hcost. apply Qeq_bool_false_iff in Hcost.
  destruct (Hv _ _ Hin) as (_ & Hsum & _).
  pose proof (sum_on_nonneg entry_cost k _ Hs) as Hnn.
  unfold saved_with_goal. simpl. split; [lra |].
  unfold required_sales_of. apply Qlt_bool_iff in Hgoal. now rewrite Hgoal.
Qed.

End RunFacts.

(** ** The summary of a run *)

Section SummaryFacts.
Local Open Scope Q_scope.

Lemma summary_costs_positive (labor_goal_pct : Q) (d : Dict) :
  Forall (fun r => 0 < sm_labor_cost r) (summary_data labor_goal_pct d).
Proof.
  unfold summary_data. apply Forall_forall. intros r Hr.
  apply in_map_iff in Hr. destruct Hr as (item & <- & Hin).
  apply filter_In in Hin. destruct Hin as (_ & Hpos). simpl.
  now apply Qlt_bool_iff.
Qed.

Lemma summary_required_sales (labor_goal_pct : Q) (d : Dict) :
  Forall (fun r => sm_required_sales r
                   = required_sales_of labor_goal_pct (sm_labor_cost r))
         (summary_data labor_goal_pct d).
Proof.
  unfold summary_data. apply Forall_forall. intros r Hr.
  apply in_map_iff in Hr. destruct Hr as (item & <- & _). reflexivity.
Qed.

Lemma column_sum_positive (rows : list SummaryRow) :
  Forall (fun r => 0 < sm_labor_cost r) rows ->
  rows <> [] -> 0 < total_labor_cost rows.
Proof.
  unfold total_labor_cost, column_sum.
  intros H. induction H as [| r rows Hr Hrows IH]; [congruence |].
  intros _. simpl. destruct rows as [| r' rows']; [simpl; lra |].
  assert (0 < fold_right (fun r0 acc => sm_labor_cost r0 + acc) 0 (r' :: rows'))
    by (apply IH; discriminate).
  lra.
Qed.

Lemma required_sales_sum (labor_goal_pct : Q) (rows : list SummaryRow) :
  0 < labor_goal_pct ->
  Forall (fun r => sm_required_sales r
                   = required_sales_of labor_goal_pct (sm_labor_cost r)) rows ->
  total_required_sales rows == total_labor_cost rows / (labor_goal_pct / 100).
Proof.
  intros Hg. unfold total_required_sales, total_labor_cost, column_sum.
  induction 1 as [| r rows Hr Hrows IH]; simpl.
  - field. lra.
  - rewrite IH, Hr. unfold required_sales_of.
    apply Qlt_bool_iff in Hg. rewrite Hg. apply Qlt_bool_iff in Hg.
    field. lra.
Qed.

Lemma required_sales_sum_zero (labor_goal_pct : Q) (rows : list SummaryRow) :
  labor_goal_pct <= 0 ->
  Forall (fun r => sm_required_sales r
                   = required_sales_of labor_goal_pct (sm_labor_cost r)) rows ->
  total_required_sales rows == 0.
Proof.
  intros Hg. unfold total_required_sales, column_sum.
  induction 1 as [| r rows Hr Hrows IH]; simpl; [reflexivity |].
  rewrite IH, Hr. unfold required_sales_of.
  apply Qlt_bool_false_iff in Hg. rewrite Hg. lra.
Qed.

(** X14: the metrics under the summary table, shown when the table has a row:
    the weekly labor cost is positive; with a positive labor goal the
    required weekly sales are the weekly labor cost divided by the goal
    as a fraction, and the projected labor percentage is the goal itself,
    whatever the schedule; with a goal of 0 or less the required weekly
    sales and the projected labor percentage are both 0. *)
Theorem projected_labor_pct_is_goal (labor_goal_pct : Q) (d : Dict) :
  summary_data labor_goal_pct d <> [] ->
  let rows := summary_data labor_goal_pct d in
  0 < total_labor_cost rows /\
  (0 < labor_goal_pct ->
   total_required_sales rows == total_labor_cost rows / (labor_goal_pct / 100) /\
   weekly_labor_pct rows == labor_goal_pct) /\
  (labor_goal_pct <= 0 ->
   total_required_sales rows == 0 /\ weekly_labor_pct rows == 0).
Proof.
  intros Hrows. cbn zeta.
  pose proof (column_sum_positive _ (summary_costs_positive labor_goal_pct d) Hrows)
    as Hpos.
  split; [exact Hpos |]. split.
  - intros Hg.
    pose proof (required_sales_sum labor_goal_pct _ Hg
                  (summary_required_sales labor_goal_pct d)) as Hsum.
    split; [exact Hsum |].
    assert (Hreq : 0 < total_required_sales (summary_data labor_goal_pct d)).
    { rewrite Hsum. unfold Qdiv. apply Qmult_lt_0_compat; [exact Hpos |].
      apply Qinv_lt_0_compat. apply Qmult_lt_0_compat; [exact Hg | reflexivity]. }
    unfold weekly_labor_pct. apply Qlt_bool_iff in Hreq. rewrite Hreq.
    rewrite Hsum. field. split; lra.
  - intros Hg.
    pose proof (required_sales_sum_zero labor_goal_pct _ Hg
                  (summary_required_sales labor_goal_pct d)) as Hsum.
    split; [exact Hsum |].
    unfold weekly_labor_pct.
    destruct (Qlt_bool 0 (total_required_sales (summary_data labor_goal_pct d))) eqn:E;
      [| reflexivity].
    apply Qlt_bool_iff in E. lra.
Qed.

Lemma projected_labor_pct_is_goal_witness :
  0 < total_labor_cost
        (summary_data 25
           (out_daily (calculate_labor_costs [Sample.cook_54h; Sample.manager_5_days]
                         Sample.week 25 Sample.staff))) /\
  (0 < 25 ->
   total_required_sales
     (summary_data 25
        (out_daily (calculate_labor_costs [Sample.cook_54h; Sample.manager_5_days]
                      Sample.week 25 Sample.staff)))
   == total_labor_cost
        (summary_data 25
           (out_daily (calculate_labor_costs [Sample.cook_54h; Sample.manager_5_days]
                         Sample.week 25 Sample.staff))) / (25 / 100) /\
   weekly_labor_pct
     (summary_data 25
        (out_daily (calculate_labor_costs [Sample.cook_54h; Sample.manager_5_days]
                      Sample.week 25 Sample.staff))) == 25) /\
  (25 <= 0 ->
   total_required_sales
     (summary_data 25
        (out_daily (calculate_labor_costs [Sample.cook_54h; Sample.manager_5_days]
                      Sample.week 25 Sample.staff))) == 0 /\
   weekly_labor_pct
     (summary_data 25
        (out_daily (calculate_labor_costs [Sample.cook_54h; Sample.manager_5_days]
                      Sample.week 25 Sample.staff))) == 0).
Proof.
  apply (projected_labor_pct_is_goal 25
           (out_daily (calculate_labor_costs [Sample.cook_54h; Sample.manager_5_days]
                         Sample.week 25 Sample.staff))).
  vm_compute. discriminate.
Defined.

End SummaryFacts.

(** ** The daily totals in the store *)

Section StoredTotals.
Local Open Scope Q_scope.

Lemma labor_cost_update_key (r n : LaborCostEntry) :
  l_date (labor_cost_update r n) = l_date r.
Proof. reflexivity. Qed.

Lemma costless_date_not_saved (d : Dict) (labor_goal_pct : Q) (k : Z) (v : Labor) :
  NoDup (dict_keys d) ->
  In (k, v) d ->
  total_cost v == 0 ->
  ~ In k (map l_date (map (daily_entry labor_goal_pct) (filter has_cost d))).
Proof.
  intros Hnd Hin Hzero Hk. rewrite map_map in Hk. apply in_map_iff in Hk.
  destruct Hk as ([k' v'] & Hk' & Hin'). simpl in Hk'. subst k'.
  apply filter_In in Hin'. destruct Hin' as (Hin' & Hcost).
  pose proof (dict_in_get _ _ _ Hnd Hin) as G1.
  pose proof (dict_in_get _ _ _ Hnd Hin') as G2.
  rewrite G1 in G2. injection G2 as <-.
  unfold has_cost in Hcost. simpl in Hcost.
  apply negb_true_iff in Hcost. apply Qeq_bool_false_iff in Hcost. contradiction.
Qed.

(** X15: after a run the store holds, for the date of every daily total the run
    saved, exactly that total; the row of every other date is the one the
    store held before.  In particular a date whose cost the run computed as
    0 keeps the total of an earlier run, if there was one: totals are
    written over but never cleared. *)
Theorem run_stores_totals_keeps_others (schedule_df : list ScheduleRow)
    (week : list Day) (labor_goal_pct : Q) (db : Db) :
  let o := calculate_labor_costs schedule_df week labor_goal_pct
             (get_all_employees db) in
  let db' := run_calculation schedule_df week labor_goal_pct db in
  Forall (fun e => find_labor_cost (l_date e) (labor_costs db') = Some e)
         (labor_cost_calls (out_calls o)) /\
  (forall date,
     ~ In date (map l_date (labor_cost_calls (out_calls o))) ->
     find_labor_cost date (labor_costs db') = find_labor_cost date (labor_costs db)) /\
  (forall date v,
     In (date, v) (out_daily o) -> total_cost v == 0 ->
     find_labor_cost date (labor_costs db') = find_labor_cost date (labor_costs db)).
Proof.
  cbn zeta. unfold run_calculation. rewrite exec_calls_tables. cbn [labor_costs].
  destruct (calculation_items schedule_df week labor_goal_pct (get_all_employees db))
    as (items & _ & _ & Hl & _). cbn zeta in Hl.
  pose proof (calculation_nodup_keys schedule_df week labor_goal_pct
                (get_all_employees db)) as Hnd.
  set (o := calculate_labor_costs schedule_df week labor_goal_pct
              (get_all_employees db)) in *.
  assert (Hdates : NoDup (map l_date (labor_cost_calls (out_calls o)))).
  { rewrite Hl. destruct (out_exc o); [constructor |].
    rewrite map_map. now apply (nodup_keys_filter has_cost). }
  assert (Hother : forall date,
            ~ In date (map l_date (labor_cost_calls (out_calls o))) ->
            find_labor_cost date
              (upsert_all l_date Z.eqb labor_cost_update
                          (labor_cost_calls (out_calls o)) (labor_costs db))
            = find_labor_cost date (labor_costs db)).
  { intros date Hdate. unfold find_labor_cost.
    apply (find_upsert_all_other l_date Z.eqb labor_cost_update
             Z.eqb_eq labor_cost_update_key); exact Hdate. }
  split; [| split].
  - apply Forall_forall. intros e He. unfold find_labor_cost.
    apply (find_upsert_all_same l_date Z.eqb labor_cost_update
             Z.eqb_eq labor_cost_update_key labor_cost_update_same); assumption.
  - exact Hother.
  - intros date v Hin Hzero. apply Hother. rewrite Hl.
    destruct (out_exc o); [simpl; tauto |].
    now apply (costless_date_not_saved _ labor_goal_pct date v).
Qed.

Lemma run_stores_totals_keeps_others_witness :
  find_labor_cost 5
    (labor_costs
       (run_calculation [Sample.cook_32h] Sample.week 25
          (run_calculation [Sample.cook_54h] Sample.week 25 Sample.empty_db)))
  = find_labor_cost 5
      (labor_costs (run_calculation [Sample.cook_54h] Sample.week 25 Sample.empty_db))
  /\
  find_labor_cost 5
    (labor_costs (run_calculation [Sample.cook_54h] Sample.week 25 Sample.empty_db))
  <> None.
Proof.
  split.
  - apply (proj2 (proj2
             (run_stores_totals_keeps_others [Sample.cook_32h] Sample.week 25
                (run_calculation [Sample.cook_54h] Sample.week 25 Sample.empty_db)))
             5%Z zero_labor).
    + vm_compute. do 5 right. left. reflexivity.
    + reflexivity.
  - vm_compute. discriminate.
Defined.

End StoredTotals.

(** ** The report of the labor costs *)

Section ReportFacts.
Local Open Scope Q_scope.

Lemma insert_labor_cost_forall (P : LaborCostEntry -> Prop)
    (x : LaborCostEntry) (l : list LaborCostEntry) :
  P x -> Forall P l -> Forall P (insert_labor_cost x l).
Proof.
  intros Hx. induction 1 as [| y l Hy Hl IH]; simpl.
  - now constructor.
  - destruct (l_date x <=? l_date y)%Z; repeat constructor; auto.
Qed.

Lemma get_labor_costs_forall (P : LaborCostEntry -> Prop)
    (start_date end_date : Z) (db : Db) :
  Forall P (labor_costs db) -> Forall P (get_labor_costs start_date end_date db).
Proof.
  intros H. unfold get_labor_costs, order_by_date.
  induction H as [| r l Hr Hl IH]; simpl; [constructor |].
  destruct ((start_date <=? l_date r)%Z && (l_date r <=? end_date)%Z); simpl;
    [| exact IH].
  now apply insert_labor_cost_forall.
Qed.

Lemma saved_with_goal_pct (labor_goal_pct : Q) (r : LaborCostEntry) :
  0 < labor_goal_pct -> saved_with_goal labor_goal_pct r ->
  daily_projected_pct r == labor_goal_pct.
Proof.
  intros Hg (Hc & Hr). unfold daily_projected_pct. rewrite Hr.
  assert (Hpos : 0 < l_total_cost r / (labor_goal_pct / 100)).
  { unfold Qdiv. apply Qmult_lt_0_compat; [exact Hc |].
    apply Qinv_lt_0_compat. apply Qmult_lt_0_compat; [exact Hg | reflexivity]. }
  apply Qlt_bool_iff in Hpos. rewrite Hpos. field. split; lra.
Qed.

Lemma report_sums (labor_goal_pct : Q) (rows : list LaborCostEntry) :
  0 < labor_goal_pct ->
  Forall (saved_with_goal labor_goal_pct) rows ->
  report_total_required_sales rows
  == report_total_labor_cost rows / (labor_goal_pct / 100) /\
  (rows <> [] -> 0 < report_total_labor_cost rows) /\
  0 <= report_total_labor_cost rows.
Proof.
  intros Hg. unfold report_total_required_sales, report_total_labor_cost.
  induction 1 as [| r rows (Hc & Hr) Hrows (IH1 & IH2 & IH3)]; simpl.
  - split; [field; lra |]. split; [congruence | lra].
  - rewrite Hr, IH1. split; [field; lra |]. split; [intros _ |]; lra.
Qed.

(** X16: the report after runs with one labor goal: when no pay rate is
    negative, the goal is positive, and the stored daily totals are those of
    runs with that goal, then after one more run every row the report reads
    for a date range shows the goal as its projected labor percentage, and
    for a range with at least one row the required sales are the labor cost
    divided by the goal as a fraction and the projected labor percentage of
    the range is the goal as well. *)
Theorem report_projected_pct_is_goal (schedule_df : list ScheduleRow)
    (week : list Day) (labor_goal_pct : Q) (db : Db) (start_date end_date : Z) :
  Forall (fun emp => 0 <= pay_rate emp) (get_all_employees db) ->
  0 < labor_goal_pct ->
  Forall (saved_with_goal labor_goal_pct) (labor_costs db) ->
  let rows := get_labor_costs start_date end_date
                (run_calculation schedule_df week labor_goal_pct db) in
  Forall (fun r => daily_projected_pct r == labor_goal_pct) rows /\
  (rows <> [] ->
   report_total_required_sales rows
   == report_total_labor_cost rows / (labor_goal_pct / 100) /\
   report_projected_labor_pct rows == labor_goal_pct).
Proof.
  intros Hrates Hg Hdb. cbn zeta.
  assert (Hrows : Forall (saved_with_goal labor_goal_pct)
            (get_labor_costs start_date end_date
               (run_calculation schedule_df week labor_goal_pct db))).
  { apply get_labor_costs_forall. unfold run_calculation.
    rewrite exec_calls_tables. cbn [labor_costs].
    apply upsert_all_forall; [| | exact Hdb].
    - intros r n Hn. exact Hn.
    - now apply calculation_totals_saved_with_goal. }
  split.
  - eapply Forall_impl; [| exact Hrows].
    intros r Hr. now apply saved_with_goal_pct.
  - intros Hne.
    destruct (report_sums labor_goal_pct _ Hg Hrows) as (Hsum & Hpos & _).
    specialize (Hpos Hne). split; [exact Hsum |].
    assert (Hreq : 0 < report_total_required_sales
                         (get_labor_costs start_date end_date
                            (run_calculation schedule_df week labor_goal_pct db))).
    { rewrite Hsum. unfold Qdiv. apply Qmult_lt_0_compat; [exact Hpos |].
      apply Qinv_lt_0_compat. apply Qmult_lt_0_compat; [exact Hg | reflexivity]. }
    unfold report_projected_labor_pct. apply Qlt_bool_iff in Hreq. rewrite Hreq.
    rewrite Hsum. field. split; lra.
Qed.

Lemma report_projected_pct_is_goal_witness :
  Forall (fun r => daily_projected_pct r == 25)
    (get_labor_costs 0 6
       (run_calculation [Sample.cook_54h; Sample.manager_5_days] Sample.week 25
                        Sample.empty_db)) /\
  (get_labor_costs 0 6
     (run_calculation [Sample.cook_54h; Sample.manager_5_days] Sample.week 25
                      Sample.empty_db) <> [] ->
   report_total_required_sales
     (get_labor_costs 0 6
        (run_calculation [Sample.cook_54h; Sample.manager_5_days] Sample.week 25
                         Sample.empty_db))
   == report_total_labor_cost
        (get_labor_costs 0 6
           (run_calculation [Sample.cook_54h; Sample.manager_5_days] Sample.week 25
                            Sample.empty_db)) / (25 / 100) /\
   report_projected_labor_pct
     (get_labor_costs 0 6
        (run_calculation [Sample.cook_54h; Sample.manager_5_days] Sample.week 25
                         Sample.empty_db)) == 25).
Proof.
  apply (report_projected_pct_is_goal
           [Sample.cook_54h; Sample.manager_5_days] Sample.week 25
           Sample.empty_db 0 6).
  - repeat constructor; simpl; lra.
  - reflexivity.
  - constructor.
Defined.

(** *** The overtime insight *)

Lemma assign_hours_split (shifts : list (Z * Q)) :
  Forall (fun x => 0 < snd x) shifts ->
  forall budget, 0 <= budget ->
  Forall (fun a => a_reg a + a_ot a == a_hours a /\ 0 <= a_ot a)
         (assign_hours budget shifts).
Proof.
  induction 1 as [| [d h] shifts Hh Hs IH]; intros budget Hb; simpl;
    [constructor |].
  destruct (split_shift budget h) as [[r o] b'] eqn:E.
  destruct (split_shift_greedy budget h Hb Hh r o b' E) as (Hb' & Hro & Hle & Hgt).
  constructor; [| now apply IH]. simpl in *. split; [exact Hro |].
  destruct (Qlt_le_dec budget h) as [H | H].
  - destruct (Hgt H) as (Er & Eo & _). lra.
  - destruct (Hle H) as (Er & Eo & _). lra.
Qed.

Lemma overtime_insight_trace (emp : Employee) (employee_id : Z)
    (start_time end_time : option string) (tr : list Assigned) :
  Forall (fun a => a_reg a + a_ot a == a_hours a /\ 0 <= a_ot a) tr ->
  overtime_insight_cost
    (map (fun a => (overtime_entry employee_id (pay_rate emp) start_time end_time a,
                    emp)) tr)
  == 0.5 * pay_rate emp
     * sum_deltas overtime_hours (map (overtime_delta (pay_rate emp)) tr).
Proof.
  unfold overtime_insight_cost, overtime_shifts, sum_deltas. cbn zeta.
  induction 1 as [| a tr (Hsplit & Hot) Htr IH]; simpl; [lra |].
  set (actual := fold_right (fun r acc => entry_cost (fst r) + acc) 0 _) in *.
  set (regular := fold_right (fun r acc => entry_hours (fst r) * _ + acc) 0 _) in *.
  set (overtime := fold_right _ 0 (map (overtime_delta (pay_rate emp)) tr)) in *.
  destruct (Qlt_bool 0 (a_ot a)) eqn:E; simpl.
  - fold actual. fold regular.
    unfold entry_hours, entry_cost. simpl. unfold overtime_cost_of. cbn zeta.
    assert (Hh : a_hours a * pay_rate emp == (a_reg a + a_ot a) * pay_rate emp)
      by (now rewrite Hsplit).
    lra.
  - fold actual. fold regular.
    apply Qlt_bool_false_iff in E.
    assert (H0 : a_ot a == 0) by lra.
    assert (Hz : 0.5 * pay_rate emp * a_ot a == 0) by (rewrite H0; lra).
    lra.
Qed.

(** X17: the report's overtime insight for one hourly employee above 40 weekly
    hours: over the entries the run saved for the row, each with the
    employee's pay rate beside it, the extra cost the report shows is half
    the pay rate times the hours above 40, the overtime premium, when the
    pay rate is the one the run used. *)
Theorem overtime_insight_is_premium (week : list Day) (employee_df : list Employee)
    (st : CalcState) (row : ScheduleRow) (emp : Employee) :
  find_employee employee_df (employee_id row) = Ok emp ->
  pay_type emp = "Hourly"%string ->
  40 < sum_hours (worked_shifts week row) ->
  exists st' saved,
    process_employee week employee_df st row = Ok st' /\
    calls st' = (calls st ++ map SaveSchedule saved)%list /\
    overtime_insight_cost (map (fun s => (s, emp)) saved)
    == 0.5 * pay_rate emp * (sum_hours (worked_shifts week row) - 40).
Proof.
  intros Hfind Hpay Hw.
  pose proof (weekly_hours_of_spec week row (times st)) as HW.
  assert (Hot : 40 < weekly_hours_of week row (times st)) by lra.
  destruct (process_hourly_overtime week employee_df st row emp Hfind Hpay Hot)
    as (day & _ & Hp). cbn zeta in Hp.
  set (p := parse_shift_hours (cell row (date_str day))) in *.
  exists {| daily_labor :=
              add_all (map (overtime_delta (pay_rate emp)) (overtime_trace week row))
                      (daily_labor st);
            calls := calls st ++
              map (fun a => SaveSchedule
                   (overtime_entry (employee_id row) (pay_rate emp)
                                   (shift_start p) (shift_end p) a))
                  (overtime_trace week row);
            times := Some (shift_start p, shift_end p) |}.
  exists (map (overtime_entry (employee_id row) (pay_rate emp)
                              (shift_start p) (shift_end p))
              (overtime_trace week row)).
  split; [exact Hp |]. cbn [calls]. split; [now rewrite map_map |].
  rewrite map_map.
  assert (Hpos : Forall (fun x => 0 < snd x) (sort_by_date (worked_shifts week row))).
  { apply (Permutation_Forall (Permutation_sym (sort_by_date_perm _))).
    apply worked_shifts_positive. }
  rewrite overtime_insight_trace
    by (apply assign_hours_split; [exact Hpos | lra]).
  destruct (assign_hours_sums (pay_rate emp) _ Hpos 40) as (_ & H2 & _ & H4);
    [lra |].
  cbn zeta in H2, H4. fold (overtime_trace week row) in H2, H4.
  pose proof (sum_hours_perm _ _ (sort_by_date_perm (worked_shifts week row))) as Hs.
  assert (E1 : sum_deltas regular_hours
                 (map (overtime_delta (pay_rate emp)) (overtime_trace week row)) == 40)
    by (apply H4; lra).
  assert (E2 : sum_deltas overtime_hours
                 (map (overtime_delta (pay_rate emp)) (overtime_trace week row))
               == sum_hours (worked_shifts week row) - 40) by lra.
  rewrite E2. reflexivity.
Qed.

Lemma overtime_insight_is_premium_witness :
  exists st' saved,
    process_employee Sample.week Sample.staff (init_state Sample.week)
      Sample.cook_54h = Ok st' /\
    calls st' = (calls (init_state Sample.week) ++ map SaveSchedule saved)%list /\
    overtime_insight_cost (map (fun s => (s, Sample.cook)) saved)
    == 0.5 * 20 * (sum_hours (worked_shifts Sample.week Sample.cook_54h) - 40).
Proof.
  apply (overtime_insight_is_premium Sample.week Sample.staff
           (init_state Sample.week) Sample.cook_54h Sample.cook).
  - reflexivity.
  - reflexivity.
  - vm_compute. reflexivity.
Defined.

End ReportFacts.

(** ** The employees *)

Section EmployeeFacts.
Local Open Scope Q_scope.

Lemma existsb_map_ext {A : Type} (f : A -> bool) (g : A -> A) (l : list A) :
  (forall x, f (g x) = f x) -> existsb f (map g l) = existsb f l.
Proof.
  intros H. induction l as [| x l IH]; simpl; [reflexivity |].
  now rewrite H, IH.
Qed.

Lemma existsb_pointwise {A : Type} (f g : A -> bool) (l : list A) :
  (forall x, f x = g x) -> existsb f l = existsb g l.
Proof.
  intros H. induction l as [| x l IH]; simpl; [reflexivity |].
  now rewrite H, IH.
Qed.

Lemma find_map_other {A : Type} (f : A -> bool) (g : A -> A) (l : list A) :
  (forall x, f x = true -> g x = x) ->
  (forall x, f (g x) = f x) ->
  find f (map g l) = find f l.
Proof.
  intros Hg Hf. induction l as [| x l IH]; simpl; [reflexivity |].
  rewrite Hf. destruct (f x) eqn:E; [now rewrite Hg | exact IH].
Qed.

(** X18: [delete_employee] is a soft delete: the employee is no longer among
    the employees the application reads, the other employees stay as they
    are, the schedule rows and daily totals are not touched, a stored shift
    of the employee still counts as existing for "Save Schedule", deleting
    again changes nothing, and a calculation over a schedule that still has
    a row of the employee ends with the [IndexError] of the look-up. *)
Theorem delete_employee_is_soft (k : Z) (db : Db) :
  let db' := fst (delete_employee k db) in
  get_all_employees db'
  = filter (fun e => negb (Z.eqb (id e) k)) (get_all_employees db) /\
  schedules db' = schedules db /\
  labor_costs db' = labor_costs db /\
  (forall employee_id date,
     schedule_exists db' employee_id date = schedule_exists db employee_id date) /\
  fst (delete_employee k db') = db' /\
  (forall schedule_df week labor_goal_pct row,
     In row schedule_df -> employee_id row = k ->
     out_exc (calculate_labor_costs schedule_df week labor_goal_pct
                (get_all_employees db')) = Some IndexError).
Proof.
  cbn zeta.
  assert (Hall : get_all_employees (fst (delete_employee k db))
                 = filter (fun e => negb (Z.eqb (id e) k)) (get_all_employees db)).
  { unfold get_all_employees, delete_employee. cbn [fst employees].
    induction (employees db) as [| r l IH]; simpl; [reflexivity |].
    destruct (Z.eqb (id (e_data r)) k) eqn:E; simpl.
    - destruct (e_active r); simpl; [rewrite E; simpl |]; exact IH.
    - destruct (e_active r); simpl; [rewrite E; simpl; f_equal |]; exact IH. }
  split; [exact Hall |]. split; [reflexivity |]. split; [reflexivity |].
  split; [| split].
  - intros employee_id date. unfold schedule_exists, delete_employee.
    cbn [fst employees schedules].
    apply existsb_pointwise. intros s. f_equal.
    apply existsb_map_ext. intros r.
    now destruct (Z.eqb (id (e_data r)) k).
  - unfold delete_employee. cbn [fst employees schedules labor_costs].
    f_equal. rewrite map_map. apply map_ext. intros r.
    destruct (Z.eqb (id (e_data r)) k) eqn:E; simpl; now rewrite E.
  - intros schedule_df week labor_goal_pct row Hrow Hid.
    rewrite calculation_exc.
    pose proof (process_rows_exception week
                  (get_all_employees (fst (delete_employee k db)))
                  schedule_df (init_state week)) as H.
    destruct (snd (process_rows week
                     (get_all_employees (fst (delete_employee k db)))
                     schedule_df (init_state week))) as [e |].
    + destruct H as (-> & _). reflexivity.
    + exfalso. rewrite Forall_forall in H.
      destruct (H row Hrow) as (emp & Hin & Hemp).
      rewrite Hall in Hin. apply filter_In in Hin. destruct Hin as (_ & Hne).
      apply negb_true_iff, Z.eqb_neq in Hne. congruence.
Qed.

Lemma delete_employee_is_soft_witness :
  out_exc (calculate_labor_costs [Sample.cook_50h; Sample.manager_5_days]
             Sample.week 25
             (get_all_employees (fst (delete_employee 2 Sample.empty_db))))
  = Some IndexError.
Proof.
  apply (proj2 (proj2 (proj2 (proj2 (proj2
           (delete_employee_is_soft 2 Sample.empty_db)))))
           [Sample.cook_50h; Sample.manager_5_days] Sample.week 25
           Sample.manager_5_days).
  - simpl. tauto.
  - reflexivity.
Defined.

Lemma update_employee_found (k : Z) (new_pay_type : option string)
    (new_pay_rate : option Q) (db : Db) (old : EmployeeRow) :
  find_employee_row k db = Some old ->
  update_employee k new_pay_type new_pay_rate db
  = ({| employees :=
          map (fun r =>
                 if Z.eqb (id (e_data r)) k
                 then {| e_data := {| id := id (e_data r);
                                      pay_type := or_else new_pay_type
                                                    (pay_type (e_data old));
                                      pay_rate := or_else new_pay_rate
                                                    (pay_rate (e_data old)) |};
                         e_active := e_active r |}
                 else r)
              (employees db);
        schedules := schedules db;
        labor_costs := labor_costs db |}, true).
Proof. intros H. unfold update_employee. now rewrite H. Qed.

(** X19: [update_employee] answers [False] and changes nothing when no row has
    the id.  Otherwise it answers [True]; the row of the id then holds the
    values given, and its old value where none is given; the rows of the
    other ids, the [active] flags (a deleted employee stays deleted), the
    schedule rows and the daily totals are as before; and the pay type and
    pay rate a later calculation finds for the id are the new ones. *)
Theorem update_employee_sets_pay (k : Z) (new_pay_type : option string)
    (new_pay_rate : option Q) (db : Db) :
  (find_employee_row k db = None ->
   update_employee k new_pay_type new_pay_rate db = (db, false)) /\
  (forall old,
     find_employee_row k db = Some old ->
     let db' := fst (update_employee k new_pay_type new_pay_rate db) in
     let pay_type' := or_else new_pay_type (pay_type (e_data old)) in
     let pay_rate' := or_else new_pay_rate (pay_rate (e_data old)) in
     snd (update_employee k new_pay_type new_pay_rate db) = true /\
     find_employee_row k db'
     = Some {| e_data := {| id := k; pay_type := pay_type'; pay_rate := pay_rate' |};
               e_active := e_active old |} /\
     (forall k', k' <> k -> find_employee_row k' db' = find_employee_row k' db) /\
     map e_active (employees db') = map e_active (employees db) /\
     schedules db' = schedules db /\
     labor_costs db' = labor_costs db /\
     (forall emp,
        find_employee (get_all_employees db') k = Ok emp ->
        emp = {| id := k; pay_type := pay_type'; pay_rate := pay_rate' |})).
Proof.
  split.
  - intros H. unfold update_employee. now rewrite H.
  - intros old Hold. cbn zeta.
    rewrite (update_employee_found k new_pay_type new_pay_rate db old Hold).
    cbn [fst snd employees schedules labor_costs].
    split; [reflexivity |]. split; [| split; [| split; [| split; [| split]]]];
      try reflexivity.
    + unfold find_employee_row in *. cbn [employees].
      induction (employees db) as [| r l IH]; simpl in *; [discriminate |].
      destruct (Z.eqb (id (e_data r)) k) eqn:E; simpl.
      * rewrite E. injection Hold as <-. apply Z.eqb_eq in E. now rewrite E.
      * rewrite E. now apply IH.
    + intros k' Hne. unfold find_employee_row. cbn [employees].
      apply find_map_other.
      * intros r Hr. apply Z.eqb_eq in Hr.
        destruct (Z.eqb_spec (id (e_data r)) k) as [E | E]; [congruence | reflexivity].
      * intros r. now destruct (Z.eqb (id (e_data r)) k).
    + rewrite map_map. apply map_ext. intros r.
      now destruct (Z.eqb (id (e_data r)) k).
    + intros emp Hemp. apply find_employee_found in Hemp.
      destruct Hemp as (Hin & Hid).
      unfold get_all_employees in Hin. cbn [employees] in Hin.
      apply in_map_iff in Hin. destruct Hin as (r' & <- & Hr').
      apply filter_In in Hr'. destruct Hr' as (Hr' & _).
      apply in_map_iff in Hr'. destruct Hr' as (r & <- & _).
      destruct (Z.eqb_spec (id (e_data r)) k) as [E | E]; simpl in *.
      * now rewrite E.
      * contradiction.
Qed.

Lemma update_employee_sets_pay_witness :
  find_employee
    (get_all_employees (fst (update_employee 1 None (Some 25) Sample.empty_db))) 1
  = Ok {| id := 1; pay_type := "Hourly"; pay_rate := 25 |}.
Proof.
  destruct (find_employee
              (get_all_employees
                 (fst (update_employee 1 None (Some 25) Sample.empty_db))) 1)
    as [emp | e] eqn:E; [| vm_compute in E; discriminate].
  f_equal.
  apply (proj2 (proj2 (proj2 (proj2 (proj2 (proj2
           (proj2 (update_employee_sets_pay 1 None (Some 25) Sample.empty_db)
              {| e_data := Sample.cook; e_active := true |} eq_refl)))))) emp E).
Defined.

End EmployeeFacts.
